(** * ArchiveBox: configuration layering, INI-to-TOML migration and
    browser bin providers

A shallow embedding of
  - [archivebox/plugantic/ini_to_toml.py]
  - [archivebox/plugantic/base_configset.py]
  - [archivebox/plugins_pkg/puppeteer/apps.py]
  - [archivebox/plugins_pkg/playwright/apps.py]
and the properties of them that the specification states.

Conventions.  Python [str] is [string], and a [string] stands for the
text with the same characters when these are all below 128: [str.lower],
[str.upper], [str.isdigit], [str.strip] and the escapes of [json.dumps]
are given on ASCII text only.  A property of these on arbitrary text
says so with [PyStr.is_ascii].
A Python [dict] whose iteration order is observable is an association
list with the update-in-place semantics of [d[k] = v]; a dict that is
only looked up is a [gmap].  A Python exception is a value of [pyexc]
carried by [Raise]. *)

From stdpp Require Import base strings gmap list sorting pretty.
From Stdlib Require Import Ascii ZArith.

Set Warnings "-register-all,-clear-no-such-hyp,-notation-for-abbreviation,-deprecated".
Local Open Scope Z_scope.

(** ** Python values, exceptions and results *)

(** The holes of the two f-strings that the providers pass to [Exception]. *)
Inductive ExcMsg :=
| MsgText (msg : string)
| MsgInstallNotAvailable (class_name installer_bin : string)
| MsgInstallReturncode (class_name : string) (returncode : Z) (packages : list string).

Inductive pyexc :=
| AssertionError (msg : string)
| KeyError (key : string)
| TypeError (msg : string)
| ValueError (msg : string)
| AttributeError (msg : string)
| ValidationError (loc : string)
| TOMLDecodeError
| OtherError (class_name : string)
| Exception (msg : ExcMsg).

Inductive result (A : Type) :=
| Ok (a : A)
| Raise (e : pyexc).
Arguments Ok {A} a.
Arguments Raise {A} e.

(** Sequencing: the first exception raised ends the computation. *)
#[global] Instance result_ret : MRet result := λ A a, Ok a.
#[global] Instance result_bind : MBind result := λ A B k r,
  match r with
  | Ok a => k a
  | Raise e => Raise e
  end.

Definition is_ok {A} (r : result A) : bool :=
  match r with Ok _ => true | Raise _ => false end.

(** The values a config file, an INI literal or an environment variable can
    denote.  [VFloat] carries the float's [repr]; [VCallable f] is the
    function object given as the default of field [f]; [VOther] is any other
    object (bytes, set, complex, Ellipsis), known by the name of its type
    and its [repr]. *)
Inductive pyvalue :=
| VNone
| VBool (b : bool)
| VInt (n : Z)
| VFloat (repr : string)
| VStr (s : string)
| VList (l : list pyvalue)
| VTuple (l : list pyvalue)
| VDict (d : list (string * pyvalue))
| VCallable (field : string)
| VOther (type_name repr : string).

(** ** Python dicts with observable order *)

Module PyDict.
Section dict.
Context {V : Type}.

Fixpoint get (k : string) (d : list (string * V)) : option V :=
  match d with
  | [] => None
  | (k', v) :: d => if String.eqb k k' then Some v else get k d
  end.

(** [d[k] = v]: an existing key keeps its position, a new key goes last. *)
Fixpoint set (k : string) (v : V) (d : list (string * V)) : list (string * V) :=
  match d with
  | [] => [(k, v)]
  | (k', v') :: d =>
      if String.eqb k k' then (k, v) :: d else (k', v') :: set k v d
  end.

Definition keys (d : list (string * V)) : list string := d.*1.

Definition mem (k : string) (d : list (string * V)) : bool :=
  match get k d with Some _ => true | None => false end.

Definition of_items (l : list (string * V)) : list (string * V) :=
  foldl (λ d kv, set kv.1 kv.2 d) [] l.
End dict.
End PyDict.

(** ** Python string methods *)

Module PyStr.
Definition code (c : ascii) : N := N_of_ascii c.

Definition is_upper_char (c : ascii) : bool :=
  ((65 <=? code c) && (code c <=? 90))%N.
Definition is_lower_char (c : ascii) : bool :=
  ((97 <=? code c) && (code c <=? 122))%N.
Definition is_digit_char (c : ascii) : bool :=
  ((48 <=? code c) && (code c <=? 57))%N.

Definition lower_char (c : ascii) : ascii :=
  if is_upper_char c then ascii_of_N (code c + 32) else c.
Definition upper_char (c : ascii) : ascii :=
  if is_lower_char c then ascii_of_N (code c - 32) else c.

Fixpoint map (f : ascii → ascii) (s : string) : string :=
  match s with
  | "" => ""
  | String c s => String (f c) (map f s)
  end.

Fixpoint forallb (p : ascii → bool) (s : string) : bool :=
  match s with
  | "" => true
  | String c s => p c && forallb p s
  end.

Fixpoint existsb (p : ascii → bool) (s : string) : bool :=
  match s with
  | "" => false
  | String c s => p c || existsb p s
  end.

(** [s.lower()], [s.upper()] on ASCII text *)
Definition lower : string → string := map lower_char.
Definition upper : string → string := map upper_char.

(** [s.isdigit()] on ASCII text: at least one character, all of them
    digits. *)
Definition isdigit (s : string) : bool :=
  match s with
  | "" => false
  | _ => forallb is_digit_char s
  end.

(** The number a string of decimal digits writes. *)
Fixpoint int_go (acc : N) (s : string) : N :=
  match s with
  | "" => acc
  | String c s => int_go (10 * acc + (code c - 48)) s
  end.
Definition digits_value (s : string) : Z := Z.of_N (int_go 0 s).

(** [sys.get_int_max_str_digits()], as the interpreter starts. *)
Definition int_max_str_digits : nat := 4300.

(** What [int(s)] and [str(n)] say beyond the limit. *)
Definition MsgIntFromStr (digits : nat) : string :=
  "Exceeds the limit (4300 digits) for integer string conversion: value has "
  +:+ pretty digits +:+ " digits; use sys.set_int_max_str_digits() to increase the limit".
Definition MsgIntToStr : string :=
  "Exceeds the limit (4300 digits) for integer string conversion; "
  +:+ "use sys.set_int_max_str_digits() to increase the limit".

(** [int(s)] on a string of decimal digits: a string with more digits than
    the limit is refused. *)
Definition int (s : string) : result Z :=
  if decide (int_max_str_digits < String.length s)%nat
  then Raise (ValueError (MsgIntFromStr (String.length s)))
  else Ok (digits_value s).

(** Every character is below 128. *)
Definition is_ascii_char (c : ascii) : bool := (code c <? 128)%N.
Definition is_ascii (s : string) : bool := forallb is_ascii_char s.

(** The ASCII characters for which [str.isspace] holds. *)
Definition is_space_char (c : ascii) : bool :=
  ((9 <=? code c) && (code c <=? 13) || (28 <=? code c) && (code c <=? 32))%N.

Fixpoint lstrip (s : string) : string :=
  match s with
  | "" => ""
  | String c s' => if is_space_char c then lstrip s' else s
  end.

(** [rstrip] keeps a character when it is not a space or when something
    is kept after it. *)
Fixpoint rstrip (s : string) : string :=
  match s with
  | "" => ""
  | String c s' =>
      match rstrip s' with
      | "" => if is_space_char c then "" else String c ""
      | r => String c r
      end
  end.

(** [s.strip()] *)
Definition strip (s : string) : string := rstrip (lstrip s).

Fixpoint prefix (p s : string) : bool :=
  match p, s with
  | "", _ => true
  | String a p, String b s => Ascii.eqb a b && prefix p s
  | _, "" => false
  end.

(** [sub in s] *)
Fixpoint contains (sub s : string) : bool :=
  prefix sub s ||
  match s with
  | "" => false
  | String _ s' => contains sub s'
  end.

(** [s.split(sep)] for a one-character separator: never empty. *)
Fixpoint split (sep : ascii) (s : string) : list string :=
  match s with
  | "" => [""]
  | String c s' =>
      if Ascii.eqb c sep then "" :: split sep s'
      else match split sep s' with
           | [] => [String c ""]
           | w :: ws => String c w :: ws
           end
  end.

(** [s.split(sep, 1)] *)
Fixpoint split1 (sep : ascii) (s : string) : list string :=
  match s with
  | "" => [""]
  | String c s' =>
      if Ascii.eqb c sep then [""; s']
      else match split1 sep s' with
           | [] => [String c ""]
           | w :: ws => String c w :: ws
           end
  end.

(** [sep.join(l)] *)
Fixpoint join (sep : string) (l : list string) : string :=
  match l with
  | [] => ""
  | [s] => s
  | s :: l => s +:+ sep +:+ join sep l
  end.

(** The first character, if any, satisfies [p]. *)
Definition head_sat (p : ascii → bool) (s : string) : bool :=
  match s with
  | "" => false
  | String c _ => p c
  end.

(** The string is empty or its first character fails [p]. *)
Definition head_fails (p : ascii → bool) (s : string) : bool :=
  match s with
  | "" => true
  | String c _ => negb (p c)
  end.

(** [l[-1]] on a non-empty list, with a default for the empty one. *)
Definition last_or (d : string) (l : list string) : string :=
  List.last l d.
End PyStr.

Definition nl : string := String "010" "".

(** ** [json.dumps] *)

Definition dquote : ascii := "034"%char.

Module Json.
Definition hex_digit (n : N) : ascii :=
  match n with
  | 0 => "0" | 1 => "1" | 2 => "2" | 3 => "3" | 4 => "4" | 5 => "5"
  | 6 => "6" | 7 => "7" | 8 => "8" | 9 => "9" | 10 => "a" | 11 => "b"
  | 12 => "c" | 13 => "d" | 14 => "e" | _ => "f"
  end%char%N.

(** [ESCAPE_DCT] and the [\uXXXX] fallback of [encode_basestring_ascii]:
    the backslash, the double quote and everything outside the printable
    range (space to tilde) are escaped. *)
Definition escape_char (c : ascii) : string :=
  let n := PyStr.code c in
  if (n =? 34)%N then String "\" (String dquote "") else
  if (n =? 92)%N then "\\" else
  if (n =? 8)%N then "\b" else
  if (n =? 12)%N then "\f" else
  if (n =? 10)%N then "\n" else
  if (n =? 13)%N then "\r" else
  if (n =? 9)%N then "\t" else
  if ((32 <=? n) && (n <=? 126))%N then String c ""
  else "\u00" +:+ String (hex_digit (n / 16)) (String (hex_digit (n mod 16)) "").

Fixpoint escape (s : string) : string :=
  match s with
  | "" => ""
  | String c s => escape_char c +:+ escape s
  end.

Definition dumps_str (s : string) : string :=
  String dquote (escape s) +:+ String dquote "".

(** Apply [f] to each element in turn; the first exception ends it. *)
Definition map_result {A B} (f : A → result B) : list A → result (list B) :=
  fix go (l : list A) : result (list B) :=
    match l with
    | [] => Ok []
    | x :: l => y ← f x; ys ← go l; Ok (y :: ys)
    end.

(** [int.__repr__(n)]: refused when [n] has more decimal digits than the
    limit of the interpreter. *)
Definition int_repr (n : Z) : result string :=
  if decide (PyStr.int_max_str_digits < String.length (pretty (Z.abs n)))%nat
  then Raise (ValueError PyStr.MsgIntToStr)
  else Ok (pretty n).

(** [float.__repr__] as the encoder amends it for the values that are no
    numbers of JSON. *)
Definition float_repr (r : string) : string :=
  if String.eqb r "inf" then "Infinity"
  else if String.eqb r "-inf" then "-Infinity"
  else if String.eqb r "nan" then "NaN"
  else r.

(** [json.dumps(v)] with the default separators; an object that is not
    JSON serializable raises [TypeError]. *)
Fixpoint dumps (v : pyvalue) : result string :=
  match v with
  | VNone => Ok "null"
  | VBool true => Ok "true"
  | VBool false => Ok "false"
  | VInt n => int_repr n
  | VFloat r => Ok (float_repr r)
  | VStr s => Ok (dumps_str s)
  | VList l | VTuple l =>
      items ← map_result dumps l;
      Ok ("[" +:+ PyStr.join ", " items +:+ "]")
  | VDict d =>
      items ← map_result
                (λ kv : string * pyvalue,
                   let '(k, x) := kv in
                   s ← dumps x; Ok (dumps_str k +:+ ": " +:+ s)) d;
      Ok ("{" +:+ PyStr.join ", " items +:+ "}")
  | VCallable _ => Raise (TypeError "Object of type function is not JSON serializable")
  | VOther type_name _ =>
      Raise (TypeError ("Object of type " +:+ type_name +:+ " is not JSON serializable"))
  end.
End Json.

(** ** [plugantic/ini_to_toml.py] *)

Module IniToToml.
Definition TOML_HEADER : string :=
  "# Converted from INI to TOML format: https://toml.io/en/" +:+ nl +:+ nl.

(** What [configparser] hands to [convert]: [config.sections()] in file
    order, each with what [config.items(section)] gives when the loop comes
    to it: the items, values interpolated and the defaults of the file
    included, or the exception the interpolation of a value raises.  Section
    names are distinct (the parser is strict) and case is kept
    ([optionxform = str]). *)
Definition ini_config : Type := list (string * result (list (string * string))).

(** [toml_dict]: section name to (key to JSON text), in insertion order. *)
Definition toml_dict : Type := list (string * list (string * string)).

Section with_parsers.
(** [ast.literal_eval] and [json.loads]; [None] stands for any exception
    they raise, which [load_ini_value] swallows. *)
Context (literal_eval json_loads : string → option pyvalue).

(** [int(val)] is called outside any [try]: what it raises leaves the
    function. *)
Definition load_ini_value (val : string) : result pyvalue :=
  if bool_decide (PyStr.lower val ∈ ["true"; "yes"; "1"]) then Ok (VBool true)
  else if bool_decide (PyStr.lower val ∈ ["false"; "no"; "0"]) then Ok (VBool false)
  else if PyStr.isdigit val then n ← PyStr.int val; Ok (VInt n)
  else match literal_eval val with
       | Some v => Ok v
       | None =>
           match json_loads val with
           | Some v => Ok v
           | None => Ok (VStr val)
           end
       end.

(** [toml_dict[section.upper()][key.upper()] = json.dumps(parsed_value)]:
    the right-hand side is evaluated first, then the subscript. *)
Definition convert_item (section : string) (d : toml_dict)
    (kv : string * string) : result toml_dict :=
  parsed_value ← load_ini_value kv.2;
  dumped ← Json.dumps parsed_value;
  match PyDict.get (PyStr.upper section) d with
  | None => Raise (KeyError (PyStr.upper section))
  | Some tbl =>
      Ok (PyDict.set (PyStr.upper section)
            (PyDict.set (PyStr.upper kv.1) dumped tbl) d)
  end.

Fixpoint convert_items (section : string) (d : toml_dict)
    (items : list (string * string)) : result toml_dict :=
  match items with
  | [] => Ok d
  | kv :: items => d' ← convert_item section d kv; convert_items section d' items
  end.

Fixpoint convert_sections (d : toml_dict) (config : ini_config) : result toml_dict :=
  match config with
  | [] => Ok d
  | (section, items) :: config =>
      (* toml_dict[section] = {}, then config.items(section) *)
      items ← items;
      d' ← convert_items section (PyDict.set section [] d) items;
      convert_sections d' config
  end.

Definition render_item (kv : string * string) : string :=
  kv.1 +:+ " = " +:+ kv.2 +:+ nl.

Fixpoint concat_str (l : list string) : string :=
  match l with
  | [] => ""
  | s :: l => s +:+ concat_str l
  end.

Definition render_section (sec : string * list (string * string)) : string :=
  "[" +:+ sec.1 +:+ "]" +:+ nl +:+ concat_str (render_item <$> sec.2) +:+ nl.

Definition render (d : toml_dict) : string :=
  TOML_HEADER +:+ concat_str (render_section <$> d).

Definition convert (config : ini_config) : result string :=
  d ← convert_sections [] config;
  Ok (PyStr.strip (render d)).
End with_parsers.

(** A few entries of the graph of [ast.literal_eval] and of [json.loads],
    for running the definitions on concrete inputs. *)
Definition literal_eval_sample (s : string) : option pyvalue :=
  if String.eqb s "-5" then Some (VInt (-5))
  else if String.eqb s "['a', 'b']" then Some (VList [VStr "a"; VStr "b"])
  else if String.eqb s "None" then Some VNone
  else if String.eqb s "1.5" then Some (VFloat "1.5")
  else if String.eqb s "b'x'" then Some (VOther "bytes" "b'x'")
  else None.

Definition json_loads_sample (s : string) : option pyvalue :=
  if String.eqb s "-5" then Some (VInt (-5))
  else if String.eqb s "null" then Some VNone
  else if String.eqb s "1.5" then Some (VFloat "1.5")
  else if String.eqb s "[true, false]" then Some (VList [VBool true; VBool false])
  else None.
End IniToToml.

(** ** Vocabulary of the properties of [load_ini_value] and [convert] *)

Module IniSpec.
Import IniToToml.

(** *** [ValueCoercion.coerce], as the specification words it

    Written on the characters of the text, with none of the string methods
    the code calls. *)

(** Where the character stands in the text, if it does. *)
Definition position (c : ascii) (text : string) : option nat :=
  String.index 0 (String c "") text.

(** The lower-case letter of an upper-case letter, any other character
    itself. *)
Definition fold_case (c : ascii) : ascii :=
  match position c "ABCDEFGHIJKLMNOPQRSTUVWXYZ" with
  | Some i => from_option id c (String.get i "abcdefghijklmnopqrstuvwxyz")
  | None => c
  end.

(** The two texts are the same up to the case of their letters. *)
Fixpoint same_nocase (a b : string) : bool :=
  match a, b with
  | "", "" => true
  | String x a, String y b => Ascii.eqb (fold_case x) (fold_case y) && same_nocase a b
  | _, _ => false
  end.

(** [true/yes/1] and [false/no/0], case-insensitive. *)
Definition bool_literal (raw : string) : option bool :=
  if same_nocase raw "true" || same_nocase raw "yes" || same_nocase raw "1" then Some true
  else if same_nocase raw "false" || same_nocase raw "no" || same_nocase raw "0" then Some false
  else None.

(** The value of a decimal digit. *)
Definition digit_value (c : ascii) : option Z :=
  Z.of_nat <$> position c "0123456789".

Fixpoint decimal (acc : Z) (s : string) : option Z :=
  match s with
  | "" => Some acc
  | String c s => d ← digit_value c; decimal (10 * acc + d) s
  end.

(** An integer literal: one decimal digit or more. *)
Definition integer_literal (raw : string) : option Z :=
  match raw with
  | "" => None
  | _ => decimal 0 raw
  end.

Fixpoint first_success (attempts : list (option pyvalue)) (fallback : pyvalue) : pyvalue :=
  match attempts with
  | [] => fallback
  | Some v :: _ => v
  | None :: attempts => first_success attempts fallback
  end.

(** The four parses in their order, the text itself when all fail. *)
Definition coerce (literal_eval json_loads : string → option pyvalue) (raw : string) : pyvalue :=
  first_success
    [ VBool <$> bool_literal raw;
      VInt <$> integer_literal raw;
      literal_eval raw;
      json_loads raw ]
    (VStr raw).

(** The text is no integer literal of more digits than [int] accepts. *)
Definition within_int_limit (raw : string) : bool :=
  match integer_literal raw with
  | Some _ => bool_decide (String.length raw ≤ PyStr.int_max_str_digits)%nat
  | None => true
  end.

(** *** Legacy files *)

(** The name has a lower-case letter. *)
Definition has_lower (s : string) : bool := PyStr.existsb PyStr.is_lower_char s.

(** Section names, keys and values are ASCII text. *)
Definition ascii_text (config : ini_config) : bool :=
  forallb (λ sec : string * result (list (string * string)),
    PyStr.is_ascii sec.1
    && match sec.2 with
       | Ok items =>
           forallb (λ kv : string * string, PyStr.is_ascii kv.1 && PyStr.is_ascii kv.2) items
       | Raise _ => true
       end) config.

(** [configparser] gives the items of every section, and every value loads
    as something [json.dumps] accepts. *)
Definition all_serializable (literal_eval json_loads : string → option pyvalue)
    (config : ini_config) : bool :=
  forallb (λ sec : string * result (list (string * string)),
    match sec.2 with
    | Ok items =>
        forallb (λ kv : string * string,
          is_ok (v ← load_ini_value literal_eval json_loads kv.2; Json.dumps v)) items
    | Raise _ => false
    end) config.

(** The first section, in file order, that has an item and whose upper-cased
    name is neither its own name nor the name of a section before it;
    [seen] are the names before [config]. *)
Fixpoint first_orphan (seen : list string) (config : ini_config) : option string :=
  match config with
  | [] => None
  | (section, items) :: config =>
      match items with
      | Ok (_ :: _) =>
          if bool_decide (PyStr.upper section ∈ section :: seen)
          then first_orphan (section :: seen) config
          else Some (PyStr.upper section)
      | _ => first_orphan (section :: seen) config
      end
  end.
End IniSpec.

(** ** [plugantic/base_configset.py] *)

Module ConfigSet.

Definition ConfigSectionNames : list string :=
  [ "SHELL_CONFIG"; "GENERAL_CONFIG"; "STORAGE_CONFIG"; "SERVER_CONFIG";
    "ARCHIVING_CONFIG"; "LDAP_CONFIG"; "ARCHIVE_METHOD_TOGGLES";
    "ARCHIVE_METHOD_OPTIONS"; "SEARCH_BACKEND_CONFIG"; "DEPENDENCY_CONFIG" ].

(** *** The schema of a config set *)

(** The annotations the fields modelled here carry. *)
Inductive FieldType := TAny | TBool | TInt | TStr.

(** [Field(default=...)]: a constant, [lambda: ...] or [lambda cfg: ...];
    [Required] is a field declared without a default. *)
Inductive Default :=
| Required
| Constant (v : pyvalue)
| NoArgs (f : unit → pyvalue)
| TakesConfig (f : gmap string pyvalue → pyvalue).

(** A field without a validation alias: its key in every source is its
    name. *)
Record ConfigField := {
  name : string;
  annotation : FieldType;
  default : Default;
}.

(** [settings_cls.model_fields], in declaration order. *)
Definition Schema : Type := list ConfigField.

Definition model_fields_keys (schema : Schema) : list string := name <$> schema.

Definition lookup_field (schema : Schema) (key : string) : option ConfigField :=
  List.find (λ f, String.eqb (name f) key) schema.

(** *** [FlatTomlConfigSettingsSource.__init__] *)

(** The loop that flattens [nested_toml_data] into [toml_data]. *)
Definition flatten_entry (toml_data : list (string * pyvalue))
    (entry : string * pyvalue) : list (string * pyvalue) :=
  let '(section_name, section) := entry in
  match section with
  | VDict items =>
      if bool_decide (section_name ∈ ConfigSectionNames)
      then foldl (λ data kv, PyDict.set kv.1 kv.2 data) toml_data items
      else PyDict.set section_name section toml_data
  | _ => PyDict.set section_name section toml_data
  end.

Definition flatten (nested_toml_data : list (string * pyvalue)) : list (string * pyvalue) :=
  foldl flatten_entry [] nested_toml_data.

(** [{key: value for key, value in toml_data.items() if key in model_fields}] *)
Definition filter_fields (schema : Schema) (toml_data : list (string * pyvalue))
    : list (string * pyvalue) :=
  List.filter (λ kv, bool_decide (kv.1 ∈ model_fields_keys schema)) toml_data.

Definition FlatToml_init (schema : Schema) (nested_toml_data : list (string * pyvalue))
    : list (string * pyvalue) :=
  filter_fields schema (flatten nested_toml_data).

(** *** Settings sources and how pydantic-settings merges them *)

Inductive Source :=
| InitSettings (init_kwargs : list (string * pyvalue))
| EnvSettings (environ : gmap string string)
| FlatTomlConfigSettingsSource (toml_data : list (string * pyvalue)).

(** [EnvSettingsSource.__call__]: every field whose name is set in the
    environment, with the raw string. *)
Definition env_call (schema : Schema) (environ : gmap string string) : list (string * pyvalue) :=
  omap (λ f, (λ s, (name f, VStr s)) <$> environ !! name f) schema.

Definition source_call (schema : Schema) (src : Source) : list (string * pyvalue) :=
  match src with
  | InitSettings init_kwargs => init_kwargs
  | EnvSettings environ => env_call schema environ
  | FlatTomlConfigSettingsSource toml_data => toml_data
  end.

(** The loop of [deep_update]: each pair of [updating] is written into
    [mapping]; [merge old new] is what replaces a value that is there. *)
Definition update_items (merge : pyvalue → pyvalue → pyvalue)
    : list (string * pyvalue) → list (string * pyvalue) → list (string * pyvalue) :=
  fix go (updating mapping : list (string * pyvalue)) {struct updating} :=
    match updating with
    | [] => mapping
    | (k, v) :: updating =>
        go updating
           (PyDict.set k (match PyDict.get k mapping with
                          | Some old => merge old v
                          | None => v
                          end) mapping)
    end.

(** [pydantic.v1.utils.deep_update(mapping, updating)]: [updating] wins,
    two dicts under the same key are merged key by key. *)
Fixpoint deep_update_value (base upd : pyvalue) {struct upd} : pyvalue :=
  match upd, base with
  | VDict updating, VDict mapping => VDict (update_items deep_update_value updating mapping)
  | _, _ => upd
  end.

Definition deep_update (mapping updating : list (string * pyvalue)) : list (string * pyvalue) :=
  update_items deep_update_value updating mapping.

(** [BaseSettings._settings_build_values]:
    [for source in sources: state = deep_update(source(), state)].  What an
    earlier source of the tuple sets is kept: pydantic-settings documents
    that the first source returned by [settings_customise_sources] has the
    highest priority. *)
Definition settings_build_values (schema : Schema) (sources : list Source)
    : list (string * pyvalue) :=
  foldl (λ state src, deep_update (source_call schema src) state) [] sources.

(** *** Validation *)

Definition is_int_text (s : string) : bool :=
  match s with
  | String "-" digits => PyStr.isdigit digits
  | _ => PyStr.isdigit s
  end.

Definition int_of_text (s : string) : Z :=
  match s with
  | String "-" digits => - PyStr.digits_value digits
  | _ => PyStr.digits_value s
  end.

(** [TypeAdapter(annotation).validate_python(value)] in lax mode, on the
    inputs that occur here: a value of the annotated type is kept, the text
    of an environment variable is converted, a function object is not a
    [bool], [int] or [str]. *)
Definition validate_python (loc : string) (ty : FieldType) (v : pyvalue) : result pyvalue :=
  match ty, v with
  | TAny, _ => Ok v
  | TBool, VBool _ => Ok v
  | TBool, VStr s =>
      if bool_decide (PyStr.lower s ∈ ["1"; "on"; "t"; "true"; "y"; "yes"]) then Ok (VBool true)
      else if bool_decide (PyStr.lower s ∈ ["0"; "off"; "f"; "false"; "n"; "no"]) then Ok (VBool false)
      else Raise (ValidationError loc)
  | TInt, VInt _ => Ok v
  | TInt, VStr s => if is_int_text s then Ok (VInt (int_of_text s)) else Raise (ValidationError loc)
  | TStr, VStr _ => Ok v
  | _, _ => Raise (ValidationError loc)
  end.

(** The attribute a field gets from the merged state: the validated value
    when the state has the key, the default as it stands otherwise
    ([validate_default=False]); a default that is a function stays a function
    object. *)
Definition default_attr (f : ConfigField) : result pyvalue :=
  match default f with
  | Required => Raise (ValidationError (name f))
  | Constant v => Ok v
  | NoArgs _ | TakesConfig _ => Ok (VCallable (name f))
  end.

Definition validate_field (state : list (string * pyvalue)) (f : ConfigField) : result pyvalue :=
  match PyDict.get (name f) state with
  | Some v => validate_python (name f) (annotation f) v
  | None => default_attr f
  end.

(** Model validation: one attribute per declared field; keys of the state
    that are no fields are dropped ([extra="ignore"]). *)
Fixpoint validate_model (state : list (string * pyvalue)) (schema : Schema)
    : result (gmap string pyvalue) :=
  match schema with
  | [] => Ok ∅
  | f :: schema =>
      v ← validate_field state f;
      self ← validate_model state schema;
      Ok (<[name f := v]> self)
  end.

(** *** [ArchiveBoxBaseConfig.fill_defaults] *)

(** [func_takes_args_or_kwargs(value)] for the function object that is the
    default of field [g]. *)
Definition func_takes_args_or_kwargs (schema : Schema) (g : string) : bool :=
  match default <$> lookup_field schema g with
  | Some (TakesConfig _) => true
  | _ => false
  end.

(** [field.default(config_so_far)] or [field.default()]. *)
Definition call_default (f : ConfigField) (takes_args : bool)
    (config_so_far : gmap string pyvalue) : result pyvalue :=
  match default f, takes_args with
  | TakesConfig fn, true => Ok (fn config_so_far)
  | NoArgs fn, false => Ok (fn ())
  | TakesConfig _, false => Raise (TypeError "missing 1 required positional argument")
  | NoArgs _, true => Raise (TypeError "takes 0 positional arguments but 1 was given")
  | _, _ => Raise (TypeError "object is not callable")
  end.

(** One iteration of the loop over [self.model_fields.items()];
    [setattr(self, key, computed_default)] stores the value as validated
    against the annotation ([validate_assignment=True]). *)
Definition fill_default (schema : Schema) (self : gmap string pyvalue) (f : ConfigField)
    : result (gmap string pyvalue) :=
  match self !! name f with
  | None => Raise (AttributeError (name f))
  | Some (VCallable g) =>
      computed_default ← call_default f (func_takes_args_or_kwargs schema g) self;
      checked ← validate_python (name f) (annotation f) computed_default;
      Ok (<[name f := checked]> self)
  | Some _ => Ok self
  end.

Fixpoint fill_defaults_from (schema : Schema) (self : gmap string pyvalue)
    (fields : list ConfigField) : result (gmap string pyvalue) :=
  match fields with
  | [] => Ok self
  | f :: fields => self' ← fill_default schema self f; fill_defaults_from schema self' fields
  end.

Definition fill_defaults (schema : Schema) (self : gmap string pyvalue)
    : result (gmap string pyvalue) :=
  fill_defaults_from schema self schema.

(** [BaseSettings.__init__] once the sources are chosen: merge, validate,
    then the [after] validator. *)
Definition build_model (schema : Schema) (sources : list Source) : result (gmap string pyvalue) :=
  self ← validate_model (settings_build_values schema sources) schema;
  fill_defaults schema self.
End ConfigSet.

(** ** Stateful computations that may raise

    A computation over a state [S]: what was written before an exception
    stays written. *)

Definition io (S A : Type) : Type := S → result A * S.

Definition io_ret {S A} (a : A) : io S A := λ st, (Ok a, st).
Definition io_raise {S A} (e : pyexc) : io S A := λ st, (Raise e, st).
Definition io_bind {S A B} (m : io S A) (k : A → io S B) : io S B :=
  λ st, match m st with
        | (Ok a, st') => k a st'
        | (Raise e, st') => (Raise e, st')
        end.
Definition io_lift {S A} (r : result A) : io S A := λ st, (r, st).
Definition io_get {S} : io S S := λ st, (Ok st, st).
Definition io_put {S} (st : S) : io S unit := λ _, (Ok (), st).

(** [try: body except Exception as err: handler(err)] *)
Definition io_try {S A} (body : io S A) (handler : pyexc → io S A) : io S A :=
  λ st, match body st with
        | (Ok a, st') => (Ok a, st')
        | (Raise e, st') => handler e st'
        end.

(** [assert cond, msg] *)
Definition py_assert {S} (cond : bool) (msg : string) : io S unit :=
  if cond then io_ret () else io_raise (AssertionError msg).

(** ** [ArchiveBoxBaseConfig.settings_customise_sources] *)

Module Settings.
Import ConfigSet.

(** The two files the classmethod touches, [DATA_DIR / "ArchiveBox.conf"]
    and [DATA_DIR / ".ArchiveBox.conf.bak"]: their text, or [None] when
    there is no such file. *)
Record Files := {
  ARCHIVEBOX_CONFIG_FILE : option string;
  ARCHIVEBOX_CONFIG_FILE_BAK : option string;
}.

(** The computations of this module run over the two files. *)
Notation io := (io Files).

Definition read_config_text : io string :=
  λ fs, match ARCHIVEBOX_CONFIG_FILE fs with
        | Some text => (Ok text, fs)
        | None => (Raise (OtherError "FileNotFoundError"), fs)
        end.

Definition write_config_text (text : string) : io unit :=
  λ fs, (Ok (), {| ARCHIVEBOX_CONFIG_FILE := Some text;
                   ARCHIVEBOX_CONFIG_FILE_BAK := ARCHIVEBOX_CONFIG_FILE_BAK fs |}).

Definition write_backup_text (text : string) : io unit :=
  λ fs, (Ok (), {| ARCHIVEBOX_CONFIG_FILE := ARCHIVEBOX_CONFIG_FILE fs;
                   ARCHIVEBOX_CONFIG_FILE_BAK := Some text |}).

(** The load switches of the class. *)
Record LoadFlags := {
  load_from_defaults : bool;
  load_from_configfile : bool;
  load_from_environment : bool;
}.

Definition all_layers : LoadFlags :=
  {| load_from_defaults := true; load_from_configfile := true; load_from_environment := true |}.

(** [precedence_order.pop(key)] *)
Definition pop (key : string) (d : list (string * Source)) : result (list (string * Source)) :=
  match PyDict.get key d with
  | Some _ => Ok (List.filter (λ kv, negb (String.eqb kv.1 key)) d)
  | None => Raise (KeyError key)
  end.

Section with_host.
(** The libraries behind the classmethod: the TOML parser of
    [TomlConfigSettingsSource] ([None] is [TOMLDecodeError]), [configparser]
    reading the legacy text, and the two literal parsers of
    [load_ini_value]. *)
Context (toml_loads : string → option (list (string * pyvalue))).
Context (read_string : string → result IniToToml.ini_config).
Context (literal_eval json_loads : string → option pyvalue).

(** [ini_to_toml.convert(ini_str)] *)
Definition convert_text (ini_str : string) : result string :=
  config ← read_string ini_str;
  IniToToml.convert literal_eval json_loads config.

(** [FlatTomlConfigSettingsSource(settings_cls, toml_file=...)]:
    [_read_files] parses the file when it is one and gives [{}] otherwise. *)
Definition FlatToml (schema : Schema) : io Source :=
  λ fs, match ARCHIVEBOX_CONFIG_FILE fs with
        | None => (Ok (FlatTomlConfigSettingsSource (FlatToml_init schema [])), fs)
        | Some text =>
            match toml_loads text with
            | Some nested_toml_data =>
                (Ok (FlatTomlConfigSettingsSource (FlatToml_init schema nested_toml_data)), fs)
            | None => (Raise TOMLDecodeError, fs)
            end
        end.

Definition three_layers (init_settings env_settings configfile : Source)
    : list (string * Source) :=
  [("defaults", init_settings); ("configfile", configfile); ("environment", env_settings)].

Definition is_TOMLDecodeError (e : pyexc) : bool :=
  match e with TOMLDecodeError => true | _ => false end.

Definition settings_customise_sources (flags : LoadFlags) (schema : Schema)
    (init_settings env_settings : Source) : io (list Source) :=
  io_bind
    (λ fs,
       (* if not ARCHIVEBOX_CONFIG_FILE.is_file() *)
       let precedence_order : list (string * Source) :=
         match ARCHIVEBOX_CONFIG_FILE fs with
         | None => [("defaults", init_settings); ("environment", env_settings)]
         | Some _ => []
         end in
       io_try
         (match precedence_order with
          | _ :: _ => io_ret precedence_order
          | [] => io_bind (FlatToml schema)
                    (λ configfile, io_ret (three_layers init_settings env_settings configfile))
          end)
         (λ err,
            if is_TOMLDecodeError err then
              io_bind read_config_text (λ original_ini,
              io_bind (write_backup_text original_ini) (λ _,
              io_bind (io_lift (convert_text original_ini)) (λ new_toml,
              io_bind (write_config_text new_toml) (λ _,
              io_bind (FlatToml schema) (λ configfile,
              io_ret (three_layers init_settings env_settings configfile))))))
            else io_raise err)
         fs)
    (λ precedence_order,
       io_lift (
         p1 ← (if load_from_environment flags then Ok precedence_order
                else pop "environment" precedence_order);
         p2 ← (if load_from_configfile flags then Ok p1 else pop "configfile" p1);
         p3 ← (if load_from_defaults flags then Ok p2 else pop "defaults" p2);
         Ok (p3.*2))).

(** [settings_cls()]: the sources are chosen with the process environment
    and no keyword arguments, then the model is built. *)
Definition load_config (flags : LoadFlags) (schema : Schema)
    (init_kwargs : list (string * pyvalue)) (environ : gmap string string)
    : io (gmap string pyvalue) :=
  io_bind (settings_customise_sources flags schema (InitSettings init_kwargs) (EnvSettings environ))
    (λ sources, io_lift (build_model schema sources)).
End with_host.
End Settings.

(** ** Reading TOML

    The part of TOML v1.0 that [convert] writes and a little more: comment
    and blank lines, [[table]] headers and [key = value] pairs with bare
    keys, and values that are booleans, decimal integers, basic strings or
    arrays of these on one line.  [None] is the answer to a text that is no
    TOML and also to TOML outside this part (floats, dates, inline tables,
    dotted or quoted keys, longer escapes): [loads] speaks for the parser of
    the host only on the texts of the first kind and on those it reads. *)

Module Toml.

Definition is_bare_char (c : ascii) : bool :=
  PyStr.is_upper_char c || PyStr.is_lower_char c || PyStr.is_digit_char c
  || Ascii.eqb c "_" || Ascii.eqb c "-".

Definition is_bare_key (s : string) : bool :=
  match s with
  | "" => false
  | _ => PyStr.forallb is_bare_char s
  end.

Definition is_ws (c : ascii) : bool := Ascii.eqb c " " || Ascii.eqb c "009".

Fixpoint skip_ws (s : string) : string :=
  match s with
  | String c s' => if is_ws c then skip_ws s' else s
  | "" => ""
  end.

(** The longest prefix of characters satisfying [p], and what follows. *)
Fixpoint span (p : ascii → bool) (s : string) : string * string :=
  match s with
  | String c s' =>
      if p c then let '(a, b) := span p s' in (String c a, b) else ("", s)
  | "" => ("", "")
  end.

Definition hex_value (c : ascii) : option N :=
  let n := PyStr.code c in
  if PyStr.is_digit_char c then Some (n - 48)%N
  else if ((97 <=? n) && (n <=? 102))%N then Some (n - 87)%N
  else if ((65 <=? n) && (n <=? 70))%N then Some (n - 55)%N
  else None.

(** [\uXXXX] for a code point that is a character of [string]. *)
Definition unescape_u (h1 h2 h3 h4 : ascii) : option ascii :=
  a ← hex_value h1; b ← hex_value h2; c ← hex_value h3; d ← hex_value h4;
  if ((a =? 0) && (b =? 0))%N then Some (ascii_of_N (16 * c + d)) else None.

Definition simple_escape (e : ascii) : option ascii :=
  if Ascii.eqb e "b" then Some "008"%char
  else if Ascii.eqb e "t" then Some "009"%char
  else if Ascii.eqb e "n" then Some "010"%char
  else if Ascii.eqb e "f" then Some "012"%char
  else if Ascii.eqb e "r" then Some "013"%char
  else if Ascii.eqb e dquote then Some dquote
  else if Ascii.eqb e "\" then Some "\"%char
  else None.

(** A control character other than tab may not stand in a basic string. *)
Definition is_forbidden_char (c : ascii) : bool :=
  let n := PyStr.code c in
  ((n <? 32) && negb (n =? 9) || (n =? 127))%N.

(** The body of a basic string, after its opening quote: the text it
    denotes and what follows the closing quote. *)
Fixpoint basic_string_body (s : string) : option (string * string) :=
  match s with
  | "" => None
  | String c s' =>
      if Ascii.eqb c dquote then Some ("", s')
      else if Ascii.eqb c "\" then
        match s' with
        | String e s'' =>
            if Ascii.eqb e "u" then
              match s'' with
              | String h1 (String h2 (String h3 (String h4 s3))) =>
                  x ← unescape_u h1 h2 h3 h4;
                  '(body, rest) ← basic_string_body s3;
                  Some (String x body, rest)
              | _ => None
              end
            else
              x ← simple_escape e;
              '(body, rest) ← basic_string_body s'';
              Some (String x body, rest)
        | "" => None
        end
      else if is_forbidden_char c then None
      else '(body, rest) ← basic_string_body s'; Some (String c body, rest)
  end.

(** A decimal integer: an optional sign, then digits without a leading
    zero. *)
Definition integer_of_digits (negative : bool) (s1 : string) : option (Z * string) :=
  let '(digits, rest) := span PyStr.is_digit_char s1 in
  let n := if negative then - PyStr.digits_value digits else PyStr.digits_value digits in
  match digits with
  | "" => None
  | String c "" => Some (n, rest)
  | String c _ => if Ascii.eqb c "0" then None else Some (n, rest)
  end.

Definition integer (s : string) : option (Z * string) :=
  match s with
  | String c s' =>
      if Ascii.eqb c "-" then integer_of_digits true s'
      else if Ascii.eqb c "+" then integer_of_digits false s'
      else integer_of_digits false s
  | "" => None
  end.

Fixpoint drop (n : nat) (s : string) : string :=
  match n, s with
  | S n, String _ s' => drop n s'
  | _, _ => s
  end.

(** The string starts with the character [c]. *)
Definition head_is (c : ascii) (s : string) : bool :=
  match s with
  | String x _ => Ascii.eqb x c
  | "" => false
  end.

(** A value at the head of [s], and what follows it. *)
Fixpoint value (fuel : nat) (s : string) : option (pyvalue * string) :=
  match fuel with
  | O => None
  | S fuel =>
      if PyStr.prefix "true" s then Some (VBool true, drop 4 s)
      else if PyStr.prefix "false" s then Some (VBool false, drop 5 s)
      else match s with
           | String c s' =>
               if Ascii.eqb c dquote then
                 '(body, rest) ← basic_string_body s'; Some (VStr body, rest)
               else if Ascii.eqb c "[" then
                 '(items, rest) ← array_items fuel (skip_ws s'); Some (VList items, rest)
               else '(n, rest) ← integer s; Some (VInt n, rest)
           | "" => None
           end
  end
with array_items (fuel : nat) (s : string) : option (list pyvalue * string) :=
  match fuel with
  | O => None
  | S fuel =>
      if head_is "]" s then Some ([], drop 1 s)
      else
        '(v, s1) ← value fuel s;
        let s1 := skip_ws s1 in
        if head_is "," s1 then
          '(vs, rest) ← array_items fuel (skip_ws (drop 1 s1)); Some (v :: vs, rest)
        else if head_is "]" s1 then Some ([v], drop 1 s1)
        else None
  end.

(** What may follow a value or a header on its line: blanks, then nothing
    or a comment. *)
Definition line_end (s : string) : bool :=
  match skip_ws s with
  | "" => true
  | String c _ => Ascii.eqb c "#"
  end.

Inductive Line :=
| Blank
| Header (table : string)
| Pair (key : string) (v : pyvalue).

Definition line (l : string) : option Line :=
  let s := skip_ws l in
  match s with
  | "" => Some Blank
  | String c s' =>
      if Ascii.eqb c "#" then Some Blank
      else if Ascii.eqb c "[" then
        let '(table, rest) := span is_bare_char s' in
        if head_is "]" rest && is_bare_key table && line_end (drop 1 rest)
        then Some (Header table) else None
      else
        let '(key, rest) := span is_bare_char s in
        let rest := skip_ws rest in
        if is_bare_key key && head_is "=" rest then
          '(v, rest') ← value (String.length rest) (skip_ws (drop 1 rest));
          if line_end rest' then Some (Pair key v) else None
        else None
  end.

(** The document read so far: the top-level pairs and tables in order, and
    the table that pairs currently go to. *)
Definition add_line (st : list (string * pyvalue) * option string) (l : Line)
    : option (list (string * pyvalue) * option string) :=
  let '(doc, current) := st in
  match l with
  | Blank => Some st
  | Header table =>
      match PyDict.get table doc with
      | Some _ => None
      | None => Some (PyDict.set table (VDict []) doc, Some table)
      end
  | Pair key v =>
      match current with
      | None =>
          match PyDict.get key doc with
          | Some _ => None
          | None => Some (PyDict.set key v doc, None)
          end
      | Some table =>
          match PyDict.get table doc with
          | Some (VDict items) =>
              match PyDict.get key items with
              | Some _ => None
              | None => Some (PyDict.set table (VDict (PyDict.set key v items)) doc, current)
              end
          | _ => None
          end
      end
  end.

Fixpoint add_lines (st : list (string * pyvalue) * option string) (ls : list string)
    : option (list (string * pyvalue) * option string) :=
  match ls with
  | [] => Some st
  | l :: ls => parsed ← line l; st' ← add_line st parsed; add_lines st' ls
  end.

Definition loads (text : string) : option (list (string * pyvalue)) :=
  fst <$> add_lines ([], None) (PyStr.split "010" text).
End Toml.

(** ** Sample config sets *)

Module Samples.
Import ConfigSet.

(** [TIMEOUT: int = 60] and [MEDIA_TIMEOUT: int = Field(default=lambda cfg: cfg.TIMEOUT)] *)
Definition TIMEOUT : ConfigField :=
  {| name := "TIMEOUT"; annotation := TInt; default := Constant (VInt 60) |}.

Definition read_TIMEOUT (cfg : gmap string pyvalue) : pyvalue :=
  from_option id VNone (cfg !! "TIMEOUT").

Definition MEDIA_TIMEOUT : ConfigField :=
  {| name := "MEDIA_TIMEOUT"; annotation := TInt; default := TakesConfig read_TIMEOUT |}.

Definition ArchivingConfig : Schema := [TIMEOUT; MEDIA_TIMEOUT].

(** A function default that reads a field declared after it. *)
Definition read_B (cfg : gmap string pyvalue) : pyvalue := from_option id VNone (cfg !! "B").

Definition A_reads_B : ConfigField :=
  {| name := "A"; annotation := TInt; default := TakesConfig read_B |}.

Definition B_computed : ConfigField :=
  {| name := "B"; annotation := TInt; default := NoArgs (λ _, VInt 5) |}.

Definition ForwardConfig : Schema := [A_reads_B; B_computed].

(** The two legacy files used below: INI with [:] between key and value,
    which TOML refuses. *)
Definition legacy_upper : string :=
  "[SERVER_CONFIG]" +:+ nl +:+ "TIMEOUT : 30" +:+ nl.
Definition legacy_lower : string :=
  "[general]" +:+ nl +:+ "TIMEOUT : 30" +:+ nl.

(** [configparser] on the two legacy files, and on a text with no section
    header; other texts are not in this table. *)
Definition read_string_sample (ini_str : string) : result IniToToml.ini_config :=
  if String.eqb ini_str legacy_upper
  then Ok [("SERVER_CONFIG", Ok [("TIMEOUT", "30")])]
  else if String.eqb ini_str legacy_lower
  then Ok [("general", Ok [("TIMEOUT", "30")])]
  else Raise (OtherError "MissingSectionHeaderError").

Definition no_files : Settings.Files :=
  {| Settings.ARCHIVEBOX_CONFIG_FILE := None; Settings.ARCHIVEBOX_CONFIG_FILE_BAK := None |}.

Definition only_config (text : string) : Settings.Files :=
  {| Settings.ARCHIVEBOX_CONFIG_FILE := Some text; Settings.ARCHIVEBOX_CONFIG_FILE_BAK := None |}.

(** [YtdlpConfig()], [PuppeteerConfigs()]: how the config sets are built,
    on a host whose files are texts that [Toml.loads] reads or that are no
    TOML. *)
Definition load (schema : Schema) (environ : gmap string string)
    : Settings.io (gmap string pyvalue) :=
  Settings.load_config Toml.loads read_string_sample
    IniToToml.literal_eval_sample IniToToml.json_loads_sample
    Settings.all_layers schema [] environ.

(** ["9" * n] *)
Fixpoint nines (n : nat) : string :=
  match n with
  | O => ""
  | S n => String "9" (nines n)
  end.

Definition no_configfile : Settings.LoadFlags :=
  {| Settings.load_from_defaults := true; Settings.load_from_configfile := false;
     Settings.load_from_environment := true |}.
End Samples.

(** [isinstance(value, Callable)] *)
Definition is_callable (v : pyvalue) : bool :=
  match v with VCallable _ => true | _ => false end.

(** ** [pathlib.Path] *)

Module PyPath.

(** A path is its [str()]. *)
Definition Path : Type := string.

(** [Path(s)] on POSIX: repeated and trailing slashes and [.] components go,
    two leading slashes (and only two) are kept. *)
Definition of_str (s : string) : Path :=
  let root :=
    if PyStr.prefix "//" s && negb (PyStr.prefix "///" s) then "//"
    else if PyStr.prefix "/" s then "/" else "" in
  let comps :=
    List.filter (λ c, negb (String.eqb c "") && negb (String.eqb c "."))
      (PyStr.split "/" s) in
  match root, comps with
  | "", [] => "."
  | _, _ => root +:+ PyStr.join "/" comps
  end.

(** What [Path.__lt__] compares: the components of the path. *)
Definition parts_normcase (p : Path) : list string := PyStr.split "/" p.

(** [a <= b] on lists of strings: the first differing component decides, a
    proper prefix is smaller. *)
Fixpoint parts_leb (a b : list string) : bool :=
  match a, b with
  | [], _ => true
  | _ :: _, [] => false
  | x :: a, y :: b => if String.eqb x y then parts_leb a b else String.leb x y
  end.

Definition le (p q : Path) : Prop := parts_leb (parts_normcase p) (parts_normcase q) = true.

#[global] Instance le_dec : RelDecision le.
Proof. intros p q. unfold le. apply _. Defined.

(** [sorted(paths)] *)
Definition sorted (paths : list Path) : list Path := merge_sort le paths.
End PyPath.

(** ** Two orders on paths, stated without the code's comparison

    The order in which [pathlib] compares two paths, written out on the text
    of the paths, and the lexical order of the text itself. *)

Module PathSpec.

(** The text cut at every slash; [current] is the component being read. *)
Fixpoint components_from (current text : string) : list string :=
  match text with
  | "" => [current]
  | String c text =>
      if Ascii.eqb c "/" then current :: components_from "" text
      else components_from (current +:+ String c "") text
  end.

Definition components (text : string) : list string := components_from "" text.

(** The first component that differs decides, by the order of its text; a
    sequence that runs out first is below. *)
Fixpoint below (a b : list string) : Prop :=
  match a, b with
  | [], _ => True
  | _ :: _, [] => False
  | x :: a, y :: b => String.compare x y = Lt ∨ (x = y ∧ below a b)
  end.

(** [p <= q] as paths. *)
Definition component_le (p q : string) : Prop := below (components p) (components q).

(** [p < q] as texts. *)
Definition text_lt (p q : string) : Prop := String.compare p q = Lt.
End PathSpec.

(** ** [plugins_pkg/puppeteer/apps.py] and [plugins_pkg/playwright/apps.py] *)

Module BinProvider.
Import PyPath.

(** [subprocess.CompletedProcess] *)
Record CompletedProcess := {
  returncode : Z;
  stdout : string;
  stderr : string;
}.

(** What a provider reads from the machine it runs on. *)
Record Host := {
  (** [platform.system()] *)
  platform_system : string;
  (** [directory.glob(pattern)], in the order the file system lists them *)
  glob : Path → string → list Path;
  (** [SYS_NPM_BINPROVIDER.INSTALLER_BIN_ABSPATH], [SYS_PIP_BINPROVIDER.INSTALLER_BIN_ABSPATH] *)
  SYS_INSTALLER_BIN_ABSPATH : option Path;
  (** [self.INSTALLER_BIN_ABSPATH] *)
  INSTALLER_BIN_ABSPATH : option Path;
  (** [self.exec(bin_name=..., cmd=...)] *)
  exec : Path → list string → CompletedProcess;
  (** [bin_abspath(name, PATH=env.PATH)] *)
  bin_abspath : string → option Path;
}.

(** What a provider changes: the class-level cache [_browser_abspaths], the
    directories it made, the lines it printed and the subprocesses it ran. *)
Record State := {
  _browser_abspaths : gmap string Path;
  made_dirs : list Path;
  printed : list string;
  executed : list (Path * list string);
}.

Definition set_cache (bin_name : string) (abspath : Path) : io State unit :=
  λ st, (Ok (), {| _browser_abspaths := <[bin_name := abspath]> (_browser_abspaths st);
                   made_dirs := made_dirs st; printed := printed st;
                   executed := executed st |}).

(** [directory.mkdir(parents=True, exist_ok=True)] *)
Definition mkdir (dir : Path) : io State unit :=
  λ st, (Ok (), {| _browser_abspaths := _browser_abspaths st;
                   made_dirs := made_dirs st ++ [dir]; printed := printed st;
                   executed := executed st |}).

Definition print (line : string) : io State unit :=
  λ st, (Ok (), {| _browser_abspaths := _browser_abspaths st;
                   made_dirs := made_dirs st; printed := printed st ++ [line];
                   executed := executed st |}).

Definition run (host : Host) (bin : Path) (cmd : list string) : io State CompletedProcess :=
  λ st, (Ok (exec host bin cmd),
         {| _browser_abspaths := _browser_abspaths st;
            made_dirs := made_dirs st; printed := printed st;
            executed := executed st ++ [(bin, cmd)] |}).

(** What differs between the two provider classes. *)
Record ProviderClass := {
  class_name : string;
  INSTALLER_BIN : string;
  puppeteer_browsers_dir : option Path;
  puppeteer_install_args : list string;
  packages_handler : list (string * list string);
  setup_message : string;
  get_abspath_message : string;
  install_message : string;
  (** the glob of [installed_browser_bins], on macOS and elsewhere *)
  browser_glob : string → bool → string;
  (** the name looked up in [$PATH] when no browser is found on disk *)
  path_fallback : option string;
}.

Definition only_chrome : string :=
  "Only chrome is supported using the @puppeteer/browsers install method currently.".

Definition PuppeteerBinProvider (LIB_DIR_BROWSERS : Path) : ProviderClass := {|
  class_name := "PuppeteerBinProvider";
  INSTALLER_BIN := "npx";
  puppeteer_browsers_dir := Some LIB_DIR_BROWSERS;
  puppeteer_install_args := ["@puppeteer/browsers"; "install"; "--path"; LIB_DIR_BROWSERS];
  packages_handler := [("chrome", ["chrome@stable"])];
  setup_message := "NPM bin provider not initialized";
  get_abspath_message := only_chrome;
  install_message := only_chrome;
  browser_glob := λ browser_name darwin,
    if darwin
    then browser_name +:+ "/mac*/chrome*/Google Chrome for Testing.app/Contents/MacOS/Google Chrome for Testing"
    else browser_name +:+ "/linux*/chrome*/chrome";
  path_fallback := None;
|}.

Definition PlaywrightBinProvider (playwright_cache_dir : Path) : ProviderClass := {|
  class_name := "PlaywrightBinProvider";
  INSTALLER_BIN := "playwright";
  puppeteer_browsers_dir := Some playwright_cache_dir;
  puppeteer_install_args := ["install"];
  packages_handler := [("chrome", ["chromium"])];
  setup_message := "Pip bin provider not initialized";
  get_abspath_message := only_chrome;
  install_message := "Only chrome is supported using the playwright install method currently.";
  browser_glob := λ browser_name darwin,
    let browser_name := if String.eqb browser_name "chrome" then "chromium" else browser_name in
    if darwin
    then browser_name +:+ "-*/*-mac*/*.app/Contents/MacOS/*"
    else browser_name +:+ "-*/*-linux/*";
  path_fallback := Some "google-chrome-stable";
|}.

Section provider.
Context (self : ProviderClass) (host : Host).

Definition setup : io State unit :=
  io_bind (py_assert (bool_decide (is_Some (SYS_INSTALLER_BIN_ABSPATH host))) (setup_message self))
    (λ _, match puppeteer_browsers_dir self with
          | Some dir => mkdir dir
          | None => io_ret ()
          end).

Definition installed_browser_bins (browser_name : string) : result (list Path) :=
  match puppeteer_browsers_dir self with
  | None => Raise (AttributeError "'NoneType' object has no attribute 'glob'")
  | Some dir =>
      let darwin := String.eqb (PyStr.lower (platform_system host)) "darwin" in
      Ok (sorted (glob host dir (browser_glob self browser_name darwin)))
  end.

(** [[abspath for abspath in self.installed_browser_bins() if bin_name in str(abspath)]] *)
Definition matching_bins (bin_name : string) : result (list Path) :=
  bins ← installed_browser_bins "*";
  Ok (List.filter (λ abspath, PyStr.contains bin_name abspath) bins).

Definition on_get_abspath (bin_name : string) : io State (option Path) :=
  io_bind (py_assert (String.eqb bin_name "chrome") (get_abspath_message self)) (λ _,
  io_bind io_get (λ st,
  match _browser_abspaths st !! bin_name with
  | Some abspath => io_ret (Some abspath)
  | None =>
      io_bind (io_lift (matching_bins bin_name)) (λ matching,
      match last matching with
      | Some newest_bin =>
          io_bind (set_cache bin_name newest_bin) (λ _, io_ret (Some newest_bin))
      | None =>
          match path_fallback self with
          | Some name =>
              match bin_abspath host name with
              | Some abspath =>
                  io_bind (set_cache bin_name abspath) (λ _, io_ret (Some abspath))
              | None => io_ret None
              end
          | None => io_ret None
          end
      end)
  end)).

(** [self.on_get_packages(bin_name)], inherited from [BinProvider]: the
    name itself.  [packages_handler] is what [get_packages] consults; the
    call in [on_install] goes to [on_get_packages] directly and never reads
    it. *)
Definition on_get_packages (bin_name : string) : list string := [bin_name].

Definition on_install (bin_name : string) (packages : option (list string)) : io State string :=
  io_bind setup (λ _,
  io_bind (py_assert (String.eqb bin_name "chrome") (install_message self)) (λ _,
  match INSTALLER_BIN_ABSPATH host with
  | None => io_raise (Exception (MsgInstallNotAvailable (class_name self) (INSTALLER_BIN self)))
  | Some installer =>
      let packages :=
        match packages with
        | Some (p :: ps) => p :: ps
        | _ => on_get_packages bin_name
        end in
      let install_args := puppeteer_install_args self in
      io_bind (run host installer (install_args ++ packages)) (λ proc,
      if negb (returncode proc =? 0) then
        io_bind (print (PyStr.strip (stdout proc))) (λ _,
        io_bind (print (PyStr.strip (stderr proc))) (λ _,
        io_raise (Exception (MsgInstallReturncode (class_name self) (returncode proc) packages))))
      else
        let output_info := List.last (PyStr.split "010" (PyStr.strip (stdout proc))) "" in
        let browser_abspath := List.last (PyStr.split1 " " output_info) "" in
        io_bind (set_cache bin_name (of_str browser_abspath)) (λ _,
        io_ret (PyStr.strip (stderr proc) +:+ nl +:+ PyStr.strip (stdout proc))))
  end)).
End provider.
End BinProvider.

(** ** Sample hosts *)

Module SampleHosts.
Import BinProvider.

Definition LIB_DIR_BROWSERS : PyPath.Path := "/data/lib/browsers".

Definition chrome_129 : PyPath.Path :=
  "/data/lib/browsers/chrome/linux-129.0.6668.58/chrome-linux64/chrome".
Definition chrome_131 : PyPath.Path :=
  "/data/lib/browsers/chrome/linux-131.0.6730.0/chrome-linux64/chrome".
Definition chrome_99 : PyPath.Path :=
  "/data/lib/browsers/chrome/linux-99.0.4844.51/chrome-linux64/chrome".

(** A Linux host with two versions of chrome under the browsers directory and
    an installer that fails. *)
Definition linux_host : Host := {|
  platform_system := "Linux";
  glob := λ dir pattern,
    if String.eqb dir LIB_DIR_BROWSERS && String.eqb pattern "*/linux*/chrome*/chrome"
    then [chrome_131; chrome_129] else [];
  SYS_INSTALLER_BIN_ABSPATH := Some "/usr/bin/npm";
  INSTALLER_BIN_ABSPATH := Some "/usr/bin/npx";
  exec := λ _ _, {| returncode := 1; stdout := "fetching" +:+ nl;
                    stderr := " network unreachable" +:+ nl |};
  bin_abspath := λ _, None;
|}.

(** The same host once version 99 is there too, with an installer that
    succeeds. *)
Definition linux_host_99 : Host := {|
  platform_system := "Linux";
  glob := λ dir pattern,
    if String.eqb dir LIB_DIR_BROWSERS && String.eqb pattern "*/linux*/chrome*/chrome"
    then [chrome_99; chrome_131; chrome_129] else [];
  SYS_INSTALLER_BIN_ABSPATH := Some "/usr/bin/npm";
  INSTALLER_BIN_ABSPATH := Some "/usr/bin/npx";
  exec := λ _ _, {| returncode := 0;
                    stdout := "Downloading" +:+ nl +:+ "chrome@131.0.6730.0 " +:+ chrome_131 +:+ nl;
                    stderr := "" |};
  bin_abspath := λ _, None;
|}.

Definition fresh : State :=
  {| _browser_abspaths := ∅; made_dirs := []; printed := []; executed := [] |}.

Definition puppeteer : ProviderClass := PuppeteerBinProvider LIB_DIR_BROWSERS.
Definition playwright : ProviderClass := PlaywrightBinProvider "/root/.cache/ms-playwright".
Definition chrome_131_0 : PyPath.Path :=
  "/data/lib/browsers/chrome/linux-131.0/chrome-linux64/chrome".
Definition chrome_131_0_1 : PyPath.Path :=
  "/data/lib/browsers/chrome/linux-131.0.1/chrome-linux64/chrome".

(** A Linux host with version 131.0 and its point release 131.0.1. *)
Definition linux_host_point_release : Host := {|
  platform_system := "Linux";
  glob := λ dir pattern,
    if String.eqb dir LIB_DIR_BROWSERS && String.eqb pattern "*/linux*/chrome*/chrome"
    then [chrome_131_0_1; chrome_131_0] else [];
  SYS_INSTALLER_BIN_ABSPATH := Some "/usr/bin/npm";
  INSTALLER_BIN_ABSPATH := Some "/usr/bin/npx";
  exec := λ _ _, {| returncode := 0; stdout := ""; stderr := "" |};
  bin_abspath := λ _, None;
|}.

(** A Linux host with no browser on disk, [google-chrome-stable] in [$PATH]
    and no installer for the provider. *)
Definition bare_host : Host := {|
  platform_system := "Linux";
  glob := λ _ _, [];
  SYS_INSTALLER_BIN_ABSPATH := Some "/usr/bin/pip";
  INSTALLER_BIN_ABSPATH := None;
  exec := λ _ _, {| returncode := 0; stdout := ""; stderr := "" |};
  bin_abspath := λ name,
    if String.eqb name "google-chrome-stable" then Some "/usr/bin/google-chrome-stable" else None;
|}.

(** A host where the system package provider is not initialised. *)
Definition uninitialised_host : Host := {|
  platform_system := "Linux";
  glob := λ _ _, [];
  SYS_INSTALLER_BIN_ABSPATH := None;
  INSTALLER_BIN_ABSPATH := Some "/usr/bin/npx";
  exec := λ _ _, {| returncode := 0; stdout := ""; stderr := "" |};
  bin_abspath := λ _, None;
|}.
End SampleHosts.

(** ** Vocabulary of the round trip through [convert] *)

Module RoundTrip.
Import IniToToml.

(** A boolean, an integer that [json.dumps] can write, an ASCII string, or
    a list of such values. *)
Fixpoint toml_value (v : pyvalue) : bool :=
  match v with
  | VBool _ => true
  | VInt n => bool_decide (String.length (pretty (Z.abs n)) ≤ PyStr.int_max_str_digits)%nat
  | VStr s => PyStr.is_ascii s
  | VList l => forallb toml_value l
  | _ => false
  end.

(** The JSON text of such a value. *)
Fixpoint toml_text (v : pyvalue) : string :=
  match v with
  | VBool true => "true"
  | VBool false => "false"
  | VInt n => pretty n
  | VStr s => Json.dumps_str s
  | VList l => "[" +:+ PyStr.join ", " (toml_text <$> l) +:+ "]"
  | _ => ""
  end.

(** The mapping the legacy file denotes when each value is coerced directly
    with [ValueCoercion]: per section, the upper-cased key to the coerced
    value. *)
Definition direct_items (literal_eval json_loads : string → option pyvalue)
    (items : list (string * string)) : list (string * pyvalue) :=
  foldl (λ d kv, PyDict.set (PyStr.upper kv.1) (IniSpec.coerce literal_eval json_loads kv.2) d)
    [] items.

(** The items of a section, none when [configparser] raised. *)
Definition items_of (items : result (list (string * string))) : list (string * string) :=
  match items with Ok items => items | Raise _ => [] end.

Definition direct (literal_eval json_loads : string → option pyvalue)
    (config : ini_config) : list (string * pyvalue) :=
  (λ sec : string * result (list (string * string)),
     (sec.1, VDict (direct_items literal_eval json_loads (items_of sec.2)))) <$> config.

(** The files the round trip is stated for: [configparser] gives the items
    of every section; distinct section names that upper-casing leaves
    alone; section names and upper-cased keys that are bare TOML keys; ASCII
    values, none an integer literal beyond the limit of [int], that coerce
    to booleans, integers, ASCII strings or lists of these. *)
Definition migratable (literal_eval json_loads : string → option pyvalue)
    (config : ini_config) : bool :=
  bool_decide (NoDup config.*1)
  && forallb (λ sec : string * result (list (string * string)),
       String.eqb (PyStr.upper sec.1) sec.1
       && Toml.is_bare_key sec.1
       && match sec.2 with
          | Ok items =>
              forallb (λ kv : string * string,
                Toml.is_bare_key (PyStr.upper kv.1)
                && PyStr.is_ascii kv.2
                && IniSpec.within_int_limit kv.2
                && toml_value (IniSpec.coerce literal_eval json_loads kv.2)) items
          | Raise _ => false
          end) config.
(** The characters a JSON text of [toml_value] starts with. *)
Definition value_start_char (c : ascii) : bool :=
  Ascii.eqb c "t" || Ascii.eqb c "f" || PyStr.is_digit_char c || Ascii.eqb c "-"
  || Ascii.eqb c dquote || Ascii.eqb c "[".
(** What reading a value back needs of the value. *)
Definition reads_back (v : pyvalue) : Prop :=
  toml_value v = true →
  ∀ fuel rest,
    (String.length (toml_text v) ≤ fuel)%nat →
    PyStr.head_fails PyStr.is_digit_char rest = true →
    Toml.value fuel (toml_text v +:+ rest) = Some (v, rest).
(** A document as [convert] builds it, with the values before
    [json.dumps]: sections in order, each with its pairs in order. *)
Definition sections : Type := list (string * list (string * pyvalue)).

(** The [toml_dict] that holds the JSON texts of [sd]. *)
Definition text_dict (sd : sections) : toml_dict :=
  (λ sec : string * list (string * pyvalue),
     (sec.1, (λ kv : string * pyvalue, (kv.1, toml_text kv.2)) <$> sec.2)) <$> sd.

(** The document [sd] is read back as. *)
Definition doc_of (sd : sections) : list (string * pyvalue) :=
  (λ sec : string * list (string * pyvalue), (sec.1, VDict sec.2)) <$> sd.

(** The lines [render] writes for [sd]. *)
Definition item_line (kv : string * pyvalue) : string :=
  kv.1 +:+ " = " +:+ toml_text kv.2.

Definition section_lines (sec : string * list (string * pyvalue)) : list string :=
  ("[" +:+ sec.1 +:+ "]") :: (item_line <$> sec.2) ++ [""].

Definition header_line : string :=
  "# Converted from INI to TOML format: https://toml.io/en/".

Definition doc_lines (sd : sections) : list string :=
  header_line :: "" :: concat (section_lines <$> sd).

(** [lines] each followed by a newline. *)
Definition unlines (lines : list string) : string :=
  concat_str ((λ l, l +:+ nl) <$> lines).

(** Distinct bare section names; in each section distinct bare keys and
    values that are booleans, integers, strings or lists of these. *)
Definition well_formed (sd : sections) : Prop :=
  NoDup sd.*1
  ∧ Forall (λ sec : string * list (string * pyvalue),
      Toml.is_bare_key sec.1 = true
      ∧ NoDup sec.2.*1
      ∧ Forall (λ kv : string * pyvalue,
          Toml.is_bare_key kv.1 = true ∧ toml_value kv.2 = true) sec.2) sd.

(** The last character is no white space. *)
Fixpoint ends_nonspace (s : string) : bool :=
  match s with
  | "" => false
  | String c "" => negb (PyStr.is_space_char c)
  | String _ s' => ends_nonspace s'
  end.

(** [lines] without the empty lines at its end. *)
Fixpoint rstrip_lines (lines : list string) : list string :=
  match lines with
  | [] => []
  | l :: lines =>
      match rstrip_lines lines with
      | [] => if String.eqb l "" then [] else [l]
      | kept => l :: kept
      end
  end.
(** No character of the string is a newline. *)
Definition no_nl (s : string) : bool :=
  PyStr.forallb (λ c, negb (Ascii.eqb c "010")) s.
(** The document of a legacy file with each value coerced directly. *)
Definition structured (literal_eval json_loads : string → option pyvalue)
    (config : ini_config) : sections :=
  (λ sec : string * result (list (string * string)),
     (sec.1, direct_items literal_eval json_loads (items_of sec.2))) <$> config.
End RoundTrip.

(** [isinstance(value, dict)] *)
Definition is_dict (v : pyvalue) : bool :=
  match v with VDict _ => true | _ => false end.

(** ** [ArchiveBoxBaseConfig.update_in_place] *)

Module ConfigUpdate.
Import ConfigSet.

(** The process around a config set: [os.environ], the two config files and
    the lines printed to stdout. *)
Record Process := {
  environ : gmap string string;
  files : Settings.Files;
  printed : list string;
}.

Definition WARNING : string :=
  "[!] WARNING: Some of the provided user config values cannot be used, temporarily ignoring them:".

Definition print (line : string) : io Process unit :=
  λ ps, (Ok (), {| environ := environ ps; files := files ps;
                   printed := printed ps ++ [line] |}).

Definition NUL : string := String "000" "".

(** [os.environ[key] = text]: a NUL byte in the name or in the text and a
    name with [=] in it are refused with [ValueError], an empty name with
    [OSError]. *)
Definition putenv_ok (key text : string) : bool :=
  negb (String.eqb key "") && negb (PyStr.contains "=" key)
  && negb (PyStr.contains NUL key) && negb (PyStr.contains NUL text).

Definition environ_set (key text : string) : io Process unit :=
  λ ps, if putenv_ok key text
        then (Ok (), {| environ := <[key := text]> (environ ps); files := files ps;
                        printed := printed ps |})
        else if PyStr.contains NUL key || PyStr.contains NUL text
        then (Raise (ValueError "embedded null byte"), ps)
        else if PyStr.contains "=" key
        then (Raise (ValueError "illegal environment variable name"), ps)
        else (Raise (OtherError "OSError"), ps).

Section with_host.
Context (toml_loads : string → option (list (string * pyvalue))).
Context (read_string : string → result IniToToml.ini_config).
Context (literal_eval json_loads : string → option pyvalue).
(** [repr] of lists, tuples, dicts and function objects. *)
Context (repr : pyvalue → string).
(** What the class gives an instance besides its fields: methods and class
    variables such as [load_from_defaults]. *)
Context (class_attrs : string → option pyvalue).

(** [str(value)], which is also what an f-string writes for [{value}]. *)
Definition py_str (v : pyvalue) : string :=
  match v with
  | VNone => "None"
  | VBool true => "True"
  | VBool false => "False"
  | VInt n => pretty n
  | VFloat r => r
  | VStr s => s
  | VOther _ r => r
  | VList _ | VTuple _ | VDict _ | VCallable _ => repr v
  end.

(** [getattr(self, key)] *)
Definition getattr (self : gmap string pyvalue) (key : string) : result pyvalue :=
  match self !! key with
  | Some v => Ok v
  | None =>
      match class_attrs key with
      | Some v => Ok v
      | None => Raise (AttributeError key)
      end
  end.

(** [self.__init__()]: the sources are chosen and the model is built again,
    with no keyword arguments and the environment as it is now. *)
Definition reinit (flags : Settings.LoadFlags) (schema : Schema)
    : io Process (gmap string pyvalue) :=
  λ ps, let '(r, fs) := Settings.load_config toml_loads read_string literal_eval json_loads
                          flags schema [] (environ ps) (files ps) in
        (r, {| environ := environ ps; files := fs; printed := printed ps |}).

(** One iteration of [for key, value in kwargs.items()]. *)
Definition update_key (self : gmap string pyvalue) (warn : bool) (kv : string * pyvalue)
    : io Process unit :=
  io_bind (environ_set kv.1 (py_str kv.2)) (λ _,
  io_bind (io_lift (getattr self kv.1)) (λ original_value,
  if warn
  then print ("    " +:+ kv.1 +:+ "=" +:+ py_str original_value +:+ " -> " +:+ py_str kv.2)
  else io_ret ())).

Fixpoint update_keys (self : gmap string pyvalue) (warn : bool)
    (kwargs : list (string * pyvalue)) : io Process unit :=
  match kwargs with
  | [] => io_ret ()
  | kv :: kwargs => io_bind (update_key self warn kv) (λ _, update_keys self warn kwargs)
  end.

(** [self.update_in_place(warn=warn, **kwargs)]; the result is the config
    set after [self.__init__()].  What [self] holds when an exception leaves
    the method is not part of the model. *)
Definition update_in_place (flags : Settings.LoadFlags) (schema : Schema)
    (self : gmap string pyvalue) (warn : bool) (kwargs : list (string * pyvalue))
    : io Process (gmap string pyvalue) :=
  io_bind (if warn then print WARNING else io_ret ()) (λ _,
  io_bind (update_keys self warn kwargs) (λ _,
  reinit flags schema)).
End with_host.

(** The name is an attribute of the instance. *)
Definition known (class_attrs : string → option pyvalue) (self : gmap string pyvalue)
    (key : string) : bool :=
  bool_decide (is_Some (self !! key)) || bool_decide (is_Some (class_attrs key)).

(** The pair can be written to the environment and its name is an attribute. *)
Definition accepted (repr : pyvalue → string) (class_attrs : string → option pyvalue)
    (self : gmap string pyvalue) (kv : string * pyvalue) : bool :=
  putenv_ok kv.1 (py_str repr kv.2) && known class_attrs self kv.1.

(** The environment after [os.environ[key] = str(value)] for each pair. *)
Definition environ_after (repr : pyvalue → string) (kwargs : list (string * pyvalue))
    (environ : gmap string string) : gmap string string :=
  foldl (λ env kv, <[kv.1 := py_str repr kv.2]> env) environ kwargs.

(** A process with the given environment and files that has printed nothing. *)
Definition start (environ : gmap string string) (files : Settings.Files) : Process :=
  {| environ := environ; files := files; printed := [] |}.

Definition repr_sample (v : pyvalue) : string := "<object>".
Definition class_attrs_sample (key : string) : option pyvalue :=
  if String.eqb key "load_from_defaults" then Some (VBool true) else None.
End ConfigUpdate.

(** * Properties *)

(** ** Running the definitions *)

(** Equations between closed terms, checked by evaluating both sides. *)
Ltac vm_refl :=
  lazymatch goal with
  | |- ?x = ?y => vm_cast_no_check (@eq_refl _ y)
  end.

Example strip_ex : PyStr.strip ("  a b " +:+ nl) = "a b". Proof. reflexivity. Qed.
Example split_ex : PyStr.split "/" "/a/b" = [""; "a"; "b"]. Proof. reflexivity. Qed.
Example upper_ex : PyStr.upper "gen_x1" = "GEN_X1". Proof. reflexivity. Qed.
Example int_ex : PyStr.digits_value "0042" = 42. Proof. reflexivity. Qed.

Example dumps_ex1 :
  Json.dumps (VList [VInt (-5); VStr ("a" +:+ nl); VBool true; VList []])
  = Ok ("[-5, " +:+ String dquote "a\n" +:+ String dquote ", true, []]").
Proof. reflexivity. Qed.

Example convert_ex1 :
  IniToToml.convert IniToToml.literal_eval_sample IniToToml.json_loads_sample
    [("GENERAL", Ok [("SAVE_MEDIA", "False"); ("timeout", "60"); ("Tags", "['a', 'b']")])]
  = Ok (IniToToml.TOML_HEADER +:+ "[GENERAL]" +:+ nl +:+ "SAVE_MEDIA = false" +:+ nl
        +:+ "TIMEOUT = 60" +:+ nl +:+ "TAGS = [" +:+ String dquote "a" +:+ String dquote ", "
        +:+ String dquote "b" +:+ String dquote "]").
Proof. cbv zeta. vm_refl. Qed.

Example convert_ex2 :
  IniToToml.convert IniToToml.literal_eval_sample IniToToml.json_loads_sample
    [("general", Ok [("A", "1")])] = Raise (KeyError "GENERAL").
Proof. cbv zeta. vm_refl. Qed.

Example convert_ex3 :
  IniToToml.convert IniToToml.literal_eval_sample IniToToml.json_loads_sample
    [("GENERAL", Ok [("A", "1")]); ("general", Ok [("B", "2")])]
  = Ok (IniToToml.TOML_HEADER +:+ "[GENERAL]" +:+ nl +:+ "A = true" +:+ nl +:+ "B = 2" +:+ nl
        +:+ nl +:+ "[general]").
Proof. cbv zeta. vm_refl. Qed.

(** The exception of [config.items] leaves [convert], after the sections
    before it have been converted. *)
Example convert_ex4 :
  IniToToml.convert IniToToml.literal_eval_sample IniToToml.json_loads_sample
    [("GENERAL", Ok [("A", "1")]); ("SERVER", Raise (OtherError "InterpolationSyntaxError"))]
  = Raise (OtherError "InterpolationSyntaxError").
Proof. cbv zeta. vm_refl. Qed.

(** ** [PyDict] *)

Section pydict_facts.
Context {V : Type}.
Implicit Types (d : list (string * V)) (k : string) (v : V).

Lemma pydict_get_set_eq d k v : PyDict.get k (PyDict.set k v d) = Some v.
Proof.
  induction d as [|[k' v'] d IH]; simpl.
  - by rewrite String.eqb_refl.
  - destruct (String.eqb k k') eqn:E; simpl; rewrite ?String.eqb_refl, ?E; done.
Qed.

Lemma pydict_get_set_ne d k k' v :
  k ≠ k' → PyDict.get k' (PyDict.set k v d) = PyDict.get k' d.
Proof.
  intros Hne. induction d as [|[k2 v2] d IH]; simpl.
  - destruct (String.eqb k' k) eqn:E; [apply String.eqb_eq in E; congruence|done].
  - destruct (String.eqb k k2) eqn:E; simpl.
    + apply String.eqb_eq in E as <-.
      destruct (String.eqb k' k) eqn:E'; [apply String.eqb_eq in E'; congruence|done].
    + by rewrite IH.
Qed.

Lemma pydict_get_Some_keys d k : is_Some (PyDict.get k d) ↔ k ∈ PyDict.keys d.
Proof.
  unfold PyDict.keys. induction d as [|[k' v'] d IH]; simpl.
  - split; [intros [? [=]]|intros ?%elem_of_nil; done].
  - destruct (String.eqb k k') eqn:E.
    + apply String.eqb_eq in E as ->. split; [left|eauto].
    + apply String.eqb_neq in E. rewrite IH.
      rewrite elem_of_cons. naive_solver.
Qed.

Lemma pydict_keys_set d k v :
  PyDict.keys (PyDict.set k v d)
  = if bool_decide (k ∈ PyDict.keys d) then PyDict.keys d else PyDict.keys d ++ [k].
Proof.
  unfold PyDict.keys. induction d as [|[k' v'] d IH]; simpl; [done|].
  destruct (String.eqb k k') eqn:E.
  - apply String.eqb_eq in E as ->. rewrite bool_decide_true; [done|left].
  - apply String.eqb_neq in E. cbn [fmap list_fmap fst]. rewrite IH.
    destruct (bool_decide (k ∈ d.*1)) eqn:B.
    + rewrite bool_decide_true; [done|]. apply bool_decide_eq_true in B. by right.
    + rewrite bool_decide_false; [done|]. apply bool_decide_eq_false in B.
      rewrite elem_of_cons. naive_solver.
Qed.

Lemma pydict_elem_of_keys_set d k k' v :
  k' ∈ PyDict.keys (PyDict.set k v d) ↔ k' = k ∨ k' ∈ PyDict.keys d.
Proof. rewrite pydict_keys_set. case_bool_decide; set_solver. Qed.
End pydict_facts.

(** ** [ini_to_toml.load_ini_value] and [ini_to_toml.convert] *)

Section ini_to_toml_facts.
Context (literal_eval json_loads : string → option pyvalue).
Notation load_ini_value := (IniToToml.load_ini_value literal_eval json_loads).
Notation convert_item := (IniToToml.convert_item literal_eval json_loads).
Notation convert_items := (IniToToml.convert_items literal_eval json_loads).
Notation convert_sections := (IniToToml.convert_sections literal_eval json_loads).
Notation convert := (IniToToml.convert literal_eval json_loads).

(** *** The string methods of the code on the characters of the text *)

Lemma isdigit_forallb (s : string) :
  PyStr.isdigit s = true → PyStr.forallb PyStr.is_digit_char s = true.
Proof. by destruct s. Qed.

Lemma lower_digits (s : string) :
  PyStr.forallb PyStr.is_digit_char s = true → PyStr.lower s = s.
Proof.
  unfold PyStr.lower.
  induction s as [|c s IH]; [done|]. simpl. intros [Hc Hs]%andb_true_iff.
  rewrite (IH Hs). f_equal.
  unfold PyStr.lower_char, PyStr.is_upper_char. unfold PyStr.is_digit_char in Hc.
  apply andb_true_iff in Hc as [_ Hhi%N.leb_le].
  rewrite (proj2 (N.leb_gt 65 (PyStr.code c))) by lia. done.
Qed.

Lemma lower_char_fold_case (c : ascii) : PyStr.lower_char c = IniSpec.fold_case c.
Proof. by destruct c as [[] [] [] [] [] [] [] []]. Qed.

Lemma same_nocase_lower (a : string) : ∀ b,
  IniSpec.same_nocase a b = String.eqb (PyStr.lower a) (PyStr.lower b).
Proof.
  unfold PyStr.lower.
  induction a as [|x a IH]; intros [|y b]; simpl; try done.
  by rewrite IH, !lower_char_fold_case.
Qed.

Lemma lower_is (val literal : string) :
  PyStr.lower literal = literal →
  bool_decide (PyStr.lower val = literal) = IniSpec.same_nocase val literal.
Proof.
  intros Hlit. rewrite same_nocase_lower, Hlit.
  destruct (String.eqb_spec (PyStr.lower val) literal).
  - by rewrite bool_decide_true.
  - by rewrite bool_decide_false.
Qed.

Lemma digit_value_is_digit_char (c : ascii) :
  IniSpec.digit_value c
  = if PyStr.is_digit_char c then Some (Z.of_N (PyStr.code c - 48)) else None.
Proof. by destruct c as [[] [] [] [] [] [] [] []]. Qed.

Lemma decimal_int_go (s : string) : ∀ acc : N,
  IniSpec.decimal (Z.of_N acc) s
  = if PyStr.forallb PyStr.is_digit_char s then Some (Z.of_N (PyStr.int_go acc s)) else None.
Proof.
  induction s as [|c s IH]; intros acc; simpl; [done|].
  rewrite digit_value_is_digit_char. destruct (PyStr.is_digit_char c); [|done]. simpl.
  replace (10 * Z.of_N acc + Z.of_N (PyStr.code c - 48))%Z
    with (Z.of_N (10 * acc + (PyStr.code c - 48))) by lia.
  apply IH.
Qed.

Lemma integer_literal_isdigit (raw : string) :
  IniSpec.integer_literal raw
  = if PyStr.isdigit raw then Some (PyStr.digits_value raw) else None.
Proof.
  destruct raw as [|c raw]; [done|].
  unfold IniSpec.integer_literal, PyStr.isdigit, PyStr.digits_value.
  exact (decimal_int_go (String c raw) 0).
Qed.

Lemma bool_literal_lower (raw : string) :
  IniSpec.bool_literal raw
  = if bool_decide (PyStr.lower raw ∈ ["true"; "yes"; "1"]) then Some true
    else if bool_decide (PyStr.lower raw ∈ ["false"; "no"; "0"]) then Some false
    else None.
Proof.
  unfold IniSpec.bool_literal.
  rewrite <-!(lower_is raw) by done.
  assert (Ht : bool_decide (PyStr.lower raw ∈ ["true"; "yes"; "1"])
             = bool_decide (PyStr.lower raw = "true") || bool_decide (PyStr.lower raw = "yes")
               || bool_decide (PyStr.lower raw = "1")).
  { repeat case_bool_decide; set_solver. }
  assert (Hf : bool_decide (PyStr.lower raw ∈ ["false"; "no"; "0"])
             = bool_decide (PyStr.lower raw = "false") || bool_decide (PyStr.lower raw = "no")
               || bool_decide (PyStr.lower raw = "0")).
  { repeat case_bool_decide; set_solver. }
  by rewrite Ht, Hf.
Qed.

(** [load_ini_value] against the coercion of the specification. *)
Lemma load_ini_value_coerce (val : string) :
  load_ini_value val
  = if IniSpec.within_int_limit val then Ok (IniSpec.coerce literal_eval json_loads val)
    else Raise (ValueError (PyStr.MsgIntFromStr (String.length val))).
Proof.
  unfold IniToToml.load_ini_value, IniSpec.coerce, IniSpec.within_int_limit.
  rewrite bool_literal_lower, integer_literal_isdigit.
  destruct (bool_decide (PyStr.lower val ∈ ["true"; "yes"; "1"])) eqn:Ht.
  { simpl. destruct (PyStr.isdigit val) eqn:Hd; [|done].
    apply bool_decide_eq_true in Ht. rewrite (lower_digits val (isdigit_forallb val Hd)) in Ht.
    assert (val = "1") as ->.
    { repeat (apply elem_of_cons in Ht as [->|Ht]; [done|]). by apply elem_of_nil in Ht. }
    done. }
  destruct (bool_decide (PyStr.lower val ∈ ["false"; "no"; "0"])) eqn:Hf.
  { simpl. destruct (PyStr.isdigit val) eqn:Hd; [|done].
    apply bool_decide_eq_true in Hf. rewrite (lower_digits val (isdigit_forallb val Hd)) in Hf.
    assert (val = "0") as ->.
    { repeat (apply elem_of_cons in Hf as [->|Hf]; [done|]). by apply elem_of_nil in Hf. }
    done. }
  simpl. destruct (PyStr.isdigit val).
  - simpl. unfold PyStr.int.
    destruct (decide (PyStr.int_max_str_digits < String.length val)%nat) as [Hlen|Hlen].
    + rewrite bool_decide_false; [done|]. intros H. by apply Nat.lt_nge in Hlen.
    + rewrite bool_decide_true; [done|]. by apply Nat.nlt_ge.
  - simpl. destruct (literal_eval val); [done|]. simpl. by destruct (json_loads val).
Qed.

(** C5, as amended: on ASCII text [load_ini_value] is the coercion of the
    specification (the case-insensitive boolean literal, then the integer
    literal, then the literal-structure parse, then the JSON parse, the
    first that succeeds, and the text itself when all fail), except that an
    integer literal of more digits than [int] accepts raises [ValueError]
    instead of giving a value. *)
Theorem C5_load_ini_value_is_coerce (val : string) :
  PyStr.is_ascii val = true →
  load_ini_value val
  = if IniSpec.within_int_limit val then Ok (IniSpec.coerce literal_eval json_loads val)
    else Raise (ValueError (PyStr.MsgIntFromStr (String.length val))).
Proof. intros _. apply load_ini_value_coerce. Qed.

(** *** [convert] *)

Lemma convert_items_ok section d items :
  is_Some (PyDict.get (PyStr.upper section) d) →
  forallb (λ kv : string * string,
    is_ok (v ← load_ini_value kv.2; Json.dumps v)) items = true →
  ∃ d', convert_items section d items = Ok d' ∧ PyDict.keys d' = PyDict.keys d.
Proof.
  revert d. induction items as [|kv items IH]; intros d Hd Hser; simpl.
  - eauto.
  - simpl in Hser. apply andb_true_iff in Hser as [Hkv Hser].
    unfold IniToToml.convert_item.
    destruct (load_ini_value kv.2) as [parsed_value|]; [|done]. simpl in Hkv |- *.
    destruct (Json.dumps parsed_value) as [dumped|]; [|done]. simpl.
    destruct Hd as [tbl Htbl]. rewrite Htbl. simpl.
    destruct (IH (PyDict.set (PyStr.upper section)
                    (PyDict.set (PyStr.upper kv.1) dumped tbl) d)) as (d' & -> & Hkeys).
    + rewrite pydict_get_set_eq. eauto.
    + done.
    + exists d'. split; [done|]. rewrite Hkeys, pydict_keys_set.
      rewrite bool_decide_true; [done|]. apply pydict_get_Some_keys. eauto.
Qed.

Lemma convert_items_orphan section d kv items :
  PyDict.get (PyStr.upper section) d = None →
  is_ok (v ← load_ini_value kv.2; Json.dumps v) = true →
  convert_items section d (kv :: items) = Raise (KeyError (PyStr.upper section)).
Proof.
  intros Hd Hser. simpl. unfold IniToToml.convert_item.
  destruct (load_ini_value kv.2) as [parsed_value|]; [|done]. simpl in Hser |- *.
  destruct (Json.dumps parsed_value); [|done]. simpl. by rewrite Hd.
Qed.

Lemma convert_sections_first_orphan config : ∀ d seen,
  (∀ k, k ∈ PyDict.keys d ↔ k ∈ seen) →
  IniSpec.all_serializable literal_eval json_loads config = true →
  match IniSpec.first_orphan seen config with
  | Some k => convert_sections d config = Raise (KeyError k)
  | None => ∃ d', convert_sections d config = Ok d'
  end.
Proof.
  induction config as [|[section items] config IH]; intros d seen Hkeys Hser; simpl.
  - eauto.
  - simpl in Hser. apply andb_true_iff in Hser as [Hitems Hser].
    destruct items as [items|e]; [|done].
    assert (Hkeys' : ∀ k, k ∈ PyDict.keys (PyDict.set section ([] : list (string * string)) d)
                        ↔ k ∈ section :: seen).
    { intros k. rewrite pydict_elem_of_keys_set, Hkeys. set_solver. }
    destruct items as [|kv items].
    + simpl. by apply IH.
    + cbn [mbind result_bind]. case_bool_decide as Hin.
      * apply Hkeys', pydict_get_Some_keys in Hin.
        destruct (convert_items_ok section _ (kv :: items) Hin Hitems) as (d' & -> & Hd').
        simpl. apply IH; [|done]. intros k. by rewrite Hd'.
      * rewrite convert_items_orphan; [done| |].
        -- destruct (PyDict.get _ _) eqn:E; [|done].
           exfalso. apply Hin, Hkeys', pydict_get_Some_keys. eauto.
        -- simpl in Hitems. by apply andb_true_iff in Hitems as [? _].
Qed.

(** C10: on ASCII text whose values all convert, [convert] raises [KeyError]
    exactly at the first section that has an item and whose upper-cased
    name is neither its own name nor an earlier section's, and returns a
    document when there is no such section: the table is created under the
    name of the section and written under its upper-cased name. *)
Theorem C10_convert_KeyError_first_orphan (config : IniToToml.ini_config) :
  IniSpec.ascii_text config = true →
  IniSpec.all_serializable literal_eval json_loads config = true →
  match IniSpec.first_orphan [] config with
  | Some k => convert config = Raise (KeyError k)
  | None => ∃ toml_str, convert config = Ok toml_str
  end.
Proof.
  intros _ Hser. unfold IniToToml.convert.
  pose proof (convert_sections_first_orphan config [] [] (λ k, reflexivity _) Hser) as H.
  destruct (IniSpec.first_orphan [] config).
  - by rewrite H.
  - destruct H as [d' ->]. simpl. eauto.
Qed.
End ini_to_toml_facts.

Lemma C5_witness :
  IniToToml.load_ini_value IniToToml.literal_eval_sample IniToToml.json_loads_sample "YeS"
    = Ok (VBool true)
  ∧ IniToToml.load_ini_value IniToToml.literal_eval_sample IniToToml.json_loads_sample "0"
    = Ok (VBool false)
  ∧ IniToToml.load_ini_value IniToToml.literal_eval_sample IniToToml.json_loads_sample "0042"
    = Ok (VInt 42)
  ∧ IniToToml.load_ini_value IniToToml.literal_eval_sample IniToToml.json_loads_sample "-5"
    = Ok (VInt (-5))
  ∧ IniToToml.load_ini_value IniToToml.literal_eval_sample IniToToml.json_loads_sample "null"
    = Ok VNone
  ∧ IniToToml.load_ini_value IniToToml.literal_eval_sample IniToToml.json_loads_sample
      "my archive" = Ok (VStr "my archive").
Proof.
  pose proof (C5_load_ini_value_is_coerce IniToToml.literal_eval_sample
                IniToToml.json_loads_sample) as H.
  split; [exact (H "YeS" eq_refl)|].
  split; [exact (H "0" eq_refl)|].
  split; [exact (H "0042" eq_refl)|].
  split; [exact (H "-5" eq_refl)|].
  split; [exact (H "null" eq_refl)|].
  exact (H "my archive" eq_refl).
Defined.

(** An integer literal of 4301 digits: the parse of the specification
    succeeds, the code raises. *)
Lemma C5_counterexample :
  PyStr.is_ascii (Samples.nines 4301) = true
  ∧ is_Some (IniSpec.integer_literal (Samples.nines 4301))
  ∧ IniToToml.load_ini_value IniToToml.literal_eval_sample IniToToml.json_loads_sample
      (Samples.nines 4301) = Raise (ValueError (PyStr.MsgIntFromStr 4301)).
Proof.
  split; [by vm_compute|]. split.
  - rewrite integer_literal_isdigit.
    assert (PyStr.isdigit (Samples.nines 4301) = true) as -> by by vm_compute.
    eauto.
  - by vm_compute.
Qed.

Lemma C10_witness :
  IniToToml.convert IniToToml.literal_eval_sample IniToToml.json_loads_sample
    [("general", Ok [("TIMEOUT", "60")])] = Raise (KeyError "GENERAL")
  ∧ IniToToml.convert IniToToml.literal_eval_sample IniToToml.json_loads_sample
      [("SERVER", Ok [("PORT", "8000")]); ("general", Ok [("A", "1")])]
    = Raise (KeyError "GENERAL").
Proof.
  split.
  - apply (C10_convert_KeyError_first_orphan IniToToml.literal_eval_sample
             IniToToml.json_loads_sample [("general", Ok [("TIMEOUT", "60")])]);
      reflexivity.
  - apply (C10_convert_KeyError_first_orphan IniToToml.literal_eval_sample
             IniToToml.json_loads_sample
             [("SERVER", Ok [("PORT", "8000")]); ("general", Ok [("A", "1")])]);
      reflexivity.
Defined.

Example toml_loads_ex1 :
  Toml.loads ("# c" +:+ nl +:+ nl +:+ "[GENERAL]" +:+ nl +:+ "SAVE_MEDIA = false" +:+ nl
              +:+ "TAGS = [" +:+ String dquote "a\u000ab" +:+ String dquote ", [-12, 0]]" +:+ nl
              +:+ nl +:+ "[X]")
  = Some [("GENERAL", VDict [("SAVE_MEDIA", VBool false);
                             ("TAGS", VList [VStr ("a" +:+ nl +:+ "b"); VList [VInt (-12); VInt 0]])]);
          ("X", VDict [])].
Proof. cbv zeta. vm_refl. Qed.

Example toml_loads_ex2 : Toml.loads ("[GENERAL]" +:+ nl +:+ "SAVE_MEDIA=False") = None.
Proof. cbv zeta. vm_refl. Qed.

Example toml_loads_ex3 : Toml.loads ("TIMEOUT=60") = Some [("TIMEOUT", VInt 60)].
Proof. cbv zeta. vm_refl. Qed.

(** ** [FlatTomlConfigSettingsSource] *)

Lemma pydict_get_filter {V} (p : string → bool) (d : list (string * V)) k :
  PyDict.get k (List.filter (λ kv, p kv.1) d) = if p k then PyDict.get k d else None.
Proof.
  induction d as [|[k' v'] d IH]; simpl.
  - by destruct (p k).
  - destruct (p k') eqn:Hp; simpl.
    + destruct (String.eqb k k') eqn:E; [|done].
      apply String.eqb_eq in E as ->. by rewrite Hp.
    + rewrite IH. destruct (String.eqb k k') eqn:E; [|done].
      apply String.eqb_eq in E as ->. by rewrite Hp.
Qed.

Lemma pydict_get_foldl_set {V} (items d : list (string * V)) k :
  PyDict.get k (foldl (λ data kv, PyDict.set kv.1 kv.2 data) d items)
  = match PyDict.get k (reverse items) with
    | Some v => Some v
    | None => PyDict.get k d
    end.
Proof.
  revert d. induction items as [|[k' v'] items IH] using rev_ind; intros d.
  - done.
  - rewrite foldl_app, reverse_app. simpl.
    destruct (String.eqb k k') eqn:E.
    + apply String.eqb_eq in E as ->. apply pydict_get_set_eq.
    + apply String.eqb_neq in E. rewrite pydict_get_set_ne by done. apply IH.
Qed.

(** C9: a key of the file that is no field of the config set is absent from
    the loaded data, a key that is one has the value of the flattened
    document, and the keys of a recognized section table are written into
    the same flat namespace as everything before them (a later value
    replaces an earlier one).  Loading is a total function of the parsed
    document: no key makes it raise. *)
Theorem C9_FlatToml_ignores_undeclared_keys
    (schema : ConfigSet.Schema) (nested_toml_data : list (string * pyvalue)) (key : string) :
  PyDict.get key (ConfigSet.FlatToml_init schema nested_toml_data)
  = (if bool_decide (key ∈ ConfigSet.model_fields_keys schema)
     then PyDict.get key (ConfigSet.flatten nested_toml_data)
     else None)
  ∧ ∀ section_name items,
      section_name ∈ ConfigSet.ConfigSectionNames →
      PyDict.get key (ConfigSet.flatten (nested_toml_data ++ [(section_name, VDict items)]))
      = match PyDict.get key (reverse items) with
        | Some v => Some v
        | None => PyDict.get key (ConfigSet.flatten nested_toml_data)
        end.
Proof.
  split.
  - unfold ConfigSet.FlatToml_init, ConfigSet.filter_fields.
    exact (pydict_get_filter
             (λ k, bool_decide (k ∈ ConfigSet.model_fields_keys schema))
             (ConfigSet.flatten nested_toml_data) key).
  - intros section_name items Hsec. unfold ConfigSet.flatten.
    rewrite foldl_app. simpl. rewrite bool_decide_true by done.
    apply pydict_get_foldl_set.
Qed.

Lemma C9_witness :
  let schema := [ {| ConfigSet.name := "TIMEOUT"; ConfigSet.annotation := ConfigSet.TInt;
                     ConfigSet.default := ConfigSet.Constant (VInt 60) |} ] in
  ConfigSet.FlatToml_init schema
    [("SECRET", VStr "x"); ("ARCHIVING_CONFIG", VDict [("TIMEOUT", VInt 30); ("UNKNOWN", VInt 1)])]
  = [("TIMEOUT", VInt 30)]
  ∧ PyDict.get "TIMEOUT"
      (ConfigSet.flatten ([("TIMEOUT", VInt 5)] ++ [("ARCHIVING_CONFIG", VDict [("TIMEOUT", VInt 30)])]))
    = Some (VInt 30).
Proof.
  split; [reflexivity|].
  rewrite (proj2 (C9_FlatToml_ignores_undeclared_keys [] [("TIMEOUT", VInt 5)] "TIMEOUT")
             "ARCHIVING_CONFIG" [("TIMEOUT", VInt 30)]).
  - reflexivity.
  - vm_compute. repeat constructor.
Defined.

Example load_ex_defaults :
  (Samples.load Samples.ArchivingConfig ∅ Samples.no_files).1
  = Ok {[ "TIMEOUT" := VInt 60; "MEDIA_TIMEOUT" := VInt 60 ]}.
Proof. cbv zeta. vm_refl. Qed.

Example load_ex_env :
  (Samples.load Samples.ArchivingConfig {[ "TIMEOUT" := "10" ]} Samples.no_files).1
  = Ok {[ "TIMEOUT" := VInt 10; "MEDIA_TIMEOUT" := VInt 10 ]}.
Proof. cbv zeta. vm_refl. Qed.

Example load_ex_file_env :
  Samples.load Samples.ArchivingConfig {[ "TIMEOUT" := "10" ]}
    (Samples.only_config "TIMEOUT = 30")
  = (Ok {[ "TIMEOUT" := VInt 30; "MEDIA_TIMEOUT" := VInt 30 ]}, Samples.only_config "TIMEOUT = 30").
Proof. cbv zeta. vm_refl. Qed.

Example load_ex_migrate :
  let ini := "[SERVER_CONFIG]" +:+ nl +:+ "TIMEOUT : 30" +:+ nl in
  Samples.load Samples.ArchivingConfig ∅ (Samples.only_config ini)
  = (Ok {[ "TIMEOUT" := VInt 30; "MEDIA_TIMEOUT" := VInt 30 ]},
     {| Settings.ARCHIVEBOX_CONFIG_FILE :=
          Some (IniToToml.TOML_HEADER +:+ "[SERVER_CONFIG]" +:+ nl +:+ "TIMEOUT = 30");
        Settings.ARCHIVEBOX_CONFIG_FILE_BAK := Some ini |}).
Proof. cbv zeta. vm_refl. Qed.

(** ** [settings_customise_sources]: what it does to the files *)

Section settings_facts.
Context (toml_loads : string → option (list (string * pyvalue))).
Context (read_string : string → result IniToToml.ini_config).
Context (literal_eval json_loads : string → option pyvalue).
Notation settings_customise_sources :=
  (Settings.settings_customise_sources toml_loads read_string literal_eval json_loads).
Notation load_config :=
  (Settings.load_config toml_loads read_string literal_eval json_loads).

Lemma io_bind_lift_files {S A B} (m : io S A) (k : A → result B) (fs : S) :
  (io_bind m (λ a, io_lift (k a)) fs).2 = (m fs).2.
Proof. unfold io_bind. by destruct (m fs) as [[a|e] fs']. Qed.

Lemma customise_sources_structured flags schema init_settings env_settings fs text nested :
  Settings.ARCHIVEBOX_CONFIG_FILE fs = Some text →
  toml_loads text = Some nested →
  (settings_customise_sources flags schema init_settings env_settings fs).2 = fs.
Proof.
  intros Hfile Hparse. unfold Settings.settings_customise_sources.
  rewrite io_bind_lift_files. rewrite Hfile.
  unfold io_try, io_bind, Settings.FlatToml.
  by rewrite Hfile, Hparse.
Qed.

Lemma customise_sources_no_file flags schema init_settings env_settings fs :
  Settings.ARCHIVEBOX_CONFIG_FILE fs = None →
  (settings_customise_sources flags schema init_settings env_settings fs).2 = fs.
Proof.
  intros Hfile. unfold Settings.settings_customise_sources.
  rewrite io_bind_lift_files. by rewrite Hfile.
Qed.

(** C4: loading a config whose file parses as TOML leaves both files as they
    are, however often it is done: the text is unchanged and no backup
    appears.  The files change only when [ArchiveBox.conf] exists and does
    not parse as TOML. *)
Theorem C4_structured_file_untouched
    (flags : Settings.LoadFlags) (schema : ConfigSet.Schema)
    (init_kwargs : list (string * pyvalue)) (environ : gmap string string)
    (fs : Settings.Files) :
  let load := load_config flags schema init_kwargs environ in
  (∀ text nested,
     Settings.ARCHIVEBOX_CONFIG_FILE fs = Some text →
     toml_loads text = Some nested →
     (load fs).2 = fs ∧ (load (load fs).2).2 = fs)
  ∧ ((load fs).2 ≠ fs →
     ∃ text, Settings.ARCHIVEBOX_CONFIG_FILE fs = Some text ∧ toml_loads text = None).
Proof.
  intros load.
  assert (Hload : ∀ fs0, (load fs0).2
            = (settings_customise_sources flags schema (ConfigSet.InitSettings init_kwargs)
                 (ConfigSet.EnvSettings environ) fs0).2).
  { intros fs0. unfold load, Settings.load_config. apply io_bind_lift_files. }
  split.
  - intros text nested Hfile Hparse.
    assert ((load fs).2 = fs) as Heq.
    { rewrite Hload. by eapply customise_sources_structured. }
    by rewrite Heq.
  - intros Hchanged.
    destruct (Settings.ARCHIVEBOX_CONFIG_FILE fs) as [text|] eqn:Hfile.
    + exists text. split; [done|].
      destruct (toml_loads text) as [nested|] eqn:Hparse; [|done].
      exfalso. apply Hchanged. rewrite Hload. by eapply customise_sources_structured.
    + exfalso. apply Hchanged. rewrite Hload. by apply customise_sources_no_file.
Qed.
End settings_facts.

Lemma C4_witness :
  let fs := Samples.only_config "TIMEOUT = 30" in
  (Samples.load Samples.ArchivingConfig ∅ fs).2 = fs
  ∧ (Samples.load Samples.ArchivingConfig ∅ (Samples.load Samples.ArchivingConfig ∅ fs).2).2 = fs.
Proof.
  intros fs.
  apply (proj1 (C4_structured_file_untouched Toml.loads Samples.read_string_sample
                  IniToToml.literal_eval_sample IniToToml.json_loads_sample
                  Settings.all_layers Samples.ArchivingConfig [] ∅ fs)
           "TIMEOUT = 30" [("TIMEOUT", VInt 30)]).
  - reflexivity.
  - vm_refl.
Defined.

(** ** Precedence of the layers *)

(** C1 (the code departs from the claim): with [TIMEOUT] set to 60 by the
    schema, to 30 by [ArchiveBox.conf] and to 10 by the environment, the
    loaded config has the file's 30, not the environment's 10: the tuple
    returned by [settings_customise_sources] puts the file source before
    the environment source, and pydantic-settings gives an earlier source
    priority.  With the default and the file only, the file's value is
    loaded. *)
Theorem C1_file_shadows_environment :
  let schema := [Samples.TIMEOUT] in
  let fs := Samples.only_config "TIMEOUT = 30" in
  (Samples.load schema {[ "TIMEOUT" := "10" ]} fs).1 = Ok {[ "TIMEOUT" := VInt 30 ]}
  ∧ (Samples.load schema ∅ fs).1 = Ok {[ "TIMEOUT" := VInt 30 ]}
  ∧ (Samples.load schema {[ "TIMEOUT" := "10" ]} Samples.no_files).1
    = Ok {[ "TIMEOUT" := VInt 10 ]}
  ∧ (Settings.settings_customise_sources Toml.loads Samples.read_string_sample
       IniToToml.literal_eval_sample IniToToml.json_loads_sample
       Settings.all_layers schema (ConfigSet.InitSettings [])
       (ConfigSet.EnvSettings {[ "TIMEOUT" := "10" ]}) fs).1
    = Ok [ ConfigSet.InitSettings [];
           ConfigSet.FlatTomlConfigSettingsSource [("TIMEOUT", VInt 30)];
           ConfigSet.EnvSettings {[ "TIMEOUT" := "10" ]} ].
Proof.
  cbv zeta. repeat split; vm_refl.
Qed.

(** ** [fill_defaults] *)

Section fill_defaults_facts.
Import ConfigSet.
Implicit Types (schema fields : Schema) (self : gmap string pyvalue) (f : ConfigField).

Lemma fill_default_other schema self f self' k :
  fill_default schema self f = Ok self' → k ≠ name f → self' !! k = self !! k.
Proof.
  unfold fill_default. intros H Hne.
  destruct (self !! name f) as [v|]; [|done].
  destruct v; simplify_eq; try done.
  destruct (call_default _ _ _) as [c|]; [|done]. simpl in H.
  destruct (validate_python _ _ c) as [w|]; [|done]. simpl in H.
  simplify_eq. by rewrite lookup_insert_ne.
Qed.

Lemma fill_default_settled schema self f self' w :
  fill_default schema self f = Ok self' →
  self !! name f = Some w → is_callable w = false → self' = self.
Proof.
  unfold fill_default. intros H Hw Hc. rewrite Hw in H.
  destruct w; simplify_eq; done.
Qed.

Lemma fill_defaults_from_app schema self fields1 fields2 :
  fill_defaults_from schema self (fields1 ++ fields2)
  = self1 ← fill_defaults_from schema self fields1; fill_defaults_from schema self1 fields2.
Proof.
  revert self. induction fields1 as [|f fields1 IH]; intros self; simpl; [done|].
  destruct (fill_default schema self f); simpl; [apply IH|done].
Qed.

Lemma fill_defaults_from_other schema fields : ∀ self final k,
  fill_defaults_from schema self fields = Ok final →
  k ∉ name <$> fields → final !! k = self !! k.
Proof.
  induction fields as [|f fields IH]; intros self final k H Hk; simpl in *.
  - by simplify_eq.
  - destruct (fill_default schema self f) as [self'|] eqn:E; [|done]. simpl in H.
    rewrite not_elem_of_cons in Hk. destruct Hk as [Hne Hk].
    rewrite (IH _ _ _ H Hk). by eapply fill_default_other.
Qed.

Lemma fill_defaults_from_settled schema fields : ∀ self final k w,
  fill_defaults_from schema self fields = Ok final →
  self !! k = Some w → is_callable w = false → final !! k = Some w.
Proof.
  induction fields as [|f fields IH]; intros self final k w H Hw Hc; simpl in *.
  - by simplify_eq.
  - destruct (fill_default schema self f) as [self'|] eqn:E; [|done]. simpl in H.
    apply (IH _ _ _ _ H); [|done].
    destruct (decide (k = name f)) as [->|Hne].
    + by rewrite (fill_default_settled _ _ _ _ _ E Hw Hc).
    + by rewrite (fill_default_other _ _ _ _ _ E Hne).
Qed.

Lemma lookup_field_NoDup schema f :
  NoDup (name <$> schema) → f ∈ schema → lookup_field schema (name f) = Some f.
Proof.
  unfold lookup_field. induction schema as [|g schema IH]; intros Hnd Hin; simpl.
  - by apply elem_of_nil in Hin.
  - apply NoDup_cons in Hnd as [Hg Hnd]. fold (fmap (M:=list) name schema) in Hg.
    apply elem_of_cons in Hin as [->|Hin].
    + by rewrite String.eqb_refl.
    + destruct (String.eqb (name g) (name f)) eqn:E; [|by apply IH].
      apply String.eqb_eq in E. exfalso. apply Hg. rewrite E.
      by apply list_elem_of_fmap_2.
Qed.

(** The config a function default is called with. *)
Lemma fill_defaults_config_so_far schema pre f post fn self0 final :
  schema = pre ++ f :: post →
  NoDup (name <$> schema) →
  default f = TakesConfig fn →
  self0 !! name f = Some (VCallable (name f)) →
  fill_defaults schema self0 = Ok final →
  ∃ config_so_far v,
    validate_python (name f) (annotation f) (fn config_so_far) = Ok v
    ∧ final !! name f = Some v
    ∧ config_so_far !! name f = Some (VCallable (name f))
    ∧ (∀ g, g ∈ pre → config_so_far !! name g = final !! name g)
    ∧ (∀ g, g ∈ post → config_so_far !! name g = self0 !! name g)
    ∧ (∀ g w, g ∈ post → self0 !! name g = Some w → is_callable w = false →
         config_so_far !! name g = final !! name g).
Proof.
  intros Hschema Hnd Hdef Hf Hfill.
  unfold fill_defaults in Hfill. rewrite Hschema in Hfill at 2.
  rewrite fill_defaults_from_app in Hfill.
  destruct (fill_defaults_from schema self0 pre) as [self1|] eqn:Hpre; [|done].
  simpl in Hfill.
  pose proof Hnd as Hnd'. rewrite Hschema, fmap_app, fmap_cons in Hnd'.
  apply NoDup_app in Hnd' as (Hnd_pre & Hdisj & Hnd_post).
  apply NoDup_cons in Hnd_post as [Hf_post Hnd_post].
  assert (Hf_pre : name f ∉ name <$> pre).
  { intros Hin. apply (Hdisj _ Hin). left. }
  assert (Hself1 : self1 !! name f = Some (VCallable (name f))).
  { by rewrite (fill_defaults_from_other _ _ _ _ _ Hpre Hf_pre). }
  destruct (fill_default schema self1 f) as [self2|] eqn:Hstep; [|done]. simpl in Hfill.
  pose proof Hstep as Hstep'. unfold fill_default in Hstep'. rewrite Hself1 in Hstep'.
  assert (Htakes : func_takes_args_or_kwargs schema (name f) = true).
  { unfold func_takes_args_or_kwargs. rewrite lookup_field_NoDup; [simpl; by rewrite Hdef|done|].
    rewrite Hschema. apply elem_of_app. right. left. }
  rewrite Htakes in Hstep'. unfold call_default in Hstep'. rewrite Hdef in Hstep'.
  simpl in Hstep'.
  destruct (validate_python (name f) (annotation f) (fn self1)) as [v|] eqn:Hv; [|done].
  simpl in Hstep'. simplify_eq.
  exists self1, v. repeat split; try done.
  - rewrite (fill_defaults_from_other _ _ _ _ _ Hfill Hf_post). apply lookup_insert_eq.
  - intros g Hg.
    assert (name g ∈ name <$> pre) as Hg' by by apply list_elem_of_fmap_2.
    assert (name g ≠ name f) as Hne by (intros Heq; apply Hf_pre; by rewrite <-Heq).
    assert (name g ∉ name <$> post) as Hgpost.
    { intros Hin. apply (Hdisj _ Hg'). by right. }
    rewrite (fill_defaults_from_other _ _ _ _ _ Hfill Hgpost). by rewrite lookup_insert_ne.
  - intros g Hg.
    assert (name g ∈ name <$> post) as Hg' by by apply list_elem_of_fmap_2.
    apply (fill_defaults_from_other _ _ _ _ _ Hpre).
    intros Hin. apply (Hdisj _ Hin). by right.
  - intros g w Hg Hw Hc.
    assert (name g ∈ name <$> post) as Hg' by by apply list_elem_of_fmap_2.
    assert (name g ≠ name f) as Hne by (intros Heq; apply Hf_post; by rewrite <-Heq).
    assert (self1 !! name g = Some w) as Hw1.
    { rewrite (fill_defaults_from_other _ _ _ _ _ Hpre); [done|].
      intros Hin. apply (Hdisj _ Hin). by right. }
    rewrite Hw1. symmetry.
    apply (fill_defaults_from_settled _ _ _ _ _ _ Hfill); [|done].
    by rewrite lookup_insert_ne.
Qed.
End fill_defaults_facts.

Lemma validate_model_lookup (state : list (string * pyvalue)) (schema : ConfigSet.Schema)
    (self : gmap string pyvalue) (f : ConfigSet.ConfigField) :
  ConfigSet.validate_model state schema = Ok self →
  NoDup (ConfigSet.name <$> schema) → f ∈ schema →
  ∃ v, ConfigSet.validate_field state f = Ok v ∧ self !! ConfigSet.name f = Some v.
Proof.
  revert self. induction schema as [|g schema IH]; intros self Hval Hnd Hin.
  - by apply elem_of_nil in Hin.
  - simpl in Hval.
    destruct (ConfigSet.validate_field state g) as [v|] eqn:Hg; [|done]. simpl in Hval.
    destruct (ConfigSet.validate_model state schema) as [self'|] eqn:Hrest; [|done].
    simpl in Hval. simplify_eq.
    rewrite fmap_cons in Hnd. apply NoDup_cons in Hnd as [Hg_fresh Hnd].
    apply elem_of_cons in Hin as [->|Hin].
    + exists v. by rewrite lookup_insert_eq.
    + destruct (IH self' eq_refl Hnd Hin) as (w & Hw & Hlookup).
      exists w. split; [done|]. rewrite lookup_insert_ne; [done|].
      intros Heq. apply Hg_fresh. rewrite Heq. by apply list_elem_of_fmap_2.
Qed.

(** C3, as amended: the function given as the default of a field that no
    layer sets is called on the config so far.  There, a field declared
    before it has its final value; a field declared after it has its merged
    attribute, which is its final value when it is not a function object and
    is the unevaluated function otherwise.  With [TIMEOUT] defaulting to 60
    and [MEDIA_TIMEOUT] to [lambda cfg: cfg.TIMEOUT], the loaded
    [MEDIA_TIMEOUT] is 60 without overrides and 10 with [TIMEOUT=10] in the
    environment. *)
Theorem C3_default_function_reads_config_so_far :
  (∀ (schema pre post : ConfigSet.Schema) (f : ConfigSet.ConfigField)
     (fn : gmap string pyvalue → pyvalue) (sources : list ConfigSet.Source)
     (final : gmap string pyvalue),
     schema = pre ++ f :: post →
     NoDup (ConfigSet.name <$> schema) →
     ConfigSet.default f = ConfigSet.TakesConfig fn →
     PyDict.get (ConfigSet.name f) (ConfigSet.settings_build_values schema sources) = None →
     ConfigSet.build_model schema sources = Ok final →
     ∃ config_so_far v,
       ConfigSet.validate_python (ConfigSet.name f) (ConfigSet.annotation f) (fn config_so_far) = Ok v
       ∧ final !! ConfigSet.name f = Some v
       ∧ (∀ g, g ∈ pre → config_so_far !! ConfigSet.name g = final !! ConfigSet.name g)
       ∧ (∀ g, g ∈ post →
            ∃ w, ConfigSet.validate_field (ConfigSet.settings_build_values schema sources) g = Ok w
                 ∧ config_so_far !! ConfigSet.name g = Some w
                 ∧ (is_callable w = false → final !! ConfigSet.name g = Some w)))
  ∧ (Samples.load Samples.ArchivingConfig ∅ Samples.no_files).1
    = Ok {[ "TIMEOUT" := VInt 60; "MEDIA_TIMEOUT" := VInt 60 ]}
  ∧ (Samples.load Samples.ArchivingConfig {[ "TIMEOUT" := "10" ]} Samples.no_files).1
    = Ok {[ "TIMEOUT" := VInt 10; "MEDIA_TIMEOUT" := VInt 10 ]}.
Proof.
  split; [|split; vm_refl].
  intros schema pre post f fn sources final Hschema Hnd Hdef Hunset Hbuild.
  unfold ConfigSet.build_model in Hbuild.
  set (state := ConfigSet.settings_build_values schema sources) in *.
  destruct (ConfigSet.validate_model state schema) as [self0|] eqn:Hval; [|done].
  simpl in Hbuild.
  assert (Hf_in : f ∈ schema) by (rewrite Hschema; apply elem_of_app; right; left).
  destruct (validate_model_lookup _ _ _ f Hval Hnd Hf_in) as (a & Ha & Hself0).
  unfold ConfigSet.validate_field, ConfigSet.default_attr in Ha.
  rewrite Hunset, Hdef in Ha.
  assert (a = VCallable (ConfigSet.name f)) as -> by congruence.
  destruct (fill_defaults_config_so_far schema pre f post fn self0 final
              Hschema Hnd Hdef Hself0 Hbuild)
    as (cfg & v & Hv & Hfinal & _ & Hpre & Hpost & Hsettled).
  exists cfg, v. repeat split; try done.
  intros g Hg.
  assert (Hg_in : g ∈ schema) by (rewrite Hschema; apply elem_of_app; right; by right).
  destruct (validate_model_lookup _ _ _ g Hval Hnd Hg_in) as (w & Hw & Hlookup).
  exists w. split; [done|]. split.
  - by rewrite (Hpost g Hg).
  - intros Hc. rewrite <-(Hsettled g w Hg Hlookup Hc). by rewrite (Hpost g Hg).
Qed.

Lemma C3_witness :
  ∃ config_so_far v,
    ConfigSet.validate_python "MEDIA_TIMEOUT" ConfigSet.TInt (Samples.read_TIMEOUT config_so_far) = Ok v
    ∧ ({[ "TIMEOUT" := VInt 60; "MEDIA_TIMEOUT" := VInt 60 ]} : gmap string pyvalue)
        !! "MEDIA_TIMEOUT" = Some v
    ∧ (∀ g, g ∈ [Samples.TIMEOUT] →
         config_so_far !! ConfigSet.name g
         = ({[ "TIMEOUT" := VInt 60; "MEDIA_TIMEOUT" := VInt 60 ]} : gmap string pyvalue)
             !! ConfigSet.name g)
    ∧ (∀ g, g ∈ ([] : ConfigSet.Schema) →
         ∃ w, ConfigSet.validate_field
                (ConfigSet.settings_build_values Samples.ArchivingConfig
                   [ConfigSet.InitSettings []; ConfigSet.EnvSettings ∅]) g = Ok w
              ∧ config_so_far !! ConfigSet.name g = Some w
              ∧ (is_callable w = false →
                 ({[ "TIMEOUT" := VInt 60; "MEDIA_TIMEOUT" := VInt 60 ]} : gmap string pyvalue)
                   !! ConfigSet.name g = Some w)).
Proof.
  apply (proj1 C3_default_function_reads_config_so_far
           Samples.ArchivingConfig [Samples.TIMEOUT] [] Samples.MEDIA_TIMEOUT
           Samples.read_TIMEOUT [ConfigSet.InitSettings []; ConfigSet.EnvSettings ∅]).
  - reflexivity.
  - vm_compute. repeat constructor; set_solver.
  - reflexivity.
  - reflexivity.
  - vm_refl.
Defined.

(** A function default that reads a field declared after it, itself
    defaulting to a function, is called with that function object, not with
    the 5 the field resolves to: the result is no [int] and loading raises.
    Declared the other way round, both fields resolve to 5. *)
Lemma C3_counterexample :
  let sources := [ConfigSet.InitSettings []; ConfigSet.EnvSettings ∅] in
  ConfigSet.validate_model (ConfigSet.settings_build_values Samples.ForwardConfig sources)
    Samples.ForwardConfig
  = Ok {[ "A" := VCallable "A"; "B" := VCallable "B" ]}
  ∧ Samples.read_B {[ "A" := VCallable "A"; "B" := VCallable "B" ]} = VCallable "B"
  ∧ ConfigSet.build_model Samples.ForwardConfig sources = Raise (ValidationError "A")
  ∧ ConfigSet.build_model [Samples.B_computed; Samples.A_reads_B] sources
    = Ok {[ "A" := VInt 5; "B" := VInt 5 ]}.
Proof. cbv zeta. repeat split; vm_refl. Qed.

(** ** The order of paths and [sorted] *)

(** ** Strings *)

Lemma append_nil_l (s : string) : "" +:+ s = s.
Proof. done. Qed.

Lemma append_cons (c : ascii) (a b : string) : String c a +:+ b = String c (a +:+ b).
Proof. done. Qed.

Lemma append_nil_r (s : string) : s +:+ "" = s.
Proof. induction s as [|c s IH]; [done|]. by rewrite append_cons, IH. Qed.

Lemma append_assoc (a b c : string) : (a +:+ b) +:+ c = a +:+ (b +:+ c).
Proof. induction a as [|x a IH]; [done|]. by rewrite !append_cons, IH. Qed.

Lemma string_leb_refl (x : string) : String.leb x x = true.
Proof.
  pose proof (reflexivity (R:=String.le) x) as H. unfold String.le in H.
  by apply Is_true_true.
Qed.

Lemma parts_leb_total (a b : list string) :
  PyPath.parts_leb a b = true ∨ PyPath.parts_leb b a = true.
Proof.
  revert b. induction a as [|x a IH]; intros [|y b]; simpl; auto.
  destruct (String.eqb x y) eqn:E.
  - apply String.eqb_eq in E as ->. rewrite String.eqb_refl. apply IH.
  - rewrite String.eqb_sym, E. apply String.leb_total.
Qed.

Lemma parts_leb_trans (a b c : list string) :
  PyPath.parts_leb a b = true → PyPath.parts_leb b c = true → PyPath.parts_leb a c = true.
Proof.
  revert b c. induction a as [|x a IH]; intros [|y b] [|z c]; simpl; try done.
  destruct (String.eqb x y) eqn:Exy.
  - apply String.eqb_eq in Exy as ->.
    destruct (String.eqb y z); [apply IH|done].
  - destruct (String.eqb y z) eqn:Eyz.
    + apply String.eqb_eq in Eyz as ->. by rewrite Exy.
    + intros Hxy Hyz.
      assert (Hxz : String.leb x z = true).
      { apply Is_true_true. apply Is_true_true in Hxy, Hyz.
        exact (transitivity (R:=String.le) Hxy Hyz). }
      destruct (String.eqb x z) eqn:Exz; [|done].
      apply String.eqb_eq in Exz as ->.
      apply String.eqb_neq in Exy. destruct Exy.
      by apply String.leb_antisym.
Qed.

#[local] Instance path_le_total : Total PyPath.le.
Proof. intros p q. apply parts_leb_total. Qed.

#[local] Instance path_le_trans : Transitive PyPath.le.
Proof. intros p q r. apply parts_leb_trans. Qed.

Lemma sorted_StronglySorted (paths : list PyPath.Path) :
  StronglySorted PyPath.le (PyPath.sorted paths).
Proof. apply StronglySorted_merge_sort; apply _. Qed.

Lemma sorted_elem_of (paths : list PyPath.Path) p : p ∈ PyPath.sorted paths ↔ p ∈ paths.
Proof. unfold PyPath.sorted. by rewrite merge_sort_Permutation. Qed.

Lemma StronglySorted_filter {A} (R : relation A) (p : A → bool) (l : list A) :
  StronglySorted R l → StronglySorted R (List.filter p l).
Proof.
  induction 1 as [|x l Hl IH Hx]; simpl; [constructor|].
  destruct (p x); [|done]. constructor; [done|].
  apply Forall_forall. intros y Hy. apply list_elem_of_In, filter_In in Hy as [Hy _].
  rewrite Forall_forall in Hx. by apply Hx, list_elem_of_In.
Qed.

Lemma StronglySorted_last_max {A} (R : relation A) `{!Reflexive R} (l : list A) x y :
  StronglySorted R l → last l = Some x → y ∈ l → R y x.
Proof.
  intros Hsorted Hlast Hy. apply last_Some in Hlast as [l' ->].
  apply elem_of_app in Hy as [Hy|Hy].
  - eapply StronglySorted_app_1_elem_of; [done..|left].
  - apply list_elem_of_singleton in Hy as ->. done.
Qed.

#[local] Instance path_le_refl : Reflexive PyPath.le.
Proof. intros p. destruct (total PyPath.le p p); done. Qed.

(** The comparison the code sorts by is the order of [PathSpec]. *)

Lemma split_cons (sep : ascii) (s : string) : ∃ w ws, PyStr.split sep s = w :: ws.
Proof.
  induction s as [|c s (w & ws & IH)]; simpl; [eauto|].
  destruct (Ascii.eqb c sep); [eauto|]. rewrite IH. eauto.
Qed.

Lemma components_from_split (text : string) : ∀ current,
  PathSpec.components_from current text
  = match PyStr.split "/" text with
    | w :: ws => (current +:+ w) :: ws
    | [] => [current]
    end.
Proof.
  induction text as [|c text IH]; intros current; simpl.
  - by rewrite append_nil_r.
  - destruct (split_cons "/" text) as (w & ws & Hsplit).
    destruct (Ascii.eqb c "/").
    + rewrite append_nil_r. f_equal. by rewrite IH, Hsplit.
    + rewrite IH, Hsplit. by rewrite append_assoc.
Qed.

Lemma components_parts (p : string) : PathSpec.components p = PyPath.parts_normcase p.
Proof.
  unfold PathSpec.components, PyPath.parts_normcase. rewrite components_from_split.
  by destruct (split_cons "/" p) as (w & ws & ->).
Qed.

Lemma parts_leb_below (a b : list string) : PyPath.parts_leb a b = true ↔ PathSpec.below a b.
Proof.
  revert b. induction a as [|x a IH]; intros [|y b]; simpl; try done.
  destruct (String.eqb_spec x y) as [->|Hne].
  - rewrite IH. split; [by right|]. intros [Hlt|[_ H]]; [|done].
    pose proof (String.compare_antisym y y) as Hanti. rewrite Hlt in Hanti. done.
  - unfold String.leb. destruct (String.compare x y) eqn:E.
    + by apply String.compare_eq_iff in E.
    + split; [by left|done].
    + split; [done|]. by intros [?|[? _]].
Qed.

Lemma path_le_component_le (p q : PyPath.Path) : PyPath.le p q ↔ PathSpec.component_le p q.
Proof.
  unfold PyPath.le, PathSpec.component_le. by rewrite !components_parts, parts_leb_below.
Qed.

(** ** The browser providers *)

Section provider_facts.
Import BinProvider.
Context (self : ProviderClass).
Implicit Types (host : Host) (st : State).

(** C7: for a name other than [chrome] both operations of a provider end in
    an [AssertionError].  The lookup leaves the state as it was; the install
    leaves the cache as it was, prints nothing and runs no subprocess. *)
Theorem C7_only_chrome_is_supported host st (bin_name : string)
    (packages : option (list string)) :
  bin_name ≠ "chrome" →
  on_get_abspath self host bin_name st
    = (Raise (AssertionError (get_abspath_message self)), st)
  ∧ ∃ msg st',
      on_install self host bin_name packages st = (Raise (AssertionError msg), st')
      ∧ _browser_abspaths st' = _browser_abspaths st
      ∧ printed st' = printed st
      ∧ executed st' = executed st.
Proof.
  intros Hne. apply String.eqb_neq in Hne.
  split.
  - unfold on_get_abspath, io_bind, py_assert. by rewrite Hne.
  - unfold on_install, setup, io_bind, py_assert.
    destruct (bool_decide (is_Some (SYS_INSTALLER_BIN_ABSPATH host))).
    + destruct (puppeteer_browsers_dir self) as [dir|]; simpl; rewrite Hne; simpl; eauto 10.
    + simpl. eauto 10.
Qed.

(** C6: when the installer subprocess of an install of [chrome] exits with a
    non-zero return code, [on_install] prints the stripped stdout and then
    the stripped stderr of the subprocess and raises; it has run that one
    subprocess only and the cache is as before. *)
Theorem C6_nonzero_returncode_raises host st (packages : option (list string))
    (installer : PyPath.Path) :
  let pkgs := match packages with
              | Some (p :: ps) => p :: ps
              | _ => on_get_packages "chrome"
              end in
  let cmd := puppeteer_install_args self ++ pkgs in
  let proc := exec host installer cmd in
  is_Some (SYS_INSTALLER_BIN_ABSPATH host) →
  INSTALLER_BIN_ABSPATH host = Some installer →
  returncode proc ≠ 0 →
  ∃ st',
    on_install self host "chrome" packages st
      = (Raise (Exception (MsgInstallReturncode (class_name self) (returncode proc) pkgs)), st')
    ∧ printed st' = printed st ++ [PyStr.strip (stdout proc); PyStr.strip (stderr proc)]
    ∧ executed st' = executed st ++ [(installer, cmd)]
    ∧ _browser_abspaths st' = _browser_abspaths st.
Proof.
  intros pkgs cmd proc Hsys Hinstaller Hrc.
  unfold on_install, setup, io_bind, py_assert.
  rewrite bool_decide_true by done.
  apply Z.eqb_neq in Hrc.
  destruct (puppeteer_browsers_dir self) as [dir|]; simpl;
    rewrite Hinstaller; simpl; fold pkgs; fold cmd; fold proc; rewrite Hrc; simpl;
    (eexists; split; [reflexivity|]); simpl; rewrite <-?app_assoc; done.
Qed.

(** C8, as amended: on a cache miss with at least one globbed path that
    contains the name, the lookup returns a matching path that no matching
    path exceeds in the order of paths (component by component, not the
    order of the path text) and stores it in the cache; a later lookup
    returns it whatever the file system holds then and leaves the state
    alone. *)
Theorem C8_newest_browser_is_cached host st (dir : PyPath.Path) :
  let darwin := String.eqb (PyStr.lower (platform_system host)) "darwin" in
  let found := glob host dir (browser_glob self "*" darwin) in
  puppeteer_browsers_dir self = Some dir →
  _browser_abspaths st !! "chrome" = None →
  (∃ p, p ∈ found ∧ PyStr.contains "chrome" p = true) →
  ∃ newest_bin st',
    on_get_abspath self host "chrome" st = (Ok (Some newest_bin), st')
    ∧ newest_bin ∈ found
    ∧ PyStr.contains "chrome" newest_bin = true
    ∧ (∀ p, p ∈ found → PyStr.contains "chrome" p = true →
         PathSpec.component_le p newest_bin)
    ∧ _browser_abspaths st' = <[ "chrome" := newest_bin ]> (_browser_abspaths st)
    ∧ made_dirs st' = made_dirs st ∧ printed st' = printed st ∧ executed st' = executed st
    ∧ ∀ host', on_get_abspath self host' "chrome" st' = (Ok (Some newest_bin), st').
Proof.
  intros darwin found Hdir Hmiss (p0 & Hp0 & Hp0c).
  set (matching := List.filter (PyStr.contains "chrome") (PyPath.sorted found)).
  assert (Hmem : ∀ p, p ∈ matching ↔ p ∈ found ∧ PyStr.contains "chrome" p = true).
  { intros p. unfold matching. rewrite list_elem_of_In, filter_In, <-list_elem_of_In.
    by rewrite sorted_elem_of. }
  destruct (last matching) as [newest|] eqn:Hlast.
  2:{ apply last_None in Hlast. assert (p0 ∈ matching) as Hin by by apply Hmem.
      rewrite Hlast in Hin. by apply elem_of_nil in Hin. }
  assert (Hnewest : newest ∈ matching) by by eapply last_Some_elem_of.
  apply Hmem in Hnewest as [Hn1 Hn2].
  eexists newest, _. split.
  { unfold on_get_abspath, io_bind, py_assert, io_get, matching_bins, installed_browser_bins.
    simpl. rewrite Hmiss, Hdir. simpl.
    change (last (List.filter _ _)) with (last matching).
    rewrite Hlast. reflexivity. }
  repeat split; try done.
  - intros p Hp Hpc. apply path_le_component_le.
    apply (StronglySorted_last_max PyPath.le matching newest p); [|done|by apply Hmem].
    apply StronglySorted_filter, sorted_StronglySorted.
  - intros host'. unfold on_get_abspath, io_bind, py_assert, io_get. simpl.
    by rewrite lookup_insert_eq.
Qed.
End provider_facts.

Lemma C7_witness :
  BinProvider.on_get_abspath SampleHosts.playwright SampleHosts.linux_host "firefox" SampleHosts.fresh
    = (Raise (AssertionError BinProvider.only_chrome), SampleHosts.fresh)
  ∧ ∃ msg st',
      BinProvider.on_install SampleHosts.playwright SampleHosts.linux_host "firefox" None
        SampleHosts.fresh = (Raise (AssertionError msg), st')
      ∧ BinProvider._browser_abspaths st' = ∅
      ∧ BinProvider.printed st' = []
      ∧ BinProvider.executed st' = [].
Proof.
  apply (C7_only_chrome_is_supported SampleHosts.playwright SampleHosts.linux_host
           SampleHosts.fresh "firefox" None).
  discriminate.
Defined.

Lemma C6_witness :
  ∃ st',
    BinProvider.on_install SampleHosts.puppeteer SampleHosts.linux_host "chrome" None
      SampleHosts.fresh
    = (Raise (Exception (MsgInstallReturncode "PuppeteerBinProvider" 1 ["chrome"])), st')
    ∧ BinProvider.printed st' = [] ++ ["fetching"; "network unreachable"]
    ∧ BinProvider.executed st'
      = [] ++ [("/usr/bin/npx", ["@puppeteer/browsers"; "install"; "--path";
                                 "/data/lib/browsers"] ++ ["chrome"])]
    ∧ BinProvider._browser_abspaths st' = ∅.
Proof.
  apply (C6_nonzero_returncode_raises SampleHosts.puppeteer SampleHosts.linux_host
           SampleHosts.fresh None "/usr/bin/npx").
  - simpl. eauto.
  - reflexivity.
  - simpl. lia.
Defined.

Lemma C8_witness :
  ∃ st',
    BinProvider.on_get_abspath SampleHosts.puppeteer SampleHosts.linux_host_99 "chrome"
      SampleHosts.fresh = (Ok (Some SampleHosts.chrome_99), st')
    ∧ PathSpec.component_le SampleHosts.chrome_129 SampleHosts.chrome_99
    ∧ PathSpec.component_le SampleHosts.chrome_131 SampleHosts.chrome_99
    ∧ BinProvider._browser_abspaths st' = {[ "chrome" := SampleHosts.chrome_99 ]}
    ∧ ∀ host', BinProvider.on_get_abspath SampleHosts.puppeteer host' "chrome" st'
               = (Ok (Some SampleHosts.chrome_99), st').
Proof.
  destruct (C8_newest_browser_is_cached SampleHosts.puppeteer SampleHosts.linux_host_99
              SampleHosts.fresh SampleHosts.LIB_DIR_BROWSERS)
    as (newest_bin & st' & Hrun & _ & _ & Hmax & Hcache & _ & _ & _ & Hagain).
  - reflexivity.
  - reflexivity.
  - exists SampleHosts.chrome_99. split; [left|reflexivity].
  - assert (newest_bin = SampleHosts.chrome_99) as ->.
    { assert (Hfst : (BinProvider.on_get_abspath SampleHosts.puppeteer
                        SampleHosts.linux_host_99 "chrome" SampleHosts.fresh).1
                     = Ok (Some SampleHosts.chrome_99)) by (cbv zeta; vm_refl).
      rewrite Hrun in Hfst. simpl in Hfst. congruence. }
    exists st'. split; [exact Hrun|]. split.
    { apply Hmax; [right; right; left|reflexivity]. }
    split.
    { apply Hmax; [right; left|reflexivity]. }
    split; [exact Hcache|exact Hagain].
Defined.

(** The path that is cached is the last one as paths are ordered, which need
    not be the last one as their texts are: of a version and its point
    release the point release is cached, and its text is the smaller one. *)
Lemma C8_counterexample :
  (BinProvider.on_get_abspath SampleHosts.puppeteer SampleHosts.linux_host_point_release
     "chrome" SampleHosts.fresh).1 = Ok (Some SampleHosts.chrome_131_0_1)
  ∧ PathSpec.text_lt SampleHosts.chrome_131_0_1 SampleHosts.chrome_131_0
  ∧ PathSpec.component_le SampleHosts.chrome_131_0 SampleHosts.chrome_131_0_1
  ∧ ¬ PathSpec.component_le SampleHosts.chrome_131_0_1 SampleHosts.chrome_131_0.
Proof.
  split; [cbv zeta; vm_refl|]. split; [reflexivity|]. split.
  - apply path_le_component_le. reflexivity.
  - rewrite <-path_le_component_le. unfold PyPath.le. by vm_compute.
Qed.

Example on_get_abspath_ex :
  (BinProvider.on_get_abspath SampleHosts.puppeteer SampleHosts.linux_host_99 "chrome"
     SampleHosts.fresh).1 = Ok (Some SampleHosts.chrome_99).
Proof. cbv zeta. vm_refl. Qed.

Lemma length_append (a b : string) :
  String.length (a +:+ b) = (String.length a + String.length b)%nat.
Proof. induction a as [|x a IH]; [done|]. rewrite append_cons. simpl. by rewrite IH. Qed.

Lemma forallb_append (p : ascii → bool) (a b : string) :
  PyStr.forallb p (a +:+ b) = PyStr.forallb p a && PyStr.forallb p b.
Proof.
  induction a as [|x a IH]; [done|]. rewrite append_cons. simpl.
  by rewrite IH, andb_assoc.
Qed.

Lemma span_append (p : ascii → bool) (a rest : string) :
  PyStr.forallb p a = true → PyStr.head_fails p rest = true →
  Toml.span p (a +:+ rest) = (a, rest).
Proof.
  intros Ha Hrest. induction a as [|x a IH].
  - rewrite append_nil_l. destruct rest as [|c rest]; [done|].
    simpl in *. by destruct (p c).
  - rewrite append_cons. simpl in *. apply andb_true_iff in Ha as [-> Ha].
    by rewrite IH.
Qed.

Lemma skip_ws_head (s : string) : PyStr.head_fails Toml.is_ws s = true → Toml.skip_ws s = s.
Proof. destruct s as [|c s]; [done|]. simpl. by destruct (Toml.is_ws c). Qed.

Lemma int_go_append (a b : string) : ∀ acc,
  PyStr.int_go acc (a +:+ b) = PyStr.int_go (PyStr.int_go acc a) b.
Proof. induction a as [|x a IH]; intros acc; [done|]. rewrite append_cons. simpl. apply IH. Qed.

(** ** Decimal text of integers *)

Lemma pretty_N_char_digit (x : N) :
  (x < 10)%N →
  PyStr.is_digit_char (pretty_N_char x) = true
  ∧ (PyStr.code (pretty_N_char x) - 48)%N = x.
Proof.
  intros Hx.
  assert (x = 0 ∨ x = 1 ∨ x = 2 ∨ x = 3 ∨ x = 4 ∨ x = 5 ∨ x = 6 ∨ x = 7 ∨ x = 8 ∨ x = 9)%N
    as Hcases by lia.
  repeat (destruct Hcases as [->|Hcases]; [by vm_compute|]). subst. by vm_compute.
Qed.

(** The digits [pretty_N_go] puts in front of [s]. *)
Lemma pretty_N_go_digits (x : N) : ∀ s,
  ∃ ds, pretty_N_go x s = ds +:+ s
        ∧ PyStr.forallb PyStr.is_digit_char ds = true
        ∧ PyStr.int_go 0 ds = x
        ∧ ((0 < x)%N → PyStr.head_sat (λ c, PyStr.is_digit_char c && negb (Ascii.eqb c "0")) ds = true).
Proof.
  induction (N.lt_wf_0 x) as [x _ IH]. intros s.
  destruct (decide (x = 0%N)) as [->|Hx].
  - exists "". rewrite pretty_N_go_0. repeat split; try done; lia.
  - assert (0 < x)%N as Hpos by lia.
    rewrite pretty_N_go_step by done.
    set (d := pretty_N_char (x `mod` 10)).
    destruct (IH (x `div` 10)%N (N.div_lt x 10 Hpos eq_refl) (String d s))
      as (ds & Hgo & Hdigits & Hval & Hhead).
    destruct (pretty_N_char_digit (x `mod` 10)) as [Hd1 Hd2].
    { by apply N.mod_lt. }
    exists (ds +:+ String d "").
    rewrite append_assoc, append_cons, append_nil_l.
    split; [done|]. split.
    { rewrite forallb_append. simpl. fold d in Hd1. by rewrite Hdigits, Hd1. }
    split.
    { rewrite int_go_append, Hval. simpl. fold d in Hd2. rewrite Hd2.
      rewrite (N.div_mod x 10) at 3 by done. lia. }
    intros _. destruct (decide (x `div` 10 = 0)%N) as [Hsmall|Hbig].
    + rewrite Hsmall in Hval. destruct ds as [|c ds].
      * rewrite append_nil_l. simpl. fold d in Hd1. rewrite Hd1. simpl.
        assert (x `mod` 10 = x)%N as Hmod.
        { rewrite (N.div_mod x 10) at 2 by done. lia. }
        assert (x < 10)%N as Hlt by (rewrite <-Hmod; by apply N.mod_lt).
        unfold d. rewrite Hmod.
        assert (x = 1 ∨ x = 2 ∨ x = 3 ∨ x = 4 ∨ x = 5 ∨ x = 6 ∨ x = 7 ∨ x = 8 ∨ x = 9)%N
          as Hcases by lia.
        repeat (destruct Hcases as [->|Hcases]; [by vm_compute|]). subst. by vm_compute.
      * rewrite Hsmall in Hgo. rewrite pretty_N_go_0 in Hgo.
        rewrite append_cons in Hgo. exfalso.
        assert (String.length (String d s) = String.length (String c (ds +:+ String d s)))
          as Hlen by by rewrite <-Hgo.
        simpl in Hlen. rewrite length_append in Hlen. simpl in Hlen. lia.
    + destruct ds as [|c ds]; [simpl in Hval; lia|].
      rewrite append_cons. simpl. apply Hhead. lia.
Qed.

Lemma pretty_pos_digits (p : positive) :
  ∃ c ds, pretty (Zpos p) = String c ds
          ∧ PyStr.is_digit_char c = true ∧ Ascii.eqb c "0" = false
          ∧ PyStr.forallb PyStr.is_digit_char ds = true
          ∧ PyStr.digits_value (String c ds) = Zpos p.
Proof.
  destruct (pretty_N_go_digits (Npos p) "") as (ds & Hgo & Hdigits & Hval & Hhead).
  rewrite append_nil_r in Hgo.
  unfold pretty, pretty_Z, pretty, pretty_positive, pretty, pretty_N.
  rewrite decide_False by done. rewrite Hgo.
  destruct ds as [|c ds]; [by discriminate (Hhead eq_refl)|].
  specialize (Hhead eq_refl). simpl in Hhead, Hdigits.
  apply andb_true_iff in Hhead as [Hc Hnz]. rewrite Hc in Hdigits. simpl in Hdigits.
  exists c, ds. repeat split; try done.
  - by destruct (Ascii.eqb c "0").
  - unfold PyStr.digits_value. by rewrite Hval.
Qed.

Lemma digit_not_sign (c : ascii) :
  PyStr.is_digit_char c = true → Ascii.eqb c "-" = false ∧ Ascii.eqb c "+" = false.
Proof.
  intros Hc. split.
  - destruct (Ascii.eqb_spec c "-") as [->|]; [by vm_compute in Hc|done].
  - destruct (Ascii.eqb_spec c "+") as [->|]; [by vm_compute in Hc|done].
Qed.

Lemma integer_cons (c : ascii) (s : string) :
  Toml.integer (String c s)
  = if Ascii.eqb c "-" then Toml.integer_of_digits true s
    else if Ascii.eqb c "+" then Toml.integer_of_digits false s
    else Toml.integer_of_digits false (String c s).
Proof.
  done.
Qed.

Lemma integer_digits (c : ascii) (ds rest : string) (negative : bool) :
  PyStr.is_digit_char c = true → Ascii.eqb c "0" = false →
  PyStr.forallb PyStr.is_digit_char ds = true →
  PyStr.head_fails PyStr.is_digit_char rest = true →
  Toml.integer ((if negative then "-" else "") +:+ String c ds +:+ rest)
  = Some (if negative then - PyStr.digits_value (String c ds) else PyStr.digits_value (String c ds), rest).
Proof.
  intros Hc Hnz Hds Hrest.
  destruct (digit_not_sign c Hc) as [Hm Hp].
  assert (Hspan : Toml.span PyStr.is_digit_char (String c ds +:+ rest) = (String c ds, rest)).
  { apply span_append; [|done]. simpl. by rewrite Hc, Hds. }
  assert (Hgo : ∀ neg, Toml.integer_of_digits neg (String c ds +:+ rest)
            = Some (if neg then - PyStr.digits_value (String c ds) else PyStr.digits_value (String c ds), rest)).
  { intros neg. unfold Toml.integer_of_digits. rewrite Hspan.
    destruct ds; [done|]. by rewrite Hnz. }
  destruct negative.
  - rewrite append_cons, append_nil_l, integer_cons. by rewrite Ascii.eqb_refl.
  - rewrite append_nil_l. rewrite append_cons at 1. rewrite integer_cons, Hm, Hp.
    rewrite <-append_cons. apply Hgo.
Qed.

Lemma integer_pretty (n : Z) (rest : string) :
  PyStr.head_fails PyStr.is_digit_char rest = true →
  Toml.integer (pretty n +:+ rest) = Some (n, rest).
Proof.
  intros Hrest. destruct n as [|p|p].
  - change (pretty 0) with "0". rewrite append_cons, append_nil_l.
    rewrite integer_cons. simpl Ascii.eqb. cbv iota.
    unfold Toml.integer_of_digits. change (String "0" rest) with ("0" +:+ rest).
    by rewrite span_append.
  - destruct (pretty_pos_digits p) as (c & ds & Hp & Hc & Hnz & Hds & Hval).
    rewrite Hp. pose proof (integer_digits c ds rest false Hc Hnz Hds Hrest) as H.
    rewrite append_nil_l in H. rewrite H. by rewrite Hval.
  - destruct (pretty_pos_digits p) as (c & ds & Hp & Hc & Hnz & Hds & Hval).
    change (pretty (Z.neg p)) with ("-" +:+ pretty (Z.pos p)).
    rewrite Hp, append_assoc.
    rewrite (integer_digits c ds rest true Hc Hnz Hds Hrest). by rewrite Hval.
Qed.

(** ** Reading back what [json.dumps] writes *)

Lemma basic_string_body_escape_char (c : ascii) (tail : string) :
  Toml.basic_string_body (Json.escape_char c +:+ tail)
  = '(body, rest) ← Toml.basic_string_body tail; Some (String c body, rest).
Proof. destruct c as [[] [] [] [] [] [] [] []]; reflexivity. Qed.

Lemma basic_string_body_escape (s rest : string) :
  Toml.basic_string_body (Json.escape s +:+ String dquote rest) = Some (s, rest).
Proof.
  induction s as [|c s IH]; [done|].
  simpl Json.escape. by rewrite append_assoc, basic_string_body_escape_char, IH.
Qed.

Lemma pyvalue_list_ind (P : pyvalue → Prop)
    (Hother : ∀ v, (∀ l, v ≠ VList l) → P v)
    (Hlist : ∀ l, Forall P l → P (VList l)) :
  ∀ v, P v.
Proof.
  fix F 1. intros v.
  destruct v as [| | | | |l| | | |]; try (apply Hother; intros l' Heq; discriminate Heq).
  apply Hlist. revert l. fix G 1. intros [|x l]; constructor; [apply F|apply G].
Qed.

Lemma value_start_char_facts (c : ascii) :
  RoundTrip.value_start_char c = true →
  Toml.is_ws c = false ∧ Ascii.eqb c "]" = false ∧ Ascii.eqb c "#" = false
  ∧ Ascii.eqb c "," = false.
Proof. destruct c as [[] [] [] [] [] [] [] []]; vm_compute; intros; done. Qed.

Lemma json_text_start (v : pyvalue) :
  RoundTrip.toml_value v = true →
  PyStr.head_sat RoundTrip.value_start_char (RoundTrip.toml_text v) = true.
Proof.
  destruct v as [|[]|n| |s|l| | | |]; try done.
  destruct n as [|p|p]; [done| |done].
  intros _. cbn [RoundTrip.toml_text].
  destruct (pretty_pos_digits p) as (c & ds & -> & Hc & _). simpl.
  unfold RoundTrip.value_start_char. rewrite Hc. by rewrite !orb_true_r.
Qed.

Lemma head_sat_append (p : ascii → bool) (a b : string) :
  PyStr.head_sat p a = true → PyStr.head_sat p (a +:+ b) = true.
Proof. by destruct a. Qed.

Lemma toml_value_text_int (n : Z) (fuel : nat) (rest : string) :
  PyStr.head_fails PyStr.is_digit_char rest = true →
  Toml.value (S fuel) (pretty n +:+ rest) = Some (VInt n, rest).
Proof.
  intros Hrest.
  assert (∃ c s, pretty n = String c s
                 ∧ (PyStr.is_digit_char c = true ∨ c = "-"%char)) as (c & s & Hn & Hc).
  { destruct n as [|p|p]; [exists "0"%char, ""; split; [done|by left]| |].
    - destruct (pretty_pos_digits p) as (c & ds & -> & Hc & _). eauto.
    - exists "-"%char, (pretty (Z.pos p)). split; [done|by right]. }
  pose proof (integer_pretty n rest Hrest) as Hint.
  rewrite Hn in *. rewrite append_cons in *.
  assert (Ascii.eqb c "t" = false ∧ Ascii.eqb c "f" = false
          ∧ Ascii.eqb c dquote = false ∧ Ascii.eqb c "[" = false) as (Ht & Hf & Hq & Hb).
  { destruct Hc as [Hc| ->]; [|done].
    repeat split; match goal with |- Ascii.eqb c ?x = false =>
      destruct (Ascii.eqb_spec c x) as [->|]; [by vm_compute in Hc|done] end. }
  cbn [Toml.value PyStr.prefix].
  rewrite (Ascii.eqb_sym "t" c), (Ascii.eqb_sym "f" c), Ht, Hf. cbn [andb]. rewrite Hq, Hb.
  by rewrite Hint.
Qed.

Lemma join_cons_cons (sep a b : string) (l : list string) :
  PyStr.join sep (a :: b :: l) = a +:+ sep +:+ PyStr.join sep (b :: l).
Proof. done. Qed.

Lemma skip_ws_value_start (s : string) :
  PyStr.head_sat RoundTrip.value_start_char s = true → Toml.skip_ws s = s.
Proof.
  destruct s as [|c s]; [done|]. simpl. intros Hc.
  by destruct (value_start_char_facts c Hc) as (-> & _).
Qed.

Lemma head_is_value_start (s : string) (x : ascii) :
  PyStr.head_sat RoundTrip.value_start_char s = true →
  x = "]"%char ∨ x = ","%char → Toml.head_is x s = false.
Proof.
  destruct s as [|c s]; [done|]. simpl. intros Hc.
  destruct (value_start_char_facts c Hc) as (_ & H1 & _ & H2).
  by intros [-> | ->].
Qed.

Lemma array_items_text (l : list pyvalue) :
  Forall RoundTrip.reads_back l → forallb RoundTrip.toml_value l = true →
  ∀ fuel rest,
    (S (String.length (PyStr.join ", " (RoundTrip.toml_text <$> l))) ≤ fuel)%nat →
    Toml.array_items fuel (PyStr.join ", " (RoundTrip.toml_text <$> l) +:+ String "]" rest)
    = Some (l, rest).
Proof.
  induction 1 as [|v l Hv Hl IH]; intros Hvalues fuel rest Hfuel.
  - destruct fuel as [|fuel]; [simpl in Hfuel; lia|]. done.
  - simpl in Hvalues. apply andb_true_iff in Hvalues as [Hvalue Hvalues].
    destruct fuel as [|fuel]; [simpl in Hfuel; lia|].
    pose proof (json_text_start v Hvalue) as Hstart.
    destruct l as [|v2 l].
    + cbn [fmap list_fmap PyStr.join] in *.
      cbn [Toml.array_items].
      rewrite (head_is_value_start _ "]"); [|by apply head_sat_append|by left].
      rewrite (Hv Hvalue fuel (String "]" rest)); [done|lia|done].
    + rewrite fmap_cons in *. rewrite (fmap_cons _ v2 l) in *. rewrite join_cons_cons in *.
      rewrite !length_append in Hfuel. simpl String.length in Hfuel.
      rewrite !append_assoc.
      cbn [Toml.array_items].
      rewrite (head_is_value_start _ "]"); [|by apply head_sat_append|by left].
      rewrite (Hv Hvalue fuel); [|lia|done].
      assert (Hstart2 : PyStr.head_sat RoundTrip.value_start_char
                (PyStr.join ", " (RoundTrip.toml_text <$> v2 :: l) +:+ String "]" rest) = true).
      { simpl in Hvalues. apply andb_true_iff in Hvalues as [Hvalue2 _].
        apply head_sat_append. rewrite fmap_cons.
        destruct l; [by apply json_text_start|].
        rewrite fmap_cons, join_cons_cons. by apply head_sat_append, json_text_start. }
      pose proof (skip_ws_value_start _ Hstart2) as Hskip.
      pose proof (IH Hvalues fuel rest) as IH'.
      rewrite fmap_cons in Hskip.
      set (X := PyStr.join ", " (RoundTrip.toml_text v2 :: (RoundTrip.toml_text <$> l))
                +:+ String "]" rest) in *.
      change (", " +:+ X) with (String "," (String " " X)).
      cbn [mbind option_bind].
      change (Toml.skip_ws (String "," (String " " X))) with (String "," (String " " X)).
      change (Toml.head_is "," (String "," (String " " X))) with true.
      cbn match. cbn [Toml.drop].
      change (Toml.skip_ws (String " " X)) with (Toml.skip_ws X).
      rewrite Hskip, IH'; [done|].
      clear -Hfuel. simpl in *. lia.
Qed.

Lemma value_toml_text (v : pyvalue) : RoundTrip.reads_back v.
Proof.
  induction v as [v Hv|l IH] using pyvalue_list_ind; intros Hvalue fuel rest Hfuel Hrest.
  - destruct v as [|b|n| |s|l| | | |]; try done.
    + destruct fuel as [|fuel]; [destruct b; simpl in Hfuel; lia|]. by destruct b.
    + destruct fuel as [|fuel].
      { pose proof (json_text_start (VInt n) Hvalue) as H.
        destruct (RoundTrip.toml_text (VInt n)); [done|simpl in Hfuel; lia]. }
      by apply toml_value_text_int.
    + destruct fuel as [|fuel]; [simpl in Hfuel; lia|].
      cbn [RoundTrip.toml_text]. unfold Json.dumps_str.
      rewrite append_assoc, append_cons.
      change (String dquote "" +:+ rest) with (String dquote rest).
      cbn [Toml.value PyStr.prefix]. simpl Ascii.eqb. cbn [andb].
      by rewrite basic_string_body_escape.
    + by destruct (Hv l).
  - destruct fuel as [|fuel]; [simpl in Hfuel; lia|].
    cbn [RoundTrip.toml_text] in *. rewrite append_cons, append_nil_l in *.
    rewrite append_cons, append_assoc.
    change ("]" +:+ rest) with (String "]" rest).
    cbn [Toml.value PyStr.prefix]. simpl Ascii.eqb. cbn [andb].
    assert (Hskip : Toml.skip_ws (PyStr.join ", " (RoundTrip.toml_text <$> l) +:+ String "]" rest)
                    = PyStr.join ", " (RoundTrip.toml_text <$> l) +:+ String "]" rest).
    { destruct l as [|v l]; [done|]. apply skip_ws_value_start, head_sat_append.
      simpl in Hvalue. apply andb_true_iff in Hvalue as [Hvalue _].
      rewrite fmap_cons. destruct l; [by apply json_text_start|].
      rewrite fmap_cons, join_cons_cons. by apply head_sat_append, json_text_start. }
    rewrite Hskip, (array_items_text l IH Hvalue); [done|].
    simpl in Hfuel. rewrite length_append in Hfuel. simpl in Hfuel. lia.
Qed.

Lemma dumps_toml_text (v : pyvalue) :
  RoundTrip.toml_value v = true → Json.dumps v = Ok (RoundTrip.toml_text v).
Proof.
  induction v as [v Hv|l IH] using pyvalue_list_ind; intros Hvalue.
  - destruct v as [|[]|n| | |l| | | |]; try done.
    + cbn [Json.dumps RoundTrip.toml_text]. unfold Json.int_repr.
      simpl in Hvalue. apply bool_decide_eq_true in Hvalue.
      rewrite decide_False; [done|]. by apply Nat.le_ngt.
    + by destruct (Hv l).
  - cbn [Json.dumps RoundTrip.toml_text].
    assert (Hgo : Json.map_result Json.dumps l = Ok (RoundTrip.toml_text <$> l)).
    { simpl in Hvalue. clear -IH Hvalue.
      induction IH as [|x l Hx _ IHl]; [done|].
      simpl in Hvalue. apply andb_true_iff in Hvalue as [Hxv Hlv].
      cbn [Json.map_result]. rewrite (Hx Hxv). cbn [mbind result_bind].
      fold (Json.map_result Json.dumps l). by rewrite (IHl Hlv). }
    by rewrite Hgo.
Qed.

(** ** Lines of a document *)

Lemma bare_key_head (k rest : string) :
  Toml.is_bare_key k = true →
  ∃ c k', k = String c k' ∧ Toml.is_bare_char c = true
          ∧ PyStr.forallb Toml.is_bare_char k = true.
Proof.
  destruct k as [|c k']; [done|]. intros Hk. exists c, k'.
  unfold Toml.is_bare_key in Hk. split; [done|]. split; [|done].
  simpl in Hk. by apply andb_true_iff in Hk as [? _].
Qed.

Lemma bare_char_facts (c : ascii) :
  Toml.is_bare_char c = true →
  Toml.is_ws c = false ∧ Ascii.eqb c "#" = false ∧ Ascii.eqb c "[" = false.
Proof. destruct c as [[] [] [] [] [] [] [] []]; vm_compute; intros; done. Qed.

Lemma line_unfold (c : ascii) (s' : string) :
  Toml.is_ws c = false →
  Toml.line (String c s')
  = if Ascii.eqb c "#" then Some Toml.Blank
    else if Ascii.eqb c "[" then
      let '(table, rest) := Toml.span Toml.is_bare_char s' in
      if Toml.head_is "]" rest && Toml.is_bare_key table && Toml.line_end (Toml.drop 1 rest)
      then Some (Toml.Header table) else None
    else
      let '(key, rest) := Toml.span Toml.is_bare_char (String c s') in
      let rest := Toml.skip_ws rest in
      if Toml.is_bare_key key && Toml.head_is "=" rest then
        '(v, rest') ← Toml.value (String.length rest) (Toml.skip_ws (Toml.drop 1 rest));
        if Toml.line_end rest' then Some (Toml.Pair key v) else None
      else None.
Proof. intros Hws. unfold Toml.line. cbn [Toml.skip_ws]. by rewrite Hws. Qed.

Lemma line_header (table : string) :
  Toml.is_bare_key table = true →
  Toml.line ("[" +:+ table +:+ "]") = Some (Toml.Header table).
Proof.
  intros Hkey. destruct (bare_key_head table "" Hkey) as (c & k' & _ & _ & Hall).
  rewrite append_cons, append_nil_l, line_unfold by done.
  change (Ascii.eqb "[" "#") with false. change (Ascii.eqb "[" "[") with true. cbv iota.
  rewrite (span_append Toml.is_bare_char table "]" Hall eq_refl).
  by rewrite Hkey.
Qed.

Lemma line_pair (key : string) (v : pyvalue) :
  Toml.is_bare_key key = true → RoundTrip.toml_value v = true →
  Toml.line (key +:+ " = " +:+ RoundTrip.toml_text v) = Some (Toml.Pair key v).
Proof.
  intros Hkey Hvalue.
  destruct (bare_key_head key "" Hkey) as (c & k' & -> & Hc & Hall).
  destruct (bare_char_facts c Hc) as (Hws & Hhash & Hbracket).
  set (text := RoundTrip.toml_text v).
  rewrite append_cons, line_unfold by done.
  rewrite Hhash, Hbracket. rewrite <-append_cons.
  rewrite (span_append Toml.is_bare_char (String c k') (" = " +:+ text) Hall eq_refl).
  cbv zeta. rewrite Hkey.
  change (" = " +:+ text) with (String " " (String "=" (String " " text))).
  change (Toml.skip_ws (String " " (String "=" (String " " text))))
    with (String "=" (String " " text)).
  change (Toml.head_is "=" (String "=" (String " " text))) with true.
  cbn [andb Toml.drop].
  change (Toml.skip_ws (String " " text)) with (Toml.skip_ws text).
  rewrite (skip_ws_value_start text) by by apply json_text_start.
  pose proof (value_toml_text v Hvalue (String.length (String "=" (String " " text))) "") as H.
  rewrite append_nil_r in H. fold text in H. rewrite H; [done| |done].
  simpl. lia.
Qed.

Lemma pydict_get_None {V} (d : list (string * V)) k :
  PyDict.get k d = None ↔ k ∉ d.*1.
Proof.
  pose proof (pydict_get_Some_keys d k) as H. unfold PyDict.keys in H.
  rewrite <-H. destruct (PyDict.get k d); split; try done.
  intros Hn. destruct Hn. eauto.
Qed.

Lemma pydict_set_fresh {V} (d : list (string * V)) k v :
  k ∉ d.*1 → PyDict.set k v d = d ++ [(k, v)].
Proof.
  induction d as [|[k' v'] d IH]; intros Hk; [done|].
  rewrite fmap_cons, not_elem_of_cons in Hk. destruct Hk as [Hne Hk]. simpl in *.
  apply String.eqb_neq in Hne. rewrite Hne. by rewrite IH.
Qed.

Lemma pydict_set_last {V} (d : list (string * V)) k v w :
  k ∉ d.*1 → PyDict.set k v (d ++ [(k, w)]) = d ++ [(k, v)].
Proof.
  induction d as [|[k' v'] d IH]; intros Hk.
  - simpl. by rewrite String.eqb_refl.
  - rewrite fmap_cons, not_elem_of_cons in Hk. destruct Hk as [Hne Hk]. simpl in *.
    apply String.eqb_neq in Hne. rewrite Hne. by rewrite IH.
Qed.

Lemma pydict_get_last {V} (d : list (string * V)) k v :
  k ∉ d.*1 → PyDict.get k (d ++ [(k, v)]) = Some v.
Proof.
  induction d as [|[k' v'] d IH]; intros Hk.
  - simpl. by rewrite String.eqb_refl.
  - rewrite fmap_cons, not_elem_of_cons in Hk. destruct Hk as [Hne Hk]. simpl in *.
    apply String.eqb_neq in Hne. rewrite Hne. by apply IH.
Qed.

Lemma add_lines_app st (l1 l2 : list string) :
  Toml.add_lines st (l1 ++ l2) = st' ← Toml.add_lines st l1; Toml.add_lines st' l2.
Proof.
  revert st. induction l1 as [|l l1 IH]; intros st; [done|]. simpl.
  destruct (Toml.line l) as [parsed|]; [|done]. simpl.
  destruct (Toml.add_line st parsed) as [st'|]; [|done]. simpl. apply IH.
Qed.

Lemma add_lines_items (table : string) (items : list (string * pyvalue)) :
  ∀ (doc : list (string * pyvalue)) (done : list (string * pyvalue)),
    table ∉ doc.*1 →
    NoDup (done ++ items).*1 →
    Forall (λ kv : string * pyvalue,
      Toml.is_bare_key kv.1 = true ∧ RoundTrip.toml_value kv.2 = true) items →
    Toml.add_lines (doc ++ [(table, VDict done)], Some table) (RoundTrip.item_line <$> items)
    = Some (doc ++ [(table, VDict (done ++ items))], Some table).
Proof.
  induction items as [|[k v] items IH]; intros doc done Htable Hnd Hitems.
  - by rewrite app_nil_r.
  - apply Forall_cons in Hitems as [[Hk Hv] Hitems]. simpl in Hk, Hv.
    rewrite fmap_cons. cbn [Toml.add_lines].
    change (RoundTrip.item_line (k, v)) with (k +:+ " = " +:+ RoundTrip.toml_text v).
    rewrite (line_pair k v Hk Hv). cbn [mbind option_bind Toml.add_line].
    rewrite pydict_get_last by done.
    assert (Hfresh : k ∉ done.*1).
    { rewrite fmap_app, fmap_cons in Hnd. apply NoDup_app in Hnd as (_ & Hdisj & _).
      intros Hin. apply (Hdisj _ Hin). left. }
    rewrite (proj2 (pydict_get_None done k) Hfresh).
    rewrite (pydict_set_fresh done k v Hfresh), (pydict_set_last doc table _ _ Htable).
    cbn [mbind option_bind].
    rewrite (IH doc (done ++ [(k, v)])); [|done| |done].
    + by rewrite <-app_assoc.
    + by rewrite <-app_assoc.
Qed.

Lemma add_lines_sections (sd : RoundTrip.sections) :
  ∀ (doc : list (string * pyvalue)) (current : option string),
    NoDup (doc.*1 ++ sd.*1) →
    Forall (λ sec : string * list (string * pyvalue),
      Toml.is_bare_key sec.1 = true
      ∧ NoDup sec.2.*1
      ∧ Forall (λ kv : string * pyvalue,
          Toml.is_bare_key kv.1 = true ∧ RoundTrip.toml_value kv.2 = true) sec.2) sd →
    fst <$> Toml.add_lines (doc, current) (concat (RoundTrip.section_lines <$> sd))
    = Some (doc ++ RoundTrip.doc_of sd).
Proof.
  induction sd as [|[table items] sd IH]; intros doc current Hnd Hsd.
  - simpl. by rewrite app_nil_r.
  - apply Forall_cons in Hsd as [(Htable & Hkeys & Hitems) Hsd]. simpl in Htable, Hkeys, Hitems.
    rewrite fmap_cons in Hnd.
    assert (Hfresh : table ∉ doc.*1).
    { apply NoDup_app in Hnd as (_ & Hdisj & _). intros Hin. apply (Hdisj _ Hin). left. }
    rewrite fmap_cons. cbn [concat].
    change (RoundTrip.section_lines (table, items))
      with (("[" +:+ table +:+ "]") :: (RoundTrip.item_line <$> items) ++ [""]).
    rewrite <-app_comm_cons. cbn [Toml.add_lines].
    rewrite (line_header table Htable). cbn [mbind option_bind Toml.add_line].
    rewrite (proj2 (pydict_get_None doc table) Hfresh).
    rewrite (pydict_set_fresh doc table _ Hfresh).
    cbn [mbind option_bind]. rewrite !add_lines_app.
    rewrite (add_lines_items table items doc [] Hfresh Hkeys Hitems).
    cbn [mbind option_bind app Toml.add_lines].
    change (Toml.line "") with (Some Toml.Blank). cbn [mbind option_bind Toml.add_line].
    rewrite (IH (doc ++ [(table, VDict items)]) (Some table)); [|  |done].
    + by rewrite <-app_assoc.
    + rewrite fmap_app. simpl. rewrite <-app_assoc. done.
Qed.

(** ** [strip] and [split] on rendered documents *)

Lemma rstrip_append (a b : string) :
  PyStr.rstrip (a +:+ b)
  = match PyStr.rstrip b with
    | "" => PyStr.rstrip a
    | r => a +:+ r
    end.
Proof.
  induction a as [|c a IH].
  - rewrite append_nil_l. by destruct (PyStr.rstrip b).
  - rewrite append_cons. cbn [PyStr.rstrip]. rewrite IH.
    destruct (PyStr.rstrip b) as [|x r]; [done|].
    rewrite append_cons.
    destruct (a +:+ String x r) eqn:E; [|done].
    destruct a; discriminate E.
Qed.

Lemma rstrip_ends_nonspace (s : string) :
  RoundTrip.ends_nonspace s = true → PyStr.rstrip s = s.
Proof.
  induction s as [|c s IH]; [done|]. cbn [RoundTrip.ends_nonspace PyStr.rstrip].
  destruct s as [|c' s].
  - simpl. by destruct (PyStr.is_space_char c).
  - intros H. by rewrite (IH H).
Qed.

Lemma ends_nonspace_append (a b : string) :
  b ≠ "" → RoundTrip.ends_nonspace (a +:+ b) = RoundTrip.ends_nonspace b.
Proof.
  intros Hb. induction a as [|c a IH]; [done|].
  rewrite append_cons. cbn [RoundTrip.ends_nonspace].
  destruct (a +:+ b) eqn:E; [|done].
  destruct a, b; done.
Qed.

Lemma join_nonempty (sep : string) (l : list string) :
  (∃ l' x, l = l' ++ [x] ∧ x ≠ "") → PyStr.join sep l ≠ "".
Proof.
  intros (l' & x & -> & Hx). induction l' as [|y l' IH]; [done|].
  destruct l' as [|z l'].
  - simpl. destruct y; [|done]. rewrite append_nil_l. by destruct sep.
  - simpl in *. destruct y; [|done]. rewrite append_nil_l.
    destruct sep; [|done]. by rewrite append_nil_l.
Qed.

Lemma rstrip_lines_last (lines : list string) :
  RoundTrip.rstrip_lines lines = []
  ∨ ∃ l' x, RoundTrip.rstrip_lines lines = l' ++ [x] ∧ x ≠ "".
Proof.
  induction lines as [|l lines IH]; [by left|]. simpl.
  destruct IH as [->|(l' & x & -> & Hx)].
  - destruct (String.eqb_spec l ""); [by left|]. right. by exists [], l.
  - right. destruct (l' ++ [x]) eqn:E; [by destruct l'|].
    rewrite <-E. by exists (l :: l'), x.
Qed.

Lemma rstrip_unlines (lines : list string) :
  Forall (λ l, l = "" ∨ RoundTrip.ends_nonspace l = true) lines →
  PyStr.rstrip (RoundTrip.unlines lines) = PyStr.join nl (RoundTrip.rstrip_lines lines).
Proof.
  induction 1 as [|l lines Hl _ IH]; [done|].
  unfold RoundTrip.unlines in *. rewrite fmap_cons. cbn [IniToToml.concat_str].
  rewrite rstrip_append, IH. cbn [RoundTrip.rstrip_lines].
  destruct (rstrip_lines_last lines) as [->|(l' & x & Hlast & Hx)].
  - cbn [PyStr.join]. rewrite rstrip_append. change (PyStr.rstrip nl) with "".
    destruct Hl as [->|Hl]; [done|].
    rewrite (rstrip_ends_nonspace l Hl).
    destruct (String.eqb_spec l "") as [->|]; done.
  - pose proof (join_nonempty nl (RoundTrip.rstrip_lines lines)) as Hne.
    rewrite Hlast in *.
    destruct (PyStr.join nl (l' ++ [x])) as [|c r] eqn:E.
    { destruct Hne; eauto. }
    destruct (l' ++ [x]) as [|y ys] eqn:E'; [by destruct l'|].
    rewrite join_cons_cons, E. by rewrite append_assoc.
Qed.

Lemma split_no_sep (sep : ascii) (l : string) :
  PyStr.forallb (λ c, negb (Ascii.eqb c sep)) l = true → PyStr.split sep l = [l].
Proof.
  induction l as [|c l IH]; [done|]. simpl. intros H.
  apply andb_true_iff in H as [Hc Hl]. apply negb_true_iff in Hc.
  by rewrite Hc, (IH Hl).
Qed.

Lemma split_append_sep (sep : ascii) (a b : string) :
  PyStr.forallb (λ c, negb (Ascii.eqb c sep)) a = true →
  PyStr.split sep (a +:+ String sep b) = a :: PyStr.split sep b.
Proof.
  induction a as [|c a IH]; intros H.
  - rewrite append_nil_l. simpl. by rewrite Ascii.eqb_refl.
  - rewrite append_cons. simpl in *.
    apply andb_true_iff in H as [Hc Ha]. apply negb_true_iff in Hc.
    by rewrite Hc, (IH Ha).
Qed.

Lemma split_join_lines (lines : list string) :
  lines ≠ [] → Forall (λ l, RoundTrip.no_nl l = true) lines →
  PyStr.split "010" (PyStr.join nl lines) = lines.
Proof.
  intros Hne Hlines. induction Hlines as [|l lines Hl Hlines IH]; [done|].
  destruct lines as [|l2 lines].
  - by apply split_no_sep.
  - rewrite join_cons_cons.
    change (nl +:+ PyStr.join nl (l2 :: lines)) with (String "010" (PyStr.join nl (l2 :: lines))).
    rewrite split_append_sep by done. by rewrite IH.
Qed.

Lemma add_lines_rstrip_lines (lines : list string) : ∀ st,
  Toml.add_lines st (RoundTrip.rstrip_lines lines) = Toml.add_lines st lines.
Proof.
  induction lines as [|l lines IH]; intros st; [done|].
  cbn [RoundTrip.rstrip_lines].
  destruct (RoundTrip.rstrip_lines lines) as [|k kept] eqn:E.
  - destruct (String.eqb_spec l "") as [->|].
    + cbn [Toml.add_lines]. change (Toml.line "") with (Some Toml.Blank).
      destruct st as [doc current]. simpl. by rewrite <-IH.
    + cbn [Toml.add_lines]. destruct (Toml.line l) as [parsed|]; [|done].
      cbn [mbind option_bind]. destruct (Toml.add_line st parsed) as [st'|]; [|done].
      cbn [mbind option_bind]. by rewrite <-IH.
  - cbn [Toml.add_lines]. destruct (Toml.line l) as [parsed|]; [|done].
    cbn [mbind option_bind]. destruct (Toml.add_line st parsed) as [st'|]; [|done].
    cbn [mbind option_bind]. by rewrite <-IH.
Qed.

Lemma forallb_impl (p q : ascii → bool) (s : string) :
  (∀ c, p c = true → q c = true) → PyStr.forallb p s = true → PyStr.forallb q s = true.
Proof.
  intros Hpq. induction s as [|c s IH]; [done|]. simpl. intros H.
  apply andb_true_iff in H as [Hc Hs]. by rewrite (Hpq c Hc), (IH Hs).
Qed.

Lemma ends_nonspace_forallb (p : ascii → bool) (s : string) :
  (∀ c, p c = true → PyStr.is_space_char c = false) →
  s ≠ "" → PyStr.forallb p s = true → RoundTrip.ends_nonspace s = true.
Proof.
  intros Hp. induction s as [|c s IH]; [done|]. intros _ H. simpl in H.
  apply andb_true_iff in H as [Hc Hs]. cbn [RoundTrip.ends_nonspace].
  destruct s as [|c' s]; [by rewrite (Hp c Hc)|]. by apply IH.
Qed.

Lemma digit_char_facts (c : ascii) :
  PyStr.is_digit_char c = true →
  PyStr.is_space_char c = false ∧ negb (Ascii.eqb c "010") = true.
Proof. destruct c as [[] [] [] [] [] [] [] []]; vm_compute; intros; done. Qed.

Lemma bare_char_facts2 (c : ascii) :
  Toml.is_bare_char c = true →
  PyStr.is_space_char c = false ∧ negb (Ascii.eqb c "010") = true.
Proof. destruct c as [[] [] [] [] [] [] [] []]; vm_compute; intros; done. Qed.

Lemma escape_char_no_nl (c : ascii) : RoundTrip.no_nl (Json.escape_char c) = true.
Proof. destruct c as [[] [] [] [] [] [] [] []]; reflexivity. Qed.

Lemma escape_no_nl (s : string) : RoundTrip.no_nl (Json.escape s) = true.
Proof.
  induction s as [|c s IH]; [done|]. simpl.
  pose proof (escape_char_no_nl c) as Hc. unfold RoundTrip.no_nl in *.
  by rewrite forallb_append, IH, Hc.
Qed.

Lemma pretty_Z_digits (n : Z) :
  ∃ sign ds, pretty n = sign +:+ ds ∧ (sign = "" ∨ sign = "-")
             ∧ ds ≠ "" ∧ PyStr.forallb PyStr.is_digit_char ds = true.
Proof.
  destruct n as [|p|p].
  - by exists "", "0"; eauto.
  - destruct (pretty_pos_digits p) as (c & ds & Hp & Hc & _ & Hds & _).
    exists "", (String c ds). rewrite Hp. repeat split; eauto. simpl. by rewrite Hc.
  - destruct (pretty_pos_digits p) as (c & ds & Hp & Hc & _ & Hds & _).
    exists "-", (String c ds). change (pretty (Z.neg p)) with ("-" +:+ pretty (Z.pos p)).
    rewrite Hp. repeat split; eauto. simpl. by rewrite Hc.
Qed.

Lemma toml_text_no_nl (v : pyvalue) :
  RoundTrip.toml_value v = true → RoundTrip.no_nl (RoundTrip.toml_text v) = true.
Proof.
  induction v as [v Hv|l IH] using pyvalue_list_ind; intros Hvalue.
  - destruct v as [|[]|n| |s|l| | | |]; try done.
    + destruct (pretty_Z_digits n) as (sign & ds & Hn & Hsign & _ & Hds).
      cbn [RoundTrip.toml_text]. rewrite Hn. unfold RoundTrip.no_nl.
      rewrite forallb_append. apply andb_true_iff. split.
      * by destruct Hsign as [-> | ->].
      * eapply forallb_impl; [|done]. intros c Hc. by apply digit_char_facts.
    + cbn [RoundTrip.toml_text]. unfold Json.dumps_str, RoundTrip.no_nl.
      rewrite append_cons. cbn [PyStr.forallb]. rewrite forallb_append.
      pose proof (escape_no_nl s) as H. unfold RoundTrip.no_nl in H. by rewrite H.
    + by destruct (Hv l).
  - cbn [RoundTrip.toml_text]. unfold RoundTrip.no_nl.
    rewrite append_cons, append_nil_l. cbn [PyStr.forallb]. rewrite forallb_append.
    apply andb_true_iff. split; [done|]. apply andb_true_iff. split; [|done].
    simpl in Hvalue. clear -IH Hvalue.
    induction IH as [|x l Hx Hl IHl]; [done|].
    simpl in Hvalue. apply andb_true_iff in Hvalue as [Hxv Hlv].
    rewrite fmap_cons. destruct l as [|y l].
    + apply (Hx Hxv).
    + rewrite fmap_cons, join_cons_cons, !forallb_append.
      pose proof (Hx Hxv) as H1. unfold RoundTrip.no_nl in H1. rewrite H1.
      rewrite <-fmap_cons. by rewrite (IHl Hlv).
Qed.

Lemma toml_text_ends_nonspace (v : pyvalue) :
  RoundTrip.toml_value v = true → RoundTrip.ends_nonspace (RoundTrip.toml_text v) = true.
Proof.
  destruct v as [|[]|n| |s|l| | | |]; try done; intros _.
  - destruct (pretty_Z_digits n) as (sign & ds & Hn & _ & Hne & Hds).
    cbn [RoundTrip.toml_text]. rewrite Hn, ends_nonspace_append by done.
    eapply ends_nonspace_forallb; [|done..]. intros c Hc. by apply digit_char_facts.
  - cbn [RoundTrip.toml_text]. unfold Json.dumps_str.
    change (String dquote (Json.escape s) +:+ String dquote "")
      with (String dquote (Json.escape s +:+ String dquote "")).
    change (String dquote (Json.escape s +:+ String dquote ""))
      with (String dquote "" +:+ (Json.escape s +:+ String dquote "")).
    by rewrite <-append_assoc, ends_nonspace_append.
  - cbn [RoundTrip.toml_text]. by rewrite <-append_assoc, ends_nonspace_append.
Qed.

Lemma concat_str_app (l1 l2 : list string) :
  IniToToml.concat_str (l1 ++ l2) = IniToToml.concat_str l1 +:+ IniToToml.concat_str l2.
Proof.
  induction l1 as [|s l1 IH]; [done|]. simpl. by rewrite IH, append_assoc.
Qed.

Lemma unlines_app (l1 l2 : list string) :
  RoundTrip.unlines (l1 ++ l2) = RoundTrip.unlines l1 +:+ RoundTrip.unlines l2.
Proof. unfold RoundTrip.unlines. by rewrite fmap_app, concat_str_app. Qed.

Lemma render_section_unlines (sec : string * list (string * pyvalue)) :
  IniToToml.render_section
    (sec.1, (λ kv : string * pyvalue, (kv.1, RoundTrip.toml_text kv.2)) <$> sec.2)
  = RoundTrip.unlines (RoundTrip.section_lines sec).
Proof.
  destruct sec as [table items]. unfold IniToToml.render_section, RoundTrip.section_lines.
  simpl fst. simpl snd.
  change (("[" +:+ table +:+ "]") :: (RoundTrip.item_line <$> items) ++ [""])
    with ([("[" +:+ table +:+ "]")] ++ (RoundTrip.item_line <$> items) ++ [""]).
  rewrite !unlines_app.
  change (RoundTrip.unlines [""]) with nl.
  change (RoundTrip.unlines ["[" +:+ table +:+ "]"]) with ((("[" +:+ table +:+ "]") +:+ nl) +:+ "").
  rewrite append_nil_r, !append_assoc.
  assert (Hitems : IniToToml.concat_str (IniToToml.render_item <$>
                     ((λ kv : string * pyvalue, (kv.1, RoundTrip.toml_text kv.2)) <$> items))
                   = RoundTrip.unlines (RoundTrip.item_line <$> items)); [|by rewrite Hitems].
  unfold RoundTrip.unlines. rewrite <-!list_fmap_compose.
  f_equal. apply list_fmap_ext. intros i [k v] _. simpl.
  unfold IniToToml.render_item, RoundTrip.item_line. simpl. by rewrite !append_assoc.
Qed.

Lemma render_unlines (sd : RoundTrip.sections) :
  IniToToml.render (RoundTrip.text_dict sd) = RoundTrip.unlines (RoundTrip.doc_lines sd).
Proof.
  unfold IniToToml.render, RoundTrip.doc_lines.
  change (RoundTrip.header_line :: "" :: concat (RoundTrip.section_lines <$> sd))
    with ([RoundTrip.header_line; ""] ++ concat (RoundTrip.section_lines <$> sd)).
  rewrite unlines_app.
  change (RoundTrip.unlines [RoundTrip.header_line; ""])
    with ((RoundTrip.header_line +:+ nl) +:+ (("" +:+ nl) +:+ "")).
  unfold IniToToml.TOML_HEADER. fold RoundTrip.header_line.
  rewrite append_nil_r, append_nil_l, !append_assoc. do 2 f_equal.
  rewrite <-(append_nil_r nl) at 1. rewrite append_assoc. f_equal. rewrite append_nil_l.
  induction sd as [|sec sd IH]; [done|].
  unfold RoundTrip.text_dict in *. rewrite !fmap_cons. cbn [IniToToml.concat_str concat].
  by rewrite unlines_app, IH, render_section_unlines.
Qed.

Lemma Forall_rstrip_lines (P : string → Prop) (lines : list string) :
  Forall P lines → Forall P (RoundTrip.rstrip_lines lines).
Proof.
  induction 1 as [|l lines Hl _ IH]; [done|]. simpl.
  destruct (RoundTrip.rstrip_lines lines); [|by constructor].
  destruct (String.eqb l ""); by repeat constructor.
Qed.

Lemma bare_key_line_facts (k : string) :
  Toml.is_bare_key k = true → RoundTrip.no_nl k = true.
Proof.
  intros Hk. destruct (bare_key_head k "" Hk) as (_ & _ & _ & _ & Hall).
  eapply forallb_impl; [|done]. intros c Hc. by apply bare_char_facts2.
Qed.

Lemma doc_lines_facts (sd : RoundTrip.sections) :
  RoundTrip.well_formed sd →
  Forall (λ l, RoundTrip.no_nl l = true) (RoundTrip.doc_lines sd)
  ∧ Forall (λ l, l = "" ∨ RoundTrip.ends_nonspace l = true) (RoundTrip.doc_lines sd).
Proof.
  intros [_ Hsd]. unfold RoundTrip.doc_lines.
  enough (Forall (λ l, RoundTrip.no_nl l = true ∧ (l = "" ∨ RoundTrip.ends_nonspace l = true))
            (concat (RoundTrip.section_lines <$> sd))) as H.
  { split.
    - constructor; [done|]. constructor; [done|].
      eapply Forall_impl; [done|]. by intros l [? ?].
    - constructor; [by right|]. constructor; [by left|].
      eapply Forall_impl; [done|]. by intros l [? ?]. }
  apply Forall_concat, Forall_fmap.
  eapply Forall_impl; [done|]. intros [table items] (Htable & _ & Hitems). simpl in *.
  unfold RoundTrip.section_lines. simpl fst. simpl snd.
  constructor; [|apply Forall_app; split; [|by repeat constructor; auto]].
  - split.
    + unfold RoundTrip.no_nl. rewrite !forallb_append.
      pose proof (bare_key_line_facts table Htable) as H. unfold RoundTrip.no_nl in H.
      by rewrite H.
    + right. by rewrite <-append_assoc, ends_nonspace_append.
  - apply Forall_fmap. eapply Forall_impl; [done|]. intros [k v] [Hk Hv]. simpl in *.
    unfold RoundTrip.item_line. simpl fst. simpl snd. split.
    + unfold RoundTrip.no_nl. rewrite !forallb_append.
      pose proof (bare_key_line_facts k Hk) as H1. unfold RoundTrip.no_nl in H1.
      pose proof (toml_text_no_nl v Hv) as H2. unfold RoundTrip.no_nl in H2.
      by rewrite H1, H2.
    + right. pose proof (toml_text_ends_nonspace v Hv) as H.
      rewrite <-append_assoc, ends_nonspace_append; [done|].
      by destruct (RoundTrip.toml_text v).
Qed.

(** Reading back the text [convert] returns for the document [sd]. *)
Lemma loads_render (sd : RoundTrip.sections) :
  RoundTrip.well_formed sd →
  Toml.loads (PyStr.strip (IniToToml.render (RoundTrip.text_dict sd)))
  = Some (RoundTrip.doc_of sd).
Proof.
  intros Hwf. destruct (doc_lines_facts sd Hwf) as [Hnl Hends].
  rewrite render_unlines. unfold PyStr.strip.
  assert (Hl : PyStr.lstrip (RoundTrip.unlines (RoundTrip.doc_lines sd))
               = RoundTrip.unlines (RoundTrip.doc_lines sd)) by done.
  rewrite Hl, (rstrip_unlines _ Hends).
  unfold Toml.loads. rewrite split_join_lines.
  - rewrite add_lines_rstrip_lines. unfold RoundTrip.doc_lines.
    cbn [Toml.add_lines].
    change (Toml.line RoundTrip.header_line) with (Some Toml.Blank).
    change (Toml.line "") with (Some Toml.Blank).
    cbn [mbind option_bind Toml.add_line].
    destruct Hwf as [Hnd Hsd].
    by rewrite (add_lines_sections sd [] None Hnd Hsd).
  - unfold RoundTrip.doc_lines. cbn [RoundTrip.rstrip_lines].
    by destruct (RoundTrip.rstrip_lines _); [destruct (String.eqb _ _)|].
  - by apply Forall_rstrip_lines.
Qed.

(** ** [convert] followed by reading the result *)

Lemma pydict_set_fmap {V W} (f : V → W) (d : list (string * V)) k v :
  PyDict.set k (f v) ((λ kv : string * V, (kv.1, f kv.2)) <$> d)
  = (λ kv : string * V, (kv.1, f kv.2)) <$> PyDict.set k v d.
Proof.
  induction d as [|[k' v'] d IH]; [done|].
  rewrite fmap_cons. cbn [PyDict.set fst snd].
  destruct (String.eqb k k'); [done|]. rewrite fmap_cons. by rewrite IH.
Qed.

Lemma pydict_set_keys_NoDup {V} (d : list (string * V)) k v :
  NoDup d.*1 → NoDup (PyDict.set k v d).*1.
Proof.
  intros Hnd. pose proof (pydict_keys_set d k v) as H. unfold PyDict.keys in H.
  rewrite H. case_bool_decide as Hin; [done|].
  apply NoDup_app. split; [done|]. split; [|apply NoDup_singleton].
  intros x Hx ->%list_elem_of_singleton. done.
Qed.

Lemma pydict_set_Forall {V} (P : string * V → Prop) (d : list (string * V)) k v :
  P (k, v) → Forall P d → Forall P (PyDict.set k v d).
Proof.
  intros Hkv. induction 1 as [|[k' v'] d Hx Hd IH]; simpl.
  - by repeat constructor.
  - destruct (String.eqb k k'); by constructor.
Qed.

Section round_trip.
Context (literal_eval json_loads : string → option pyvalue).
Notation load_ini_value := (IniToToml.load_ini_value literal_eval json_loads).
Notation convert_items := (IniToToml.convert_items literal_eval json_loads).
Notation convert_sections := (IniToToml.convert_sections literal_eval json_loads).
Notation coerce := (IniSpec.coerce literal_eval json_loads).

Let coerce_item (acc : list (string * pyvalue)) (kv : string * string)
    : list (string * pyvalue) :=
  PyDict.set (PyStr.upper kv.1) (coerce kv.2) acc.

Let texts (items : list (string * pyvalue)) : list (string * string) :=
  (λ kv : string * pyvalue, (kv.1, RoundTrip.toml_text kv.2)) <$> items.

(** What the round trip needs of a value of the legacy file. *)
Let value_ok (kv : string * string) : Prop :=
  IniSpec.within_int_limit kv.2 = true ∧ RoundTrip.toml_value (coerce kv.2) = true.

Lemma convert_items_texts (section : string) (items : list (string * string)) :
  ∀ (d : IniToToml.toml_dict) (acc : list (string * pyvalue)),
    PyStr.upper section = section →
    section ∉ d.*1 →
    Forall value_ok items →
    convert_items section (d ++ [(section, texts acc)]) items
    = Ok (d ++ [(section, texts (foldl coerce_item acc items))]).
Proof.
  induction items as [|[k raw] items IH]; intros d acc Hupper Hfresh Hitems; [done|].
  apply Forall_cons in Hitems as [[Hlimit Hv] Hitems]. simpl in Hlimit, Hv.
  cbn [IniToToml.convert_items]. unfold IniToToml.convert_item. simpl fst. simpl snd.
  rewrite (load_ini_value_coerce literal_eval json_loads raw), Hlimit.
  cbn [mbind result_bind].
  rewrite (dumps_toml_text _ Hv). cbn [mbind result_bind].
  rewrite Hupper, (pydict_get_last d section _ Hfresh).
  rewrite (pydict_set_last d section _ _ Hfresh).
  unfold texts at 1. rewrite (pydict_set_fmap RoundTrip.toml_text acc (PyStr.upper k)).
  cbn [mbind result_bind foldl].
  exact (IH d (coerce_item acc (k, raw)) Hupper Hfresh Hitems).
Qed.

Lemma convert_sections_texts (config : IniToToml.ini_config) :
  ∀ d : IniToToml.toml_dict,
    NoDup (d.*1 ++ config.*1) →
    Forall (λ sec : string * result (list (string * string)),
      PyStr.upper sec.1 = sec.1
      ∧ ∃ items, sec.2 = Ok items ∧ Forall value_ok items) config →
    convert_sections d config
    = Ok (d ++ RoundTrip.text_dict (RoundTrip.structured literal_eval json_loads config)).
Proof.
  induction config as [|[section items_r] config IH]; intros d Hnd Hconfig.
  - simpl. by rewrite app_nil_r.
  - apply Forall_cons in Hconfig as [[Hupper (items & Hok & Hitems)] Hconfig].
    simpl in Hupper, Hok. subst items_r.
    rewrite fmap_cons in Hnd.
    assert (Hfresh : section ∉ d.*1).
    { apply NoDup_app in Hnd as (_ & Hdisj & _). intros Hin. apply (Hdisj _ Hin). left. }
    cbn [IniToToml.convert_sections mbind result_bind].
    rewrite (pydict_set_fresh d section _ Hfresh).
    change (@nil (string * string)) with (texts []) at 1.
    rewrite (convert_items_texts section items d [] Hupper Hfresh Hitems).
    cbn [mbind result_bind].
    rewrite (IH (d ++ [(section, texts (foldl coerce_item [] items))])); [|  |done].
    + rewrite <-app_assoc. done.
    + rewrite fmap_app. simpl. by rewrite <-app_assoc.
Qed.

Lemma direct_items_well_formed (items : list (string * string)) :
  Forall (λ kv : string * string,
    Toml.is_bare_key (PyStr.upper kv.1) = true
    ∧ RoundTrip.toml_value (coerce kv.2) = true) items →
  NoDup (RoundTrip.direct_items literal_eval json_loads items).*1
  ∧ Forall (λ kv : string * pyvalue,
      Toml.is_bare_key kv.1 = true ∧ RoundTrip.toml_value kv.2 = true)
      (RoundTrip.direct_items literal_eval json_loads items).
Proof.
  unfold RoundTrip.direct_items.
  enough (∀ acc : list (string * pyvalue),
            NoDup acc.*1 →
            Forall (λ kv : string * pyvalue,
              Toml.is_bare_key kv.1 = true ∧ RoundTrip.toml_value kv.2 = true) acc →
            Forall (λ kv : string * string,
              Toml.is_bare_key (PyStr.upper kv.1) = true
              ∧ RoundTrip.toml_value (coerce kv.2) = true) items →
            NoDup (foldl coerce_item acc items).*1
            ∧ Forall (λ kv : string * pyvalue,
                Toml.is_bare_key kv.1 = true ∧ RoundTrip.toml_value kv.2 = true)
                (foldl coerce_item acc items)) as H.
  { intros Hitems. apply (H []); [constructor|constructor|done]. }
  induction items as [|[k raw] items IH]; intros acc Hnd Hacc Hitems; [done|].
  apply Forall_cons in Hitems as [[Hk Hv] Hitems]. simpl in Hk, Hv.
  cbn [foldl]. apply IH; [|  |done].
  - by apply pydict_set_keys_NoDup.
  - by apply pydict_set_Forall.
Qed.

Lemma migratable_facts (config : IniToToml.ini_config) :
  RoundTrip.migratable literal_eval json_loads config = true →
  (NoDup config.*1
   ∧ Forall (λ sec : string * result (list (string * string)),
       PyStr.upper sec.1 = sec.1
       ∧ ∃ items, sec.2 = Ok items ∧ Forall value_ok items) config)
  ∧ RoundTrip.well_formed (RoundTrip.structured literal_eval json_loads config).
Proof.
  unfold RoundTrip.migratable. intros H.
  apply andb_true_iff in H as [Hnd Hsecs]. apply bool_decide_eq_true in Hnd.
  rewrite forallb_forall in Hsecs.
  assert (Hsec : ∀ sec, sec ∈ config →
            PyStr.upper sec.1 = sec.1 ∧ Toml.is_bare_key sec.1 = true
            ∧ ∃ items, sec.2 = Ok items
                ∧ Forall (λ kv : string * string,
                    Toml.is_bare_key (PyStr.upper kv.1) = true ∧ value_ok kv) items).
  { intros sec Hin. apply list_elem_of_In, Hsecs in Hin.
    apply andb_true_iff in Hin as [Hin Hitems]. apply andb_true_iff in Hin as [Hupper Hbare].
    apply String.eqb_eq in Hupper. repeat split; try done.
    destruct sec.2 as [items|e]; [|done]. exists items. split; [done|].
    apply Forall_forall. intros kv Hkv. rewrite forallb_forall in Hitems.
    apply list_elem_of_In, Hitems in Hkv.
    apply andb_true_iff in Hkv as [Hkv Hvalue]. apply andb_true_iff in Hkv as [Hkv Hlimit].
    apply andb_true_iff in Hkv as [Hkey _]. by repeat split. }
  split; [split; [done|]|split].
  - apply Forall_forall. intros sec Hin.
    destruct (Hsec sec Hin) as (Hu & _ & items & Hok & Hitems).
    split; [done|]. exists items. split; [done|].
    eapply Forall_impl; [done|]. by intros kv [_ ?].
  - unfold RoundTrip.structured. rewrite <-list_fmap_compose.
    by erewrite list_fmap_ext; [exact Hnd|].
  - unfold RoundTrip.structured. apply Forall_fmap, Forall_forall. intros sec Hin.
    destruct (Hsec sec Hin) as (_ & Hbare & items & Hok & Hitems). simpl.
    split; [done|]. rewrite Hok. simpl. apply direct_items_well_formed.
    eapply Forall_impl; [done|]. by intros kv (? & _ & ?).
Qed.

(** C2, as amended: for a legacy file of which [configparser] gives the
    items of every section, with distinct section names that upper-casing
    leaves unchanged, with section names and upper-cased keys that are bare
    TOML keys and with ASCII values, none an integer literal beyond the
    limit of [int], that coerce to booleans, integers, ASCII strings or lists
    of these, [convert] returns a document, and reading that document back
    gives, section by section, the upper-cased keys with the values the
    coercion of the specification gives for the legacy text. *)
Theorem C2_convert_then_loads (config : IniToToml.ini_config) :
  RoundTrip.migratable literal_eval json_loads config = true →
  ∃ toml_str,
    IniToToml.convert literal_eval json_loads config = Ok toml_str
    ∧ Toml.loads toml_str = Some (RoundTrip.direct literal_eval json_loads config).
Proof.
  intros Hm. destruct (migratable_facts config Hm) as [[Hnd Hconfig] Hwf].
  unfold IniToToml.convert.
  rewrite (convert_sections_texts config [] Hnd Hconfig). cbn [mbind result_bind app].
  eexists. split; [done|]. rewrite (loads_render _ Hwf).
  unfold RoundTrip.doc_of, RoundTrip.structured, RoundTrip.direct.
  by rewrite <-list_fmap_compose.
Qed.
End round_trip.

Lemma C2_witness :
  let config := [("SERVER_CONFIG", Ok [("timeout", "60"); ("SAVE_MEDIA", "False");
                                       ("tags", "['a', 'b']"); ("title", "my archive")])] in
  ∃ toml_str,
    IniToToml.convert IniToToml.literal_eval_sample IniToToml.json_loads_sample config
      = Ok toml_str
    ∧ Toml.loads toml_str
      = Some [("SERVER_CONFIG",
               VDict [("TIMEOUT", VInt 60); ("SAVE_MEDIA", VBool false);
                      ("TAGS", VList [VStr "a"; VStr "b"]); ("TITLE", VStr "my archive")])].
Proof.
  apply (C2_convert_then_loads IniToToml.literal_eval_sample IniToToml.json_loads_sample
           [("SERVER_CONFIG", Ok [("timeout", "60"); ("SAVE_MEDIA", "False");
                                  ("tags", "['a', 'b']"); ("title", "my archive")])]).
  vm_compute. reflexivity.
Defined.

(** A legacy file with one integer value under a lower-case section name has
    no structured output at all, nor has one with a value that
    [configparser] cannot interpolate, and a lower-case key comes back
    upper-cased. *)
Lemma C2_counterexample :
  IniToToml.convert IniToToml.literal_eval_sample IniToToml.json_loads_sample
    [("general", Ok [("TIMEOUT", "60")])] = Raise (KeyError "GENERAL")
  ∧ IniSpec.coerce IniToToml.literal_eval_sample IniToToml.json_loads_sample "60" = VInt 60
  ∧ IniToToml.convert IniToToml.literal_eval_sample IniToToml.json_loads_sample
      [("GENERAL", Raise (OtherError "InterpolationSyntaxError"))]
    = Raise (OtherError "InterpolationSyntaxError")
  ∧ (toml_str ← IniToToml.convert IniToToml.literal_eval_sample IniToToml.json_loads_sample
                  [("GENERAL", Ok [("timeout", "60")])];
     Ok (Toml.loads toml_str))
    = Ok (Some [("GENERAL", VDict [("TIMEOUT", VInt 60)])]).
Proof. repeat split; vm_refl. Qed.

(** * Further properties *)

(** ** How the sources are merged *)

Lemma update_items_lookup (updating : list (string * pyvalue)) :
  ∀ (mapping : list (string * pyvalue)) (k : string),
    (∀ v, (k, v) ∈ updating → is_dict v = false) →
    PyDict.get k (ConfigSet.deep_update mapping updating)
    = match PyDict.get k (reverse updating) with
      | Some v => Some v
      | None => PyDict.get k mapping
      end.
Proof.
  unfold ConfigSet.deep_update.
  induction updating as [|[k' v'] updating IH] using rev_ind; intros mapping k Hk; [done|].
  rewrite reverse_app. simpl.
  assert (Hgo : ∀ m, ConfigSet.update_items ConfigSet.deep_update_value
                       (updating ++ [(k', v')]) m
                     = PyDict.set k' (match PyDict.get k'
                                               (ConfigSet.update_items ConfigSet.deep_update_value
                                                  updating m) with
                                      | Some old => ConfigSet.deep_update_value old v'
                                      | None => v'
                                      end)
                         (ConfigSet.update_items ConfigSet.deep_update_value updating m)).
  { clear. induction updating as [|[k2 v2] updating IHu]; intros m; [done|]. simpl. apply IHu. }
  rewrite Hgo. destruct (String.eqb k k') eqn:E.
  - apply String.eqb_eq in E as <-. rewrite pydict_get_set_eq.
    assert (is_dict v' = false) as Hv.
    { apply Hk. apply elem_of_app. right. left. }
    destruct (PyDict.get k _); [|done]. by destruct v'.
  - apply String.eqb_neq in E. rewrite pydict_get_set_ne by done.
    apply IH. intros v Hv. apply Hk. apply elem_of_app. by left.
Qed.

Lemma pydict_get_reverse {V} (d : list (string * V)) k :
  NoDup d.*1 → PyDict.get k (reverse d) = PyDict.get k d.
Proof.
  induction d as [|[k' v'] d IH]; intros Hnd; [done|].
  rewrite fmap_cons in Hnd. apply NoDup_cons in Hnd as [Hfresh Hnd].
  rewrite reverse_cons. simpl.
  destruct (String.eqb k k') eqn:E.
  - apply String.eqb_eq in E as ->.
    apply pydict_get_last. by rewrite fmap_reverse, elem_of_reverse.
  - apply String.eqb_neq in E. rewrite <-(IH Hnd).
    assert (Hgen : ∀ l : list (string * V), PyDict.get k (l ++ [(k', v')]) = PyDict.get k l).
    { induction l as [|[k2 v2] l IHl]; simpl.
      - apply String.eqb_neq in E. by rewrite E.
      - destruct (String.eqb k k2); [done|apply IHl]. }
    apply Hgen.
Qed.

Lemma update_items_keys_NoDup (updating : list (string * pyvalue)) :
  ∀ mapping : list (string * pyvalue),
    NoDup mapping.*1 → NoDup (ConfigSet.deep_update mapping updating).*1.
Proof.
  unfold ConfigSet.deep_update.
  induction updating as [|[k v] updating IH]; intros mapping Hnd; [done|].
  simpl. apply IH. by apply pydict_set_keys_NoDup.
Qed.

Lemma deep_update_nil_r (mapping : list (string * pyvalue)) :
  ConfigSet.deep_update mapping [] = mapping.
Proof. done. Qed.

(** The state pydantic-settings builds from the three sources, at a key
    whose values are no tables: the keyword arguments first, then the file,
    then the environment. *)
Lemma settings_build_values_three (schema : ConfigSet.Schema)
    (init_kwargs toml_data : list (string * pyvalue)) (environ : gmap string string)
    (k : string) :
  NoDup init_kwargs.*1 → NoDup toml_data.*1 →
  (∀ v, (k, v) ∈ init_kwargs → is_dict v = false) →
  (∀ v, (k, v) ∈ toml_data → is_dict v = false) →
  PyDict.get k (ConfigSet.settings_build_values schema
                  [ConfigSet.InitSettings init_kwargs;
                   ConfigSet.FlatTomlConfigSettingsSource toml_data;
                   ConfigSet.EnvSettings environ])
  = match PyDict.get k init_kwargs with
    | Some v => Some v
    | None =>
        match PyDict.get k toml_data with
        | Some v => Some v
        | None => PyDict.get k (ConfigSet.env_call schema environ)
        end
    end.
Proof.
  intros Hnd_init Hnd_file Hinit Hfile.
  unfold ConfigSet.settings_build_values. cbn [foldl ConfigSet.source_call].
  rewrite deep_update_nil_r.
  set (state2 := ConfigSet.deep_update toml_data init_kwargs).
  assert (Hget2 : PyDict.get k state2
                  = match PyDict.get k init_kwargs with
                    | Some v => Some v
                    | None => PyDict.get k toml_data
                    end).
  { unfold state2. rewrite update_items_lookup by done.
    by rewrite pydict_get_reverse. }
  assert (Hnd2 : NoDup state2.*1) by by apply update_items_keys_NoDup.
  assert (Hdict2 : ∀ v, (k, v) ∈ state2 → is_dict v = false).
  { intros v Hv.
    assert (PyDict.get k state2 = Some v) as Hgv.
    { clear -Hv Hnd2. induction state2 as [|[k' v'] d IH]; [by apply elem_of_nil in Hv|].
      rewrite fmap_cons in Hnd2. apply NoDup_cons in Hnd2 as [Hfresh Hnd2]. simpl.
      apply elem_of_cons in Hv as [[= <- <-]|Hv]; [by rewrite String.eqb_refl|].
      destruct (String.eqb_spec k k') as [->|]; [|by apply IH].
      destruct Hfresh. by apply (list_elem_of_fmap_2 fst) in Hv. }
    rewrite Hget2 in Hgv.
    assert (Hmem : ∀ (d : list (string * pyvalue)) w, PyDict.get k d = Some w → (k, w) ∈ d).
    { clear. induction d as [|[k' v'] d IH]; intros w; [done|]. simpl.
      destruct (String.eqb_spec k k') as [->|]; [intros [= ->]; left|].
      intros H. right. by apply IH. }
    destruct (PyDict.get k init_kwargs) as [w|] eqn:E.
    - simplify_eq. by apply Hinit, Hmem.
    - by apply Hfile, Hmem. }
  rewrite update_items_lookup by done.
  rewrite pydict_get_reverse, Hget2 by done.
  destruct (PyDict.get k init_kwargs); [done|]. by destruct (PyDict.get k toml_data).
Qed.

(** ** The resolved config *)

Lemma build_model_settled_field (schema : ConfigSet.Schema)
    (sources : list ConfigSet.Source) (final : gmap string pyvalue)
    (f : ConfigSet.ConfigField) (v : pyvalue) :
  let state := ConfigSet.settings_build_values schema sources in
  ConfigSet.build_model schema sources = Ok final →
  NoDup (ConfigSet.name <$> schema) → f ∈ schema →
  is_callable v = false →
  (PyDict.get (ConfigSet.name f) state = None ∧ ConfigSet.default f = ConfigSet.Constant v
   ∨ ∃ raw, PyDict.get (ConfigSet.name f) state = Some raw
            ∧ ConfigSet.validate_python (ConfigSet.name f) (ConfigSet.annotation f) raw = Ok v) →
  final !! ConfigSet.name f = Some v.
Proof.
  intros state Hbuild Hnd Hin Hc Hcases. unfold ConfigSet.build_model in Hbuild.
  fold state in Hbuild.
  destruct (ConfigSet.validate_model state schema) as [self0|] eqn:Hval; [|done].
  simpl in Hbuild.
  destruct (validate_model_lookup _ _ _ f Hval Hnd Hin) as (w & Hw & Hlookup).
  assert (w = v) as ->.
  { unfold ConfigSet.validate_field, ConfigSet.default_attr in Hw.
    destruct Hcases as [[Hnone Hdef]|(raw & Hsome & Hraw)].
    - rewrite Hnone, Hdef in Hw. congruence.
    - rewrite Hsome, Hraw in Hw. congruence. }
  by apply (fill_defaults_from_settled _ _ _ _ _ _ Hbuild).
Qed.

(** X2: a field that no source sets and whose default is a constant resolves
    to that constant, and a field that a source sets resolves to the
    validated value of the source: [fill_defaults] changes function-valued
    attributes only. *)
Theorem settled_fields_keep_their_value (schema : ConfigSet.Schema)
    (sources : list ConfigSet.Source) (final : gmap string pyvalue)
    (f : ConfigSet.ConfigField) (v : pyvalue) :
  let state := ConfigSet.settings_build_values schema sources in
  ConfigSet.build_model schema sources = Ok final →
  NoDup (ConfigSet.name <$> schema) → f ∈ schema →
  is_callable v = false →
  (PyDict.get (ConfigSet.name f) state = None ∧ ConfigSet.default f = ConfigSet.Constant v
   ∨ ∃ raw, PyDict.get (ConfigSet.name f) state = Some raw
            ∧ ConfigSet.validate_python (ConfigSet.name f) (ConfigSet.annotation f) raw = Ok v) →
  final !! ConfigSet.name f = Some v.
Proof. exact (build_model_settled_field schema sources final f v). Qed.

Lemma settled_fields_keep_their_value_witness :
  ({[ "TIMEOUT" := VInt 60; "MEDIA_TIMEOUT" := VInt 7 ]} : gmap string pyvalue)
    !! "TIMEOUT" = Some (VInt 60)
  ∧ ({[ "TIMEOUT" := VInt 60; "MEDIA_TIMEOUT" := VInt 7 ]} : gmap string pyvalue)
    !! "MEDIA_TIMEOUT" = Some (VInt 7).
Proof.
  split.
  - apply (settled_fields_keep_their_value Samples.ArchivingConfig
             [ConfigSet.InitSettings []; ConfigSet.EnvSettings {[ "MEDIA_TIMEOUT" := "7" ]}]
             _ Samples.TIMEOUT (VInt 60)).
    + vm_refl.
    + vm_compute. repeat constructor; set_solver.
    + left.
    + reflexivity.
    + left. split; reflexivity.
  - apply (settled_fields_keep_their_value Samples.ArchivingConfig
             [ConfigSet.InitSettings []; ConfigSet.EnvSettings {[ "MEDIA_TIMEOUT" := "7" ]}]
             _ Samples.MEDIA_TIMEOUT (VInt 7)).
    + vm_refl.
    + vm_compute. repeat constructor; set_solver.
    + right. left.
    + reflexivity.
    + right. exists (VStr "7"). split; reflexivity.
Defined.

Lemma validate_python_typed (loc : string) (ty : ConfigSet.FieldType) (x y : pyvalue) :
  ty ≠ ConfigSet.TAny → ConfigSet.validate_python loc ty x = Ok y → is_callable y = false.
Proof.
  intros Hty H. destruct ty; [done|..]; destruct x; simpl in H; simplify_eq; try done.
  - repeat case_bool_decide; simplify_eq; done.
  - destruct (ConfigSet.is_int_text s); simplify_eq; done.
Qed.

Lemma fill_defaults_from_typed (schema fields : ConfigSet.Schema) (f : ConfigSet.ConfigField) :
  ∀ (self final : gmap string pyvalue) (v : pyvalue),
    ConfigSet.fill_defaults_from schema self fields = Ok final →
    f ∈ fields → ConfigSet.annotation f ≠ ConfigSet.TAny →
    final !! ConfigSet.name f = Some v → is_callable v = false.
Proof.
  induction fields as [|g fields IH]; intros self final v Hfill Hin Hty Hv.
  - by apply elem_of_nil in Hin.
  - simpl in Hfill.
    destruct (ConfigSet.fill_default schema self g) as [self'|] eqn:Hstep; [|done].
    simpl in Hfill.
    apply elem_of_cons in Hin as [->|Hrest]; [|by eapply IH].
    assert (∃ w, self' !! ConfigSet.name g = Some w ∧ is_callable w = false) as (w & Hw & Hc).
    { unfold ConfigSet.fill_default in Hstep.
      destruct (self !! ConfigSet.name g) as [a|] eqn:Ha; [|done].
      destruct (is_callable a) eqn:Hca.
      - destruct a; try done.
        destruct (ConfigSet.call_default _ _ _) as [c|]; [|done]. simpl in Hstep.
        destruct (ConfigSet.validate_python _ _ c) as [w|] eqn:Hval; [|done].
        simpl in Hstep. simplify_eq. exists w. rewrite lookup_insert_eq.
        split; [done|]. by eapply validate_python_typed.
      - exists a. split; [|done]. destruct a; simplify_eq; done. }
    rewrite (fill_defaults_from_settled _ _ _ _ _ _ Hfill Hw Hc) in Hv. by simplify_eq.
Qed.

(** X3: in a config that loads, a field annotated [bool], [int] or [str]
    never holds a function object: every function default of such a field
    has been called and its result validated. *)
Theorem typed_fields_hold_no_function (schema : ConfigSet.Schema)
    (sources : list ConfigSet.Source) (final : gmap string pyvalue)
    (f : ConfigSet.ConfigField) (v : pyvalue) :
  ConfigSet.build_model schema sources = Ok final →
  f ∈ schema → ConfigSet.annotation f ≠ ConfigSet.TAny →
  final !! ConfigSet.name f = Some v →
  is_callable v = false.
Proof.
  unfold ConfigSet.build_model. intros H Hin Hty Hv.
  destruct (ConfigSet.validate_model _ schema) as [self0|]; [|done]. simpl in H.
  by eapply fill_defaults_from_typed.
Qed.

Lemma typed_fields_hold_no_function_witness : is_callable (VInt 60) = false.
Proof.
  apply (typed_fields_hold_no_function Samples.ArchivingConfig
           [ConfigSet.InitSettings []; ConfigSet.EnvSettings ∅]
           {[ "TIMEOUT" := VInt 60; "MEDIA_TIMEOUT" := VInt 60 ]} Samples.MEDIA_TIMEOUT).
  - vm_refl.
  - right. left.
  - discriminate.
  - vm_refl.
Defined.

Lemma env_call_lookup (schema : ConfigSet.Schema) (environ : gmap string string)
    (f : ConfigSet.ConfigField) :
  f ∈ schema →
  PyDict.get (ConfigSet.name f) (ConfigSet.env_call schema environ)
  = VStr <$> environ !! ConfigSet.name f.
Proof.
  unfold ConfigSet.env_call. induction schema as [|g schema IH]; intros Hin.
  - by apply elem_of_nil in Hin.
  - simpl. destruct (decide (ConfigSet.name g = ConfigSet.name f)) as [Heq|Hne].
    + rewrite Heq. destruct (environ !! ConfigSet.name f) as [s|] eqn:E; simpl.
      * by rewrite String.eqb_refl.
      * clear IH Hin. induction schema as [|h schema IHs]; [done|]. simpl.
        destruct (environ !! ConfigSet.name h) as [t|] eqn:Eh; simpl; [|done].
        destruct (String.eqb_spec (ConfigSet.name f) (ConfigSet.name h)) as [Hfh|]; [|done].
        rewrite <-Hfh in Eh. congruence.
    + apply elem_of_cons in Hin as [->|Hin]; [done|].
      destruct (environ !! ConfigSet.name g) as [t|]; simpl; [|by apply IH].
      destruct (String.eqb_spec (ConfigSet.name f) (ConfigSet.name g)) as [Hfg|]; [|by apply IH].
      by destruct Hne.
Qed.

Lemma validate_python_text (loc : string) (ty : ConfigSet.FieldType) (s : string) (v : pyvalue) :
  ConfigSet.validate_python loc ty (VStr s) = Ok v → is_callable v = false.
Proof.
  destruct ty; simpl; intros H; simplify_eq; try done.
  - repeat case_bool_decide; simplify_eq; done.
  - destruct (ConfigSet.is_int_text s); simplify_eq; done.
Qed.

Lemma flatten_keys_NoDup (nested_toml_data : list (string * pyvalue)) :
  NoDup (ConfigSet.flatten nested_toml_data).*1.
Proof.
  unfold ConfigSet.flatten.
  enough (∀ acc : list (string * pyvalue), NoDup acc.*1 →
            NoDup (foldl ConfigSet.flatten_entry acc nested_toml_data).*1) as H.
  { apply H. constructor. }
  induction nested_toml_data as [|[section_name section] nested IH]; intros acc Hacc; [done|].
  simpl. apply IH.
  assert (Hset : NoDup (PyDict.set section_name section acc).*1)
    by by apply pydict_set_keys_NoDup.
  destruct section; try done.
  case_bool_decide; [|done].
  clear -Hacc. revert acc Hacc. induction d as [|[k v] d IHd]; intros acc Hacc; [done|].
  simpl. apply IHd. by apply pydict_set_keys_NoDup.
Qed.

Lemma filter_keys_NoDup {V} (p : string * V → bool) (d : list (string * V)) :
  NoDup d.*1 → NoDup (List.filter p d).*1.
Proof.
  induction d as [|[k v] d IH]; intros Hnd; [done|].
  rewrite fmap_cons in Hnd. apply NoDup_cons in Hnd as [Hfresh Hnd]. simpl.
  destruct (p (k, v)); [|by apply IH].
  rewrite fmap_cons. apply NoDup_cons. split; [|by apply IH].
  intros Hin. apply Hfresh. apply list_elem_of_fmap in Hin as ([k' v'] & -> & Hin).
  apply list_elem_of_In, filter_In in Hin as [Hin _].
  apply list_elem_of_In in Hin. by apply (list_elem_of_fmap_2 fst) in Hin.
Qed.

Lemma FlatToml_init_keys_NoDup (schema : ConfigSet.Schema)
    (nested_toml_data : list (string * pyvalue)) :
  NoDup (ConfigSet.FlatToml_init schema nested_toml_data).*1.
Proof. apply filter_keys_NoDup, flatten_keys_NoDup. Qed.

Lemma pydict_get_elem_of {V} (d : list (string * V)) k v :
  NoDup d.*1 → (k, v) ∈ d → PyDict.get k d = Some v.
Proof.
  induction d as [|[k' v'] d IH]; intros Hnd Hin; [by apply elem_of_nil in Hin|].
  rewrite fmap_cons in Hnd. apply NoDup_cons in Hnd as [Hfresh Hnd]. simpl.
  apply elem_of_cons in Hin as [[= <- <-]|Hin]; [by rewrite String.eqb_refl|].
  destruct (String.eqb_spec k k') as [->|]; [|by apply IH].
  destruct Hfresh. by apply (list_elem_of_fmap_2 fst) in Hin.
Qed.

(** ** Loading with and without the file *)

Section load_facts.
Context (toml_loads : string → option (list (string * pyvalue))).
Context (read_string : string → result IniToToml.ini_config).
Context (literal_eval json_loads : string → option pyvalue).
Notation settings_customise_sources :=
  (Settings.settings_customise_sources toml_loads read_string literal_eval json_loads).
Notation load_config :=
  (Settings.load_config toml_loads read_string literal_eval json_loads).
Notation convert_text := (Settings.convert_text read_string literal_eval json_loads).

Lemma customise_sources_no_file_all_layers schema init_settings env_settings fs :
  Settings.ARCHIVEBOX_CONFIG_FILE fs = None →
  settings_customise_sources Settings.all_layers schema init_settings env_settings fs
  = (Ok [init_settings; env_settings], fs).
Proof.
  intros Hfile. unfold Settings.settings_customise_sources, io_bind, io_try, io_lift.
  by rewrite Hfile.
Qed.

Lemma customise_sources_structured_all_layers schema init_settings env_settings fs text nested :
  Settings.ARCHIVEBOX_CONFIG_FILE fs = Some text → toml_loads text = Some nested →
  settings_customise_sources Settings.all_layers schema init_settings env_settings fs
  = (Ok [init_settings;
         ConfigSet.FlatTomlConfigSettingsSource (ConfigSet.FlatToml_init schema nested);
         env_settings], fs).
Proof.
  intros Hfile Hparse.
  unfold Settings.settings_customise_sources. unfold io_bind at 1. rewrite Hfile.
  unfold io_try, io_bind, Settings.FlatToml. by rewrite Hfile, Hparse.
Qed.

Lemma load_config_environment_field (schema : ConfigSet.Schema)
    (environ : gmap string string) (fs fs' : Settings.Files)
    (final : gmap string pyvalue) (f : ConfigSet.ConfigField) (s : string) (v : pyvalue) :
  Settings.ARCHIVEBOX_CONFIG_FILE fs = None →
  NoDup (ConfigSet.name <$> schema) → f ∈ schema →
  environ !! ConfigSet.name f = Some s →
  ConfigSet.validate_python (ConfigSet.name f) (ConfigSet.annotation f) (VStr s) = Ok v →
  load_config Settings.all_layers schema [] environ fs = (Ok final, fs') →
  final !! ConfigSet.name f = Some v ∧ fs' = fs.
Proof.
  intros Hfile Hnd Hin Henv Hv Hload.
  unfold Settings.load_config, io_bind in Hload.
  rewrite (customise_sources_no_file_all_layers _ _ _ _ Hfile) in Hload.
  unfold io_lift in Hload. simplify_eq. split; [|done].
  match goal with H : ConfigSet.build_model _ _ = _ |- _ => rename H into Hbuild end.
  eapply (build_model_settled_field schema _ final f v Hbuild Hnd Hin).
  - by eapply validate_python_text.
  - right. exists (VStr s). split; [|done].
    change (ConfigSet.settings_build_values schema
              [ConfigSet.InitSettings []; ConfigSet.EnvSettings environ])
      with (ConfigSet.env_call schema environ).
    by rewrite env_call_lookup, Henv.
Qed.

(** X4: without a config file a declared field that the environment sets
    resolves to the validated text of the environment variable, whatever
    its default is, and no file is written. *)
Theorem environment_beats_default_without_file (schema : ConfigSet.Schema)
    (environ : gmap string string) (fs fs' : Settings.Files)
    (final : gmap string pyvalue) (f : ConfigSet.ConfigField) (s : string) (v : pyvalue) :
  Settings.ARCHIVEBOX_CONFIG_FILE fs = None →
  NoDup (ConfigSet.name <$> schema) → f ∈ schema →
  environ !! ConfigSet.name f = Some s →
  ConfigSet.validate_python (ConfigSet.name f) (ConfigSet.annotation f) (VStr s) = Ok v →
  load_config Settings.all_layers schema [] environ fs = (Ok final, fs') →
  final !! ConfigSet.name f = Some v ∧ fs' = fs.
Proof. exact (load_config_environment_field schema environ fs fs' final f s v). Qed.

Lemma load_config_file_field (schema : ConfigSet.Schema)
    (environ : gmap string string) (fs fs' : Settings.Files)
    (final : gmap string pyvalue) (f : ConfigSet.ConfigField)
    (text : string) (nested : list (string * pyvalue)) (raw v : pyvalue) :
  Settings.ARCHIVEBOX_CONFIG_FILE fs = Some text → toml_loads text = Some nested →
  NoDup (ConfigSet.name <$> schema) → f ∈ schema →
  PyDict.get (ConfigSet.name f) (ConfigSet.FlatToml_init schema nested) = Some raw →
  is_dict raw = false →
  ConfigSet.validate_python (ConfigSet.name f) (ConfigSet.annotation f) raw = Ok v →
  is_callable v = false →
  load_config Settings.all_layers schema [] environ fs = (Ok final, fs') →
  final !! ConfigSet.name f = Some v.
Proof.
  intros Hfile Hparse Hnd Hin Hraw Hdict Hv Hc Hload.
  unfold Settings.load_config, io_bind in Hload.
  rewrite (customise_sources_structured_all_layers _ _ _ _ _ _ Hfile Hparse) in Hload.
  unfold io_lift in Hload. simplify_eq.
  match goal with H : ConfigSet.build_model _ _ = _ |- _ => rename H into Hbuild end.
  eapply (build_model_settled_field schema _ final f v Hbuild Hnd Hin Hc).
  right. exists raw. split; [|done].
  rewrite settings_build_values_three.
  - simpl. by rewrite Hraw.
  - constructor.
  - apply FlatToml_init_keys_NoDup.
  - intros w Hw. by apply elem_of_nil in Hw.
  - intros w Hw.
    rewrite (pydict_get_elem_of _ _ _ (FlatToml_init_keys_NoDup schema nested) Hw) in Hraw.
    by simplify_eq.
Qed.

(** X5: when the config file parses as TOML and sets a declared field to a
    value that is no table, the field resolves to the validated value of
    the file whatever the environment holds: the file source comes before
    the environment source in the tuple that is returned. *)
Theorem file_beats_environment (schema : ConfigSet.Schema)
    (environ : gmap string string) (fs fs' : Settings.Files)
    (final : gmap string pyvalue) (f : ConfigSet.ConfigField)
    (text : string) (nested : list (string * pyvalue)) (raw v : pyvalue) :
  Settings.ARCHIVEBOX_CONFIG_FILE fs = Some text → toml_loads text = Some nested →
  NoDup (ConfigSet.name <$> schema) → f ∈ schema →
  PyDict.get (ConfigSet.name f) (ConfigSet.FlatToml_init schema nested) = Some raw →
  is_dict raw = false →
  ConfigSet.validate_python (ConfigSet.name f) (ConfigSet.annotation f) raw = Ok v →
  is_callable v = false →
  load_config Settings.all_layers schema [] environ fs = (Ok final, fs') →
  final !! ConfigSet.name f = Some v.
Proof. exact (load_config_file_field schema environ fs fs' final f text nested raw v). Qed.

(** X6: with [load_from_configfile] switched off and no config file, choosing
    the sources raises [KeyError]: the file source is popped from a dict
    that never had it. *)
Theorem configfile_switch_needs_the_file (flags : Settings.LoadFlags)
    (schema : ConfigSet.Schema) (init_settings env_settings : ConfigSet.Source)
    (fs : Settings.Files) :
  Settings.ARCHIVEBOX_CONFIG_FILE fs = None →
  Settings.load_from_environment flags = true →
  Settings.load_from_configfile flags = false →
  settings_customise_sources flags schema init_settings env_settings fs
  = (Raise (KeyError "configfile"), fs).
Proof.
  intros Hfile Henv Hconf.
  unfold Settings.settings_customise_sources, io_bind, io_try, io_lift.
  by rewrite Hfile, Henv, Hconf.
Qed.

(** X7: a file that does not parse as TOML, that [configparser] reads and
    that [convert] turns into text that does parse, is migrated by the first
    load: afterwards [.ArchiveBox.conf.bak] holds the legacy text and
    [ArchiveBox.conf] the converted text, and loading again changes
    neither. *)
Theorem migration_happens_once (flags : Settings.LoadFlags) (schema : ConfigSet.Schema)
    (init_kwargs : list (string * pyvalue)) (environ : gmap string string)
    (fs : Settings.Files) (original_ini new_toml : string)
    (nested : list (string * pyvalue)) :
  let load := load_config flags schema init_kwargs environ in
  let migrated := {| Settings.ARCHIVEBOX_CONFIG_FILE := Some new_toml;
                     Settings.ARCHIVEBOX_CONFIG_FILE_BAK := Some original_ini |} in
  Settings.ARCHIVEBOX_CONFIG_FILE fs = Some original_ini →
  toml_loads original_ini = None →
  convert_text original_ini = Ok new_toml →
  toml_loads new_toml = Some nested →
  (load fs).2 = migrated ∧ (load migrated).2 = migrated.
Proof.
  intros load migrated Hfile Hlegacy Hconvert Hparse.
  assert (Hload : ∀ fs0, (load fs0).2
            = (settings_customise_sources flags schema (ConfigSet.InitSettings init_kwargs)
                 (ConfigSet.EnvSettings environ) fs0).2).
  { intros fs0. unfold load, Settings.load_config. apply io_bind_lift_files. }
  split.
  - rewrite Hload. unfold Settings.settings_customise_sources.
    rewrite io_bind_lift_files, Hfile.
    unfold io_try, io_bind, Settings.FlatToml at 1. rewrite Hfile, Hlegacy.
    cbn [Settings.is_TOMLDecodeError].
    unfold Settings.read_config_text. rewrite Hfile.
    unfold Settings.write_backup_text, io_lift. rewrite Hconvert.
    unfold Settings.write_config_text, Settings.FlatToml. simpl. by rewrite Hparse.
  - rewrite Hload.
    by apply (customise_sources_structured toml_loads read_string literal_eval json_loads
                flags schema _ _ migrated new_toml nested).
Qed.

(** X8: when the conversion of a legacy file raises, the load raises the same
    exception after the backup has been written; [ArchiveBox.conf] keeps
    the legacy text, so every later load fails in the same way. *)
Theorem failed_migration_keeps_the_legacy_file (flags : Settings.LoadFlags)
    (schema : ConfigSet.Schema) (init_kwargs : list (string * pyvalue))
    (environ : gmap string string) (fs : Settings.Files) (original_ini : string) (e : pyexc) :
  let load := load_config flags schema init_kwargs environ in
  let stuck := {| Settings.ARCHIVEBOX_CONFIG_FILE := Some original_ini;
                  Settings.ARCHIVEBOX_CONFIG_FILE_BAK := Some original_ini |} in
  Settings.ARCHIVEBOX_CONFIG_FILE fs = Some original_ini →
  toml_loads original_ini = None →
  convert_text original_ini = Raise e →
  load fs = (Raise e, stuck) ∧ load stuck = (Raise e, stuck).
Proof.
  intros load stuck Hfile Hlegacy Hconvert.
  assert (Hgo : ∀ fs0, Settings.ARCHIVEBOX_CONFIG_FILE fs0 = Some original_ini →
            load fs0 = (Raise e, {| Settings.ARCHIVEBOX_CONFIG_FILE := Some original_ini;
                                    Settings.ARCHIVEBOX_CONFIG_FILE_BAK := Some original_ini |})).
  { intros fs0 Hfile0. unfold load, Settings.load_config, Settings.settings_customise_sources.
    unfold io_bind at 1 2. rewrite Hfile0.
    unfold io_try, io_bind, Settings.FlatToml. rewrite Hfile0, Hlegacy.
    cbn [Settings.is_TOMLDecodeError].
    unfold Settings.read_config_text. rewrite Hfile0.
    unfold Settings.write_backup_text, io_lift. rewrite Hconvert. simpl.
    by rewrite Hfile0. }
  split; [by apply Hgo|]. by apply Hgo.
Qed.
End load_facts.

Lemma environment_beats_default_without_file_witness :
  ({[ "TIMEOUT" := VInt 10; "MEDIA_TIMEOUT" := VInt 10 ]} : gmap string pyvalue)
    !! "TIMEOUT" = Some (VInt 10)
  ∧ Samples.no_files = Samples.no_files.
Proof.
  apply (environment_beats_default_without_file Toml.loads Samples.read_string_sample
           IniToToml.literal_eval_sample IniToToml.json_loads_sample
           Samples.ArchivingConfig {[ "TIMEOUT" := "10" ]} Samples.no_files Samples.no_files
           _ Samples.TIMEOUT "10" (VInt 10)).
  - reflexivity.
  - vm_compute. repeat constructor; set_solver.
  - left.
  - vm_refl.
  - vm_refl.
  - vm_refl.
Defined.

Lemma file_beats_environment_witness :
  ({[ "TIMEOUT" := VInt 30; "MEDIA_TIMEOUT" := VInt 30 ]} : gmap string pyvalue)
    !! "TIMEOUT" = Some (VInt 30).
Proof.
  apply (file_beats_environment Toml.loads Samples.read_string_sample
           IniToToml.literal_eval_sample IniToToml.json_loads_sample
           Samples.ArchivingConfig {[ "TIMEOUT" := "10" ]}
           (Samples.only_config "TIMEOUT = 30") (Samples.only_config "TIMEOUT = 30")
           _ Samples.TIMEOUT "TIMEOUT = 30" [("TIMEOUT", VInt 30)] (VInt 30) (VInt 30)).
  - reflexivity.
  - vm_refl.
  - vm_compute. repeat constructor; set_solver.
  - left.
  - vm_refl.
  - reflexivity.
  - reflexivity.
  - reflexivity.
  - vm_refl.
Defined.

Lemma configfile_switch_needs_the_file_witness :
  Settings.settings_customise_sources Toml.loads Samples.read_string_sample
    IniToToml.literal_eval_sample IniToToml.json_loads_sample
    Samples.no_configfile Samples.ArchivingConfig
    (ConfigSet.InitSettings []) (ConfigSet.EnvSettings ∅) Samples.no_files
  = (Raise (KeyError "configfile"), Samples.no_files).
Proof.
  apply configfile_switch_needs_the_file; reflexivity.
Defined.

Lemma migration_happens_once_witness :
  let migrated :=
    {| Settings.ARCHIVEBOX_CONFIG_FILE :=
         Some (IniToToml.TOML_HEADER +:+ "[SERVER_CONFIG]" +:+ nl +:+ "TIMEOUT = 30");
       Settings.ARCHIVEBOX_CONFIG_FILE_BAK := Some Samples.legacy_upper |} in
  (Samples.load Samples.ArchivingConfig ∅ (Samples.only_config Samples.legacy_upper)).2 = migrated
  ∧ (Samples.load Samples.ArchivingConfig ∅ migrated).2 = migrated.
Proof.
  apply (migration_happens_once Toml.loads Samples.read_string_sample
           IniToToml.literal_eval_sample IniToToml.json_loads_sample
           Settings.all_layers Samples.ArchivingConfig [] ∅
           (Samples.only_config Samples.legacy_upper) Samples.legacy_upper
           (IniToToml.TOML_HEADER +:+ "[SERVER_CONFIG]" +:+ nl +:+ "TIMEOUT = 30")
           [("SERVER_CONFIG", VDict [("TIMEOUT", VInt 30)])]).
  - reflexivity.
  - vm_refl.
  - vm_refl.
  - vm_refl.
Defined.

Lemma failed_migration_keeps_the_legacy_file_witness :
  let stuck := {| Settings.ARCHIVEBOX_CONFIG_FILE := Some Samples.legacy_lower;
                  Settings.ARCHIVEBOX_CONFIG_FILE_BAK := Some Samples.legacy_lower |} in
  Samples.load Samples.ArchivingConfig ∅ (Samples.only_config Samples.legacy_lower)
    = (Raise (KeyError "GENERAL"), stuck)
  ∧ Samples.load Samples.ArchivingConfig ∅ stuck = (Raise (KeyError "GENERAL"), stuck).
Proof.
  apply (failed_migration_keeps_the_legacy_file Toml.loads Samples.read_string_sample
           IniToToml.literal_eval_sample IniToToml.json_loads_sample
           Settings.all_layers Samples.ArchivingConfig [] ∅
           (Samples.only_config Samples.legacy_lower) Samples.legacy_lower (KeyError "GENERAL")).
  - reflexivity.
  - vm_refl.
  - vm_refl.
Defined.

(** ** More on the browser providers *)

Section provider_more.
Import BinProvider.
Context (self : ProviderClass).
Implicit Types (host : Host) (st : State).

(** X9: a lookup repeated on the same host gives what the first one gave and
    leaves the state where the first one left it, whether that was a cached
    path, a path just found, nothing, or an exception. *)
Theorem on_get_abspath_twice host st (bin_name : string) :
  on_get_abspath self host bin_name (on_get_abspath self host bin_name st).2
  = on_get_abspath self host bin_name st.
Proof.
  unfold on_get_abspath, io_bind, py_assert, io_get, io_lift, io_ret, io_raise,
    set_cache, matching_bins, installed_browser_bins.
  destruct (String.eqb bin_name "chrome"); [|done].
  destruct (_browser_abspaths st !! bin_name) as [cached|] eqn:Hcache.
  { cbn. by rewrite Hcache. }
  destruct (puppeteer_browsers_dir self) as [dir|] eqn:Hdir; cbn.
  2:{ by rewrite Hcache. }
  destruct (last _) as [newest|] eqn:Hlast; cbn.
  { by rewrite lookup_insert_eq. }
  destruct (path_fallback self) as [name|] eqn:Hfb; cbn.
  - destruct (bin_abspath host name) as [abspath|] eqn:Hbin; cbn.
    + by rewrite lookup_insert_eq.
    + by rewrite Hcache.
  - by rewrite Hcache.
Qed.

(** X10: on a cache miss with no globbed path containing the name, a
    provider without a [$PATH] fallback answers [None] and caches nothing,
    so the next lookup scans again; with a fallback, it answers and caches
    what [bin_abspath] finds for the fallback name. *)
Theorem on_get_abspath_nothing_on_disk host st (dir : PyPath.Path) :
  let darwin := String.eqb (PyStr.lower (platform_system host)) "darwin" in
  let found := glob host dir (browser_glob self "*" darwin) in
  puppeteer_browsers_dir self = Some dir →
  _browser_abspaths st !! "chrome" = None →
  (∀ p, p ∈ found → PyStr.contains "chrome" p = false) →
  on_get_abspath self host "chrome" st
  = match path_fallback self ≫= bin_abspath host with
    | Some abspath =>
        (Ok (Some abspath),
         {| _browser_abspaths := <[ "chrome" := abspath ]> (_browser_abspaths st);
            made_dirs := made_dirs st; printed := printed st; executed := executed st |})
    | None => (Ok None, st)
    end.
Proof.
  intros darwin found Hdir Hmiss Hnone.
  unfold on_get_abspath, io_bind, py_assert, io_get, io_lift, matching_bins,
    installed_browser_bins.
  simpl. rewrite Hmiss, Hdir. simpl.
  assert (Hempty : List.filter (PyStr.contains "chrome") (PyPath.sorted found) = []).
  { destruct (List.filter _ _) as [|p l] eqn:E; [done|].
    assert (p ∈ List.filter (PyStr.contains "chrome") (PyPath.sorted found)) as Hp
      by (rewrite E; left).
    apply list_elem_of_In, filter_In in Hp as [Hp Hc].
    apply list_elem_of_In in Hp. rewrite sorted_elem_of in Hp.
    by rewrite (Hnone p Hp) in Hc. }
  change (last (List.filter _ _))
    with (last (List.filter (PyStr.contains "chrome") (PyPath.sorted found))).
  rewrite Hempty. simpl.
  destruct (path_fallback self) as [name|]; simpl; [|done].
  by destruct (bin_abspath host name).
Qed.

(** X11: when the installer exits with 0, [on_install] caches for [chrome]
    the path written after the first space of the last line of the stripped
    stdout, prints nothing, returns the stripped stderr and stdout joined by
    a newline, and a lookup that follows returns the cached path on any
    host. *)
Theorem on_install_success host st (packages : option (list string))
    (installer : PyPath.Path) :
  let pkgs := match packages with
              | Some (p :: ps) => p :: ps
              | _ => on_get_packages "chrome"
              end in
  let cmd := puppeteer_install_args self ++ pkgs in
  let proc := exec host installer cmd in
  let output_info := List.last (PyStr.split "010" (PyStr.strip (stdout proc))) "" in
  let browser_abspath := PyPath.of_str (List.last (PyStr.split1 " " output_info) "") in
  is_Some (SYS_INSTALLER_BIN_ABSPATH host) →
  INSTALLER_BIN_ABSPATH host = Some installer →
  returncode proc = 0 →
  ∃ st',
    on_install self host "chrome" packages st
      = (Ok (PyStr.strip (stderr proc) +:+ nl +:+ PyStr.strip (stdout proc)), st')
    ∧ _browser_abspaths st' = <[ "chrome" := browser_abspath ]> (_browser_abspaths st)
    ∧ printed st' = printed st
    ∧ executed st' = executed st ++ [(installer, cmd)]
    ∧ ∀ host', on_get_abspath self host' "chrome" st' = (Ok (Some browser_abspath), st').
Proof.
  intros pkgs cmd proc output_info browser_abspath Hsys Hinstaller Hrc.
  unfold on_install, setup, io_bind, py_assert.
  rewrite bool_decide_true by done.
  destruct (puppeteer_browsers_dir self) as [dir|]; simpl;
    rewrite Hinstaller; simpl; fold pkgs; fold cmd; fold proc; rewrite Hrc; simpl;
    (eexists; split; [reflexivity|]); simpl; (repeat split; try done);
    intros host'; unfold on_get_abspath, io_bind, py_assert, io_get; simpl;
    by rewrite lookup_insert_eq.
Qed.

(** X12: without the installer binary, an install of [chrome] raises after
    [setup] has made the browsers directory; no subprocess is run and the
    cache stays as it was. *)
Theorem on_install_without_installer host st (packages : option (list string)) :
  is_Some (SYS_INSTALLER_BIN_ABSPATH host) →
  INSTALLER_BIN_ABSPATH host = None →
  ∃ st',
    on_install self host "chrome" packages st
      = (Raise (Exception (MsgInstallNotAvailable (class_name self) (INSTALLER_BIN self))), st')
    ∧ made_dirs st' = made_dirs st ++ option_list (puppeteer_browsers_dir self)
    ∧ _browser_abspaths st' = _browser_abspaths st
    ∧ executed st' = executed st
    ∧ printed st' = printed st.
Proof.
  intros Hsys Hinstaller. unfold on_install, setup, io_bind, py_assert.
  rewrite bool_decide_true by done.
  destruct (puppeteer_browsers_dir self) as [dir|]; simpl; rewrite Hinstaller; simpl;
    (eexists; split; [reflexivity|]); simpl; rewrite ?app_nil_r; done.
Qed.

(** X13: while the system package provider has no installer, [on_install]
    raises the assertion of [setup] for every name, [chrome] included,
    before anything else happens: no directory, no subprocess, no output. *)
Theorem on_install_needs_the_system_provider host st (bin_name : string)
    (packages : option (list string)) :
  SYS_INSTALLER_BIN_ABSPATH host = None →
  on_install self host bin_name packages st = (Raise (AssertionError (setup_message self)), st).
Proof.
  intros Hsys. unfold on_install, setup, io_bind, py_assert.
  rewrite bool_decide_false; [done|]. rewrite Hsys. by intros [? ?].
Qed.
End provider_more.

Lemma on_get_abspath_nothing_on_disk_witness :
  BinProvider.on_get_abspath SampleHosts.playwright SampleHosts.bare_host "chrome"
    SampleHosts.fresh
  = (Ok (Some "/usr/bin/google-chrome-stable"),
     {| BinProvider._browser_abspaths := <[ "chrome" := "/usr/bin/google-chrome-stable" ]> ∅;
        BinProvider.made_dirs := []; BinProvider.printed := [];
        BinProvider.executed := [] |})
  ∧ BinProvider.on_get_abspath SampleHosts.puppeteer SampleHosts.bare_host "chrome"
      SampleHosts.fresh
    = (Ok None, SampleHosts.fresh).
Proof.
  split.
  - apply (on_get_abspath_nothing_on_disk SampleHosts.playwright SampleHosts.bare_host
             SampleHosts.fresh "/root/.cache/ms-playwright").
    + reflexivity.
    + reflexivity.
    + intros p Hp. simpl in Hp. by apply elem_of_nil in Hp.
  - apply (on_get_abspath_nothing_on_disk SampleHosts.puppeteer SampleHosts.bare_host
             SampleHosts.fresh SampleHosts.LIB_DIR_BROWSERS).
    + reflexivity.
    + reflexivity.
    + intros p Hp. simpl in Hp. by apply elem_of_nil in Hp.
Defined.

Lemma on_install_success_witness :
  ∃ st',
    BinProvider.on_install SampleHosts.puppeteer SampleHosts.linux_host_99 "chrome" None
      SampleHosts.fresh
    = (Ok (nl +:+ "Downloading" +:+ nl +:+ "chrome@131.0.6730.0 " +:+ SampleHosts.chrome_131), st')
    ∧ BinProvider._browser_abspaths st' = <[ "chrome" := SampleHosts.chrome_131 ]> ∅
    ∧ BinProvider.printed st' = []
    ∧ BinProvider.executed st'
      = [] ++ [("/usr/bin/npx", ["@puppeteer/browsers"; "install"; "--path";
                                 "/data/lib/browsers"] ++ ["chrome"])]
    ∧ ∀ host', BinProvider.on_get_abspath SampleHosts.puppeteer host' "chrome" st'
               = (Ok (Some SampleHosts.chrome_131), st').
Proof.
  apply (on_install_success SampleHosts.puppeteer SampleHosts.linux_host_99
           SampleHosts.fresh None "/usr/bin/npx").
  - simpl. eauto.
  - reflexivity.
  - reflexivity.
Defined.

Lemma on_install_without_installer_witness :
  ∃ st',
    BinProvider.on_install SampleHosts.playwright SampleHosts.bare_host "chrome" None
      SampleHosts.fresh
    = (Raise (Exception (MsgInstallNotAvailable "PlaywrightBinProvider" "playwright")), st')
    ∧ BinProvider.made_dirs st' = [] ++ ["/root/.cache/ms-playwright"]
    ∧ BinProvider._browser_abspaths st' = ∅
    ∧ BinProvider.executed st' = []
    ∧ BinProvider.printed st' = [].
Proof.
  apply (on_install_without_installer SampleHosts.playwright SampleHosts.bare_host
           SampleHosts.fresh None).
  - simpl. eauto.
  - reflexivity.
Defined.

Lemma on_install_needs_the_system_provider_witness :
  BinProvider.on_install SampleHosts.puppeteer SampleHosts.uninitialised_host "chrome" None
    SampleHosts.fresh
  = (Raise (AssertionError "NPM bin provider not initialized"), SampleHosts.fresh).
Proof.
  apply (on_install_needs_the_system_provider SampleHosts.puppeteer
           SampleHosts.uninitialised_host SampleHosts.fresh "chrome" None).
  reflexivity.
Defined.


(** ** More on the flat TOML source *)

(** X15: an entry of the document that is not a table under one of the ten
    section names (a table under any other name, or a value that is no
    table) is stored whole under its own name: it reaches the loaded data
    only when that name is a field, and the keys inside such a table never
    do. *)
Theorem unrecognised_table_is_not_flattened (schema : ConfigSet.Schema)
    (nested_toml_data : list (string * pyvalue)) (section_name : string) (section : pyvalue)
    (key : string) :
  section_name ∉ ConfigSet.ConfigSectionNames ∨ is_dict section = false →
  PyDict.get key (ConfigSet.FlatToml_init schema (nested_toml_data ++ [(section_name, section)]))
  = if bool_decide (key = section_name)
    then (if bool_decide (key ∈ ConfigSet.model_fields_keys schema) then Some section else None)
    else PyDict.get key (ConfigSet.FlatToml_init schema nested_toml_data).
Proof.
  intros Hcase.
  assert (Hfilter : ∀ d, PyDict.get key (ConfigSet.filter_fields schema d)
            = if bool_decide (key ∈ ConfigSet.model_fields_keys schema)
              then PyDict.get key d else None).
  { intros d.
    exact (pydict_get_filter (λ k, bool_decide (k ∈ ConfigSet.model_fields_keys schema)) d key). }
  unfold ConfigSet.FlatToml_init. rewrite !Hfilter.
  assert (Hflat : ConfigSet.flatten (nested_toml_data ++ [(section_name, section)])
                  = PyDict.set section_name section (ConfigSet.flatten nested_toml_data)).
  { unfold ConfigSet.flatten. rewrite foldl_app. simpl.
    destruct section; try done.
    destruct Hcase as [Hname|Hdict]; [|done]. by rewrite bool_decide_false. }
  rewrite Hflat. destruct (decide (key = section_name)) as [->|Hne].
  - rewrite (bool_decide_true (section_name = section_name)) by done.
    by rewrite pydict_get_set_eq.
  - rewrite (bool_decide_false (key = section_name)) by done.
    by rewrite pydict_get_set_ne by done.
Qed.

Lemma unrecognised_table_is_not_flattened_witness :
  PyDict.get "TIMEOUT"
    (ConfigSet.FlatToml_init Samples.ArchivingConfig
       ([("ARCHIVING_CONFIG", VDict [("TIMEOUT", VInt 30)])]
        ++ [("archiving_config", VDict [("TIMEOUT", VInt 5)])]))
  = Some (VInt 30).
Proof.
  rewrite (unrecognised_table_is_not_flattened Samples.ArchivingConfig
             [("ARCHIVING_CONFIG", VDict [("TIMEOUT", VInt 30)])]
             "archiving_config" (VDict [("TIMEOUT", VInt 5)]) "TIMEOUT").
  - reflexivity.
  - left. unfold ConfigSet.ConfigSectionNames. intros H.
    repeat (apply elem_of_cons in H as [H|H]; [discriminate H|]).
    by apply elem_of_nil in H.
Defined.

(** ** More on [load_ini_value] and [convert] *)

Section load_ini_value_more.
Context (literal_eval json_loads : string → option pyvalue).
Notation load_ini_value := (IniToToml.load_ini_value literal_eval json_loads).
Notation convert := (IniToToml.convert literal_eval json_loads).

Lemma load_ini_value_isdigit (val : string) :
  PyStr.isdigit val = true →
  load_ini_value val
  = if String.eqb val "1" then Ok (VBool true)
    else if String.eqb val "0" then Ok (VBool false)
    else if bool_decide (String.length val ≤ PyStr.int_max_str_digits)%nat
         then Ok (VInt (PyStr.digits_value val))
         else Raise (ValueError (PyStr.MsgIntFromStr (String.length val))).
Proof.
  intros Hd. unfold IniToToml.load_ini_value.
  rewrite (lower_digits val (isdigit_forallb val Hd)), Hd.
  destruct (String.eqb_spec val "1") as [->|H1]; [done|].
  destruct (String.eqb_spec val "0") as [->|H0]; [done|].
  rewrite bool_decide_false.
  2:{ intros H. repeat (apply elem_of_cons in H as [->|H]; [done|]). by apply elem_of_nil in H. }
  rewrite bool_decide_false.
  2:{ intros H. repeat (apply elem_of_cons in H as [->|H]; [done|]). by apply elem_of_nil in H. }
  unfold PyStr.int.
  destruct (decide (PyStr.int_max_str_digits < String.length val)%nat) as [Hlen|Hlen].
  - rewrite bool_decide_false; [done|]. intros H. by apply Nat.lt_nge in Hlen.
  - rewrite bool_decide_true; [done|]. by apply Nat.nlt_ge.
Qed.

(** X16: a value made of decimal digits never reaches [ast.literal_eval] or
    [json.loads]: [1] loads as [True], [0] as [False], every other digit
    string of at most 4300 characters, zero-padded ones included, as the
    integer it writes, and a longer one raises the [ValueError] of [int]. *)
Theorem digits_load_without_the_parsers (val : string) :
  PyStr.isdigit val = true →
  load_ini_value val
  = if String.eqb val "1" then Ok (VBool true)
    else if String.eqb val "0" then Ok (VBool false)
    else if bool_decide (String.length val ≤ PyStr.int_max_str_digits)%nat
         then Ok (VInt (PyStr.digits_value val))
         else Raise (ValueError (PyStr.MsgIntFromStr (String.length val))).
Proof. exact (load_ini_value_isdigit val). Qed.

(** X17: the decimal text of a natural number of at most 4300 digits loads
    as that number, except that the texts of 0 and 1 load as the
    booleans. *)
Theorem decimal_text_loads_as_the_number (n : Z) :
  (0 ≤ n)%Z →
  (String.length (pretty n) ≤ PyStr.int_max_str_digits)%nat →
  load_ini_value (pretty n)
  = Ok (if (n =? 0)%Z then VBool false else if (n =? 1)%Z then VBool true else VInt n).
Proof.
  intros Hn Hlen. destruct n as [|p|p]; [done| |lia].
  destruct (pretty_pos_digits p) as (c & ds & Hp & Hc & Hnz & Hds & Hval).
  rewrite load_ini_value_isdigit.
  2:{ rewrite Hp. simpl. by rewrite Hc, Hds. }
  rewrite (bool_decide_true _ Hlen).
  rewrite Hp, Hval, <-Hp.
  destruct (String.eqb_spec (pretty (Z.pos p)) "1") as [H1|H1].
  { assert (Z.pos p = 1)%Z as -> by (apply (inj pretty); by rewrite H1). done. }
  destruct (String.eqb_spec (pretty (Z.pos p)) "0") as [H0|H0].
  { assert (Z.pos p = 0)%Z by (apply (inj pretty); by rewrite H0). done. }
  destruct (Z.eqb_spec (Z.pos p) 1) as [E|E]; [|done].
  by rewrite E in H1.
Qed.
End load_ini_value_more.

Lemma digits_load_without_the_parsers_witness :
  IniToToml.load_ini_value (λ _, Some VNone) (λ _, Some VNone) "007" = Ok (VInt 7)
  ∧ IniToToml.load_ini_value (λ _, Some VNone) (λ _, Some VNone) "1" = Ok (VBool true)
  ∧ IniToToml.load_ini_value (λ _, Some VNone) (λ _, Some VNone) (Samples.nines 4301)
    = Raise (ValueError (PyStr.MsgIntFromStr 4301)).
Proof.
  split; [|split].
  - apply (digits_load_without_the_parsers (λ _, Some VNone) (λ _, Some VNone) "007").
    reflexivity.
  - apply (digits_load_without_the_parsers (λ _, Some VNone) (λ _, Some VNone) "1").
    reflexivity.
  - rewrite (digits_load_without_the_parsers (λ _, Some VNone) (λ _, Some VNone)
               (Samples.nines 4301)); by vm_compute.
Defined.

Lemma decimal_text_loads_as_the_number_witness :
  IniToToml.load_ini_value IniToToml.literal_eval_sample IniToToml.json_loads_sample
    (pretty 3600%Z) = Ok (VInt 3600).
Proof.
  apply (decimal_text_loads_as_the_number IniToToml.literal_eval_sample
           IniToToml.json_loads_sample 3600).
  - lia.
  - vm_compute. lia.
Defined.

Section convert_more.
Context (literal_eval json_loads : string → option pyvalue).
Notation load_ini_value := (IniToToml.load_ini_value literal_eval json_loads).
Notation convert_items := (IniToToml.convert_items literal_eval json_loads).
Notation convert_sections := (IniToToml.convert_sections literal_eval json_loads).
Notation convert := (IniToToml.convert literal_eval json_loads).

Lemma convert_items_app section (a b : list (string * string)) : ∀ d,
  convert_items section d (a ++ b)
  = d' ← convert_items section d a; convert_items section d' b.
Proof.
  induction a as [|kv a IH]; intros d; [done|]. simpl.
  destruct (IniToToml.convert_item _ _ _ _ _) as [d'|]; [|done]. simpl. apply IH.
Qed.

Lemma convert_sections_app (a b : IniToToml.ini_config) : ∀ d,
  convert_sections d (a ++ b) = d' ← convert_sections d a; convert_sections d' b.
Proof.
  induction a as [|[section items] a IH]; intros d; [done|]. simpl.
  destruct items as [items|e]; [|done]. simpl.
  destruct (convert_items _ _ _) as [d'|]; [|done]. simpl. apply IH.
Qed.

(** X18: when everything before a value converts and [json.dumps] rejects
    what the value loads as, [convert] raises the exception of [json.dumps];
    this comes before the [KeyError] of a section name with a lower-case
    letter, since the value is dumped before the table is looked up. *)
Theorem convert_unserializable_value (before rest : IniToToml.ini_config)
    (section : string) (items_before items_after : list (string * string))
    (kv : string * string) (parsed_value : pyvalue) (e : pyexc) :
  IniSpec.all_serializable literal_eval json_loads
    (before ++ [(section, Ok items_before)]) = true →
  IniSpec.first_orphan [] (before ++ [(section, Ok items_before)]) = None →
  load_ini_value kv.2 = Ok parsed_value →
  Json.dumps parsed_value = Raise e →
  convert (before ++ (section, Ok (items_before ++ kv :: items_after)) :: rest) = Raise e.
Proof.
  intros Hser Horphan Hload Hdump.
  pose proof (convert_sections_first_orphan literal_eval json_loads
                (before ++ [(section, Ok items_before)]) [] [] (λ k, reflexivity _) Hser) as H.
  rewrite Horphan in H. destruct H as [d' Hd'].
  rewrite convert_sections_app in Hd'.
  unfold IniToToml.convert. rewrite convert_sections_app.
  destruct (convert_sections [] before) as [d1|]; [|done]. simpl in Hd' |- *.
  rewrite convert_items_app.
  destruct (convert_items section _ items_before) as [d2|]; [|done]. simpl.
  unfold IniToToml.convert_item. rewrite Hload. simpl. by rewrite Hdump.
Qed.
End convert_more.

Lemma convert_unserializable_value_witness :
  IniToToml.convert IniToToml.literal_eval_sample IniToToml.json_loads_sample
    ([("SERVER_CONFIG", Ok [("PORT", "8000")])]
     ++ [("general", Ok ([] ++ ("SECRET", "b'x'") :: [("A", "1")]))])
  = Raise (TypeError "Object of type bytes is not JSON serializable").
Proof.
  apply (convert_unserializable_value IniToToml.literal_eval_sample IniToToml.json_loads_sample
           [("SERVER_CONFIG", Ok [("PORT", "8000")])] [] "general" [] [("A", "1")]
           ("SECRET", "b'x'") (VOther "bytes" "b'x'")).
  - reflexivity.
  - reflexivity.
  - reflexivity.
  - reflexivity.
Defined.

(** ** [update_in_place] *)

Lemma environ_after_lookup (repr : pyvalue → string) (kwargs : list (string * pyvalue)) :
  ∀ (environ : gmap string string) key value,
  NoDup kwargs.*1 → (key, value) ∈ kwargs →
  ConfigUpdate.environ_after repr kwargs environ !! key = Some (ConfigUpdate.py_str repr value).
Proof.
  unfold ConfigUpdate.environ_after.
  induction kwargs as [|[k v] kwargs IH] using rev_ind; intros environ key value Hnd Hin.
  - by apply elem_of_nil in Hin.
  - rewrite foldl_app. simpl. rewrite fmap_app in Hnd. simpl in Hnd.
    apply NoDup_app in Hnd as (Hnd & Hfresh & _).
    apply elem_of_app in Hin as [Hin|Hin].
    + rewrite lookup_insert_ne; [by apply IH|].
      intros <-. apply (Hfresh k); [|left].
      apply list_elem_of_fmap. by exists (k, value).
    + apply list_elem_of_singleton in Hin. simplify_eq. by rewrite lookup_insert_eq.
Qed.

Section update_in_place_facts.
Context (toml_loads : string → option (list (string * pyvalue))).
Context (read_string : string → result IniToToml.ini_config).
Context (literal_eval json_loads : string → option pyvalue).
Context (repr : pyvalue → string) (class_attrs : string → option pyvalue).
Notation update_in_place :=
  (ConfigUpdate.update_in_place toml_loads read_string literal_eval json_loads repr class_attrs).
Notation update_keys := (ConfigUpdate.update_keys repr class_attrs).
Notation update_key := (ConfigUpdate.update_key repr class_attrs).
Notation reinit := (ConfigUpdate.reinit toml_loads read_string literal_eval json_loads).
Notation accepted := (ConfigUpdate.accepted repr class_attrs).
Notation py_str := (ConfigUpdate.py_str repr).
Notation load_config := (Settings.load_config toml_loads read_string literal_eval json_loads).
Implicit Types (ps : ConfigUpdate.Process) (self : gmap string pyvalue).

Lemma getattr_known self key :
  ConfigUpdate.known class_attrs self key = true →
  ∃ v, ConfigUpdate.getattr class_attrs self key = Ok v.
Proof.
  unfold ConfigUpdate.known, ConfigUpdate.getattr. intros H.
  destruct (self !! key) as [v|]; [eauto|].
  destruct (class_attrs key) as [v|]; [eauto|].
  by vm_compute in H.
Qed.

Lemma getattr_unknown self key :
  ConfigUpdate.known class_attrs self key = false →
  ConfigUpdate.getattr class_attrs self key = Raise (AttributeError key).
Proof.
  unfold ConfigUpdate.known, ConfigUpdate.getattr. intros H.
  destruct (self !! key) as [v|].
  { rewrite bool_decide_true in H by eauto. done. }
  destruct (class_attrs key) as [v|]; [|done].
  rewrite (bool_decide_true (is_Some (Some v))) in H by eauto. by rewrite orb_true_r in H.
Qed.

Lemma update_key_accepted self warn kv ps :
  accepted self kv = true →
  ∃ lines,
    update_key self warn kv ps
    = (Ok (), {| ConfigUpdate.environ := <[kv.1 := py_str kv.2]> (ConfigUpdate.environ ps);
                 ConfigUpdate.files := ConfigUpdate.files ps;
                 ConfigUpdate.printed := ConfigUpdate.printed ps ++ lines |})
    ∧ length lines = if warn then 1%nat else 0%nat.
Proof.
  unfold ConfigUpdate.accepted. intros [Hput Hknown]%andb_true_iff.
  destruct (getattr_known self kv.1 Hknown) as [v Hv].
  unfold ConfigUpdate.update_key, io_bind, ConfigUpdate.environ_set, io_lift.
  rewrite Hput, Hv. destruct warn.
  - eexists [_]. split; [reflexivity|done].
  - exists []. split; [|done]. unfold io_ret. simpl. by rewrite app_nil_r.
Qed.

Lemma update_keys_accepted self warn kwargs : ∀ ps,
  forallb (accepted self) kwargs = true →
  ∃ lines,
    update_keys self warn kwargs ps
    = (Ok (), {| ConfigUpdate.environ :=
                   ConfigUpdate.environ_after repr kwargs (ConfigUpdate.environ ps);
                 ConfigUpdate.files := ConfigUpdate.files ps;
                 ConfigUpdate.printed := ConfigUpdate.printed ps ++ lines |})
    ∧ length lines = if warn then length kwargs else 0%nat.
Proof.
  induction kwargs as [|kv kwargs IH]; intros ps Hall.
  - exists []. split; [|by destruct warn]. destruct ps. simpl. unfold io_ret.
    by rewrite app_nil_r.
  - simpl in Hall. apply andb_true_iff in Hall as [Hkv Hall].
    destruct (update_key_accepted self warn kv ps Hkv) as (l1 & H1 & Hl1).
    cbn [ConfigUpdate.update_keys]. unfold io_bind at 1. rewrite H1.
    destruct (IH {| ConfigUpdate.environ := <[kv.1 := py_str kv.2]> (ConfigUpdate.environ ps);
                    ConfigUpdate.files := ConfigUpdate.files ps;
                    ConfigUpdate.printed := ConfigUpdate.printed ps ++ l1 |} Hall)
      as (l2 & H2 & Hl2).
    rewrite H2. simpl. exists (l1 ++ l2). split.
    + by rewrite app_assoc.
    + rewrite length_app, Hl1, Hl2. by destruct warn.
Qed.

Lemma update_keys_unknown self warn before key value rest : ∀ ps,
  forallb (accepted self) before = true →
  ConfigUpdate.putenv_ok key (py_str value) = true →
  ConfigUpdate.known class_attrs self key = false →
  ∃ lines,
    update_keys self warn (before ++ (key, value) :: rest) ps
    = (Raise (AttributeError key),
       {| ConfigUpdate.environ :=
            ConfigUpdate.environ_after repr (before ++ [(key, value)]) (ConfigUpdate.environ ps);
          ConfigUpdate.files := ConfigUpdate.files ps;
          ConfigUpdate.printed := ConfigUpdate.printed ps ++ lines |})
    ∧ length lines = if warn then length before else 0%nat.
Proof.
  intros ps Hall Hput Hknown. revert ps.
  induction before as [|kv before IH]; intros ps.
  - exists []. split; [|by destruct warn]. simpl.
    unfold io_bind, ConfigUpdate.update_key, io_bind, ConfigUpdate.environ_set, io_lift.
    simpl. rewrite Hput, (getattr_unknown self key Hknown). simpl. by rewrite app_nil_r.
  - simpl in Hall. apply andb_true_iff in Hall as [Hkv Hall].
    destruct (update_key_accepted self warn kv ps Hkv) as (l1 & H1 & Hl1).
    rewrite <-app_comm_cons. cbn [ConfigUpdate.update_keys]. unfold io_bind at 1. rewrite H1.
    destruct (IH Hall
                {| ConfigUpdate.environ := <[kv.1 := py_str kv.2]> (ConfigUpdate.environ ps);
                   ConfigUpdate.files := ConfigUpdate.files ps;
                   ConfigUpdate.printed := ConfigUpdate.printed ps ++ l1 |})
      as (l2 & H2 & Hl2).
    rewrite H2. simpl. exists (l1 ++ l2). split.
    + by rewrite app_assoc.
    + rewrite length_app, Hl1, Hl2. by destruct warn.
Qed.

(** What [update_in_place] does when every pair is accepted: the environment
    is written, then the config set is built again. *)
Lemma update_in_place_accepted flags schema self warn kwargs ps :
  forallb (accepted self) kwargs = true →
  ∃ lines,
    update_in_place flags schema self warn kwargs ps
    = reinit flags schema
        {| ConfigUpdate.environ :=
             ConfigUpdate.environ_after repr kwargs (ConfigUpdate.environ ps);
           ConfigUpdate.files := ConfigUpdate.files ps;
           ConfigUpdate.printed := ConfigUpdate.printed ps ++ lines |}
    ∧ length lines = if warn then S (length kwargs) else 0%nat.
Proof.
  intros Hall. unfold ConfigUpdate.update_in_place. destruct warn.
  - unfold io_bind at 1. cbn [ConfigUpdate.print].
    destruct (update_keys_accepted self true kwargs
                {| ConfigUpdate.environ := ConfigUpdate.environ ps;
                   ConfigUpdate.files := ConfigUpdate.files ps;
                   ConfigUpdate.printed := ConfigUpdate.printed ps ++ [ConfigUpdate.WARNING] |}
                Hall) as (lines & H & Hl).
    unfold io_bind. unfold ConfigUpdate.print. rewrite H. simpl.
    exists (ConfigUpdate.WARNING :: lines). split.
    + by rewrite <-app_assoc.
    + simpl. by rewrite Hl.
  - destruct (update_keys_accepted self false kwargs ps Hall) as (lines & H & Hl).
    unfold io_bind, io_ret. rewrite H. exists lines. by split.
Qed.

(** X19: a name that is no attribute of the config set makes
    [update_in_place] raise [AttributeError] only after the environment
    variable of that name has been written, as have those of the pairs
    before it; the pairs after it are not written, the config set is not
    built again and no file is touched. *)
Theorem update_in_place_unknown_key flags schema self warn
    (before rest : list (string * pyvalue)) (key : string) (value : pyvalue) ps :
  forallb (accepted self) before = true →
  ConfigUpdate.putenv_ok key (py_str value) = true →
  ConfigUpdate.known class_attrs self key = false →
  ∃ ps',
    update_in_place flags schema self warn (before ++ (key, value) :: rest) ps
    = (Raise (AttributeError key), ps')
    ∧ ConfigUpdate.environ ps'
      = ConfigUpdate.environ_after repr (before ++ [(key, value)]) (ConfigUpdate.environ ps)
    ∧ ConfigUpdate.environ ps' !! key = Some (py_str value)
    ∧ ConfigUpdate.files ps' = ConfigUpdate.files ps.
Proof.
  intros Hall Hput Hknown. unfold ConfigUpdate.update_in_place.
  assert (Hgo : ∀ ps0, ∃ ps',
            update_keys self warn (before ++ (key, value) :: rest) ps0
            = (Raise (AttributeError key), ps')
            ∧ ConfigUpdate.environ ps'
              = ConfigUpdate.environ_after repr (before ++ [(key, value)]) (ConfigUpdate.environ ps0)
            ∧ ConfigUpdate.files ps' = ConfigUpdate.files ps0).
  { intros ps0.
    destruct (update_keys_unknown self warn before key value rest ps0 Hall Hput Hknown)
      as (lines & H & _).
    eexists. split; [exact H|]. by split. }
  assert (Hlast : ∀ env, ConfigUpdate.environ_after repr (before ++ [(key, value)]) env !! key
                         = Some (py_str value)).
  { intros env. unfold ConfigUpdate.environ_after. rewrite foldl_app. simpl.
    by rewrite lookup_insert_eq. }
  destruct warn.
  - unfold io_bind at 1. cbn [ConfigUpdate.print].
    destruct (Hgo {| ConfigUpdate.environ := ConfigUpdate.environ ps;
                     ConfigUpdate.files := ConfigUpdate.files ps;
                     ConfigUpdate.printed := ConfigUpdate.printed ps ++ [ConfigUpdate.WARNING] |})
      as (ps' & H & Henv & Hfiles).
    unfold io_bind, ConfigUpdate.print. rewrite H. exists ps'.
    split; [done|]. split; [done|]. split; [|done]. rewrite Henv. apply Hlast.
  - destruct (Hgo ps) as (ps' & H & Henv & Hfiles).
    unfold io_bind, io_ret. rewrite H. exists ps'.
    split; [done|]. split; [done|]. split; [|done]. rewrite Henv. apply Hlast.
Qed.

(** X20: without a config file, [update_in_place] reaches a declared field
    through the environment: the field resolves to what validation makes of
    the text [str(value)], the environment keeps that text, and no file is
    written. *)
Theorem update_in_place_without_file schema self warn (kwargs : list (string * pyvalue))
    (f : ConfigSet.ConfigField) (value v : pyvalue) ps ps' (final : gmap string pyvalue) :
  Settings.ARCHIVEBOX_CONFIG_FILE (ConfigUpdate.files ps) = None →
  NoDup (ConfigSet.name <$> schema) → f ∈ schema →
  NoDup kwargs.*1 → (ConfigSet.name f, value) ∈ kwargs →
  forallb (accepted self) kwargs = true →
  ConfigSet.validate_python (ConfigSet.name f) (ConfigSet.annotation f) (VStr (py_str value))
    = Ok v →
  update_in_place Settings.all_layers schema self warn kwargs ps = (Ok final, ps') →
  final !! ConfigSet.name f = Some v
  ∧ ConfigUpdate.environ ps' !! ConfigSet.name f = Some (py_str value)
  ∧ ConfigUpdate.files ps' = ConfigUpdate.files ps.
Proof.
  intros Hfile Hnd Hin Hkeys Hkv Hall Hv Hrun.
  destruct (update_in_place_accepted Settings.all_layers schema self warn kwargs ps Hall)
    as (lines & H & _).
  rewrite H in Hrun. unfold ConfigUpdate.reinit in Hrun. cbn [ConfigUpdate.environ
    ConfigUpdate.files ConfigUpdate.printed] in Hrun.
  destruct (load_config _ _ _ _ _) as [r fs] eqn:Hload. simplify_eq. simpl.
  pose proof (environ_after_lookup repr kwargs (ConfigUpdate.environ ps) _ _ Hkeys Hkv) as Henv.
  destruct (load_config_environment_field toml_loads read_string literal_eval json_loads
              schema _ _ _ final f _ v Hfile Hnd Hin Henv Hv Hload) as [Hfinal ->].
  done.
Qed.

(** X21: when the config file parses as TOML and sets a declared field,
    [update_in_place] does not change that field: the environment variable
    is written, yet the config set that is built again still has the
    validated value of the file. *)
Theorem update_in_place_cannot_override_the_file schema self warn
    (kwargs : list (string * pyvalue)) (f : ConfigSet.ConfigField) (value raw v : pyvalue)
    (text : string) (nested : list (string * pyvalue)) ps ps' (final : gmap string pyvalue) :
  Settings.ARCHIVEBOX_CONFIG_FILE (ConfigUpdate.files ps) = Some text →
  toml_loads text = Some nested →
  NoDup (ConfigSet.name <$> schema) → f ∈ schema →
  PyDict.get (ConfigSet.name f) (ConfigSet.FlatToml_init schema nested) = Some raw →
  is_dict raw = false →
  ConfigSet.validate_python (ConfigSet.name f) (ConfigSet.annotation f) raw = Ok v →
  is_callable v = false →
  NoDup kwargs.*1 → (ConfigSet.name f, value) ∈ kwargs →
  forallb (accepted self) kwargs = true →
  update_in_place Settings.all_layers schema self warn kwargs ps = (Ok final, ps') →
  final !! ConfigSet.name f = Some v
  ∧ ConfigUpdate.environ ps' !! ConfigSet.name f = Some (py_str value).
Proof.
  intros Hfile Hparse Hnd Hin Hraw Hdict Hv Hc Hkeys Hkv Hall Hrun.
  destruct (update_in_place_accepted Settings.all_layers schema self warn kwargs ps Hall)
    as (lines & H & _).
  rewrite H in Hrun. unfold ConfigUpdate.reinit in Hrun. cbn [ConfigUpdate.environ
    ConfigUpdate.files ConfigUpdate.printed] in Hrun.
  destruct (load_config _ _ _ _ _) as [r fs] eqn:Hload. simplify_eq. simpl.
  split.
  - exact (load_config_file_field toml_loads read_string literal_eval json_loads
             schema _ _ _ final f text nested raw v Hfile Hparse Hnd Hin Hraw Hdict Hv Hc Hload).
  - by apply environ_after_lookup.
Qed.
End update_in_place_facts.

Lemma update_in_place_unknown_key_witness :
  ∃ ps',
    ConfigUpdate.update_in_place Toml.loads Samples.read_string_sample
      IniToToml.literal_eval_sample IniToToml.json_loads_sample
      ConfigUpdate.repr_sample ConfigUpdate.class_attrs_sample
      Settings.all_layers Samples.ArchivingConfig
      {[ "TIMEOUT" := VInt 60; "MEDIA_TIMEOUT" := VInt 60 ]} true
      ([("TIMEOUT", VInt 30)] ++ ("TYPO", VBool true) :: [("MEDIA_TIMEOUT", VInt 5)])
      (ConfigUpdate.start ∅ Samples.no_files)
    = (Raise (AttributeError "TYPO"), ps')
    ∧ ConfigUpdate.environ ps'
      = ConfigUpdate.environ_after ConfigUpdate.repr_sample
          ([("TIMEOUT", VInt 30)] ++ [("TYPO", VBool true)]) ∅
    ∧ ConfigUpdate.environ ps' !! "TYPO" = Some "True"
    ∧ ConfigUpdate.files ps' = Samples.no_files.
Proof.
  apply (update_in_place_unknown_key Toml.loads Samples.read_string_sample
           IniToToml.literal_eval_sample IniToToml.json_loads_sample
           ConfigUpdate.repr_sample ConfigUpdate.class_attrs_sample
           Settings.all_layers Samples.ArchivingConfig
           {[ "TIMEOUT" := VInt 60; "MEDIA_TIMEOUT" := VInt 60 ]} true
           [("TIMEOUT", VInt 30)] [("MEDIA_TIMEOUT", VInt 5)] "TYPO" (VBool true)
           (ConfigUpdate.start ∅ Samples.no_files)).
  - vm_refl.
  - vm_refl.
  - vm_refl.
Defined.

Lemma update_in_place_without_file_witness :
  ({[ "TIMEOUT" := VInt 30; "MEDIA_TIMEOUT" := VInt 30 ]} : gmap string pyvalue)
    !! "TIMEOUT" = Some (VInt 30)
  ∧ ConfigUpdate.environ
      {| ConfigUpdate.environ := {[ "TIMEOUT" := "30" ]};
         ConfigUpdate.files := Samples.no_files;
         ConfigUpdate.printed := [ConfigUpdate.WARNING; "    TIMEOUT=60 -> 30"] |}
    !! "TIMEOUT" = Some "30"
  ∧ ConfigUpdate.files
      {| ConfigUpdate.environ := {[ "TIMEOUT" := "30" ]};
         ConfigUpdate.files := Samples.no_files;
         ConfigUpdate.printed := [ConfigUpdate.WARNING; "    TIMEOUT=60 -> 30"] |}
    = Samples.no_files.
Proof.
  apply (update_in_place_without_file Toml.loads Samples.read_string_sample
           IniToToml.literal_eval_sample IniToToml.json_loads_sample
           ConfigUpdate.repr_sample ConfigUpdate.class_attrs_sample
           Samples.ArchivingConfig
           {[ "TIMEOUT" := VInt 60; "MEDIA_TIMEOUT" := VInt 60 ]} true
           [("TIMEOUT", VInt 30)] Samples.TIMEOUT (VInt 30) (VInt 30)
           (ConfigUpdate.start ∅ Samples.no_files)).
  - reflexivity.
  - vm_compute. repeat constructor; set_solver.
  - left.
  - vm_compute. repeat constructor; set_solver.
  - left.
  - vm_refl.
  - vm_refl.
  - vm_refl.
Defined.

Lemma update_in_place_cannot_override_the_file_witness :
  ({[ "TIMEOUT" := VInt 45; "MEDIA_TIMEOUT" := VInt 45 ]} : gmap string pyvalue)
    !! "TIMEOUT" = Some (VInt 45)
  ∧ ConfigUpdate.environ
      {| ConfigUpdate.environ := {[ "TIMEOUT" := "30" ]};
         ConfigUpdate.files := Samples.only_config ("TIMEOUT = 45" +:+ nl);
         ConfigUpdate.printed := [] |}
    !! "TIMEOUT" = Some "30".
Proof.
  apply (update_in_place_cannot_override_the_file Toml.loads Samples.read_string_sample
           IniToToml.literal_eval_sample IniToToml.json_loads_sample
           ConfigUpdate.repr_sample ConfigUpdate.class_attrs_sample
           Samples.ArchivingConfig
           {[ "TIMEOUT" := VInt 45; "MEDIA_TIMEOUT" := VInt 45 ]} false
           [("TIMEOUT", VInt 30)] Samples.TIMEOUT (VInt 30) (VInt 45) (VInt 45)
           ("TIMEOUT = 45" +:+ nl) [("TIMEOUT", VInt 45)]
           (ConfigUpdate.start ∅ (Samples.only_config ("TIMEOUT = 45" +:+ nl)))).
  - reflexivity.
  - vm_refl.
  - vm_compute. repeat constructor; set_solver.
  - left.
  - vm_refl.
  - reflexivity.
  - vm_refl.
  - reflexivity.
  - vm_compute. repeat constructor; set_solver.
  - left.
  - vm_refl.
  - vm_refl.
Defined.

(** ** The shape of the converted text *)

Lemma rstrip_idemp (s : string) : PyStr.rstrip (PyStr.rstrip s) = PyStr.rstrip s.
Proof.
  induction s as [|c s IH]; [done|]. cbn [PyStr.rstrip].
  destruct (PyStr.rstrip s) as [|x r] eqn:E.
  - destruct (PyStr.is_space_char c) eqn:Hc; [done|]. simpl. by rewrite Hc.
  - cbn [PyStr.rstrip]. cbn [PyStr.rstrip] in IH. by rewrite IH.
Qed.

Lemma prefix_append (a b : string) : PyStr.prefix a (a +:+ b) = true.
Proof.
  induction a as [|c a IH]; [by destruct b|]. rewrite append_cons. simpl.
  by rewrite Ascii.eqb_refl.
Qed.

Lemma lstrip_prefix_header (s : string) :
  PyStr.prefix RoundTrip.header_line s = true → PyStr.lstrip s = s.
Proof.
  destruct s as [|c s]; [done|]. unfold RoundTrip.header_line. cbn [PyStr.prefix PyStr.lstrip].
  destruct (Ascii.eqb_spec "#" c) as [<-|]; [|done]. intros _. done.
Qed.

(** X22: the text [convert] returns begins with the header comment and has
    no white space at either end, whatever the legacy file holds. *)
Theorem convert_keeps_the_header (literal_eval json_loads : string → option pyvalue)
    (config : IniToToml.ini_config) (toml_str : string) :
  IniToToml.convert literal_eval json_loads config = Ok toml_str →
  PyStr.prefix RoundTrip.header_line toml_str = true ∧ PyStr.strip toml_str = toml_str.
Proof.
  unfold IniToToml.convert. intros H.
  destruct (IniToToml.convert_sections _ _ _ _) as [d|]; [|done]. simpl in H.
  injection H as <-. unfold IniToToml.render.
  set (body := IniToToml.concat_str (IniToToml.render_section <$> d)).
  assert (Hshape : IniToToml.TOML_HEADER +:+ body
                   = RoundTrip.header_line +:+ (nl +:+ nl +:+ body)).
  { unfold IniToToml.TOML_HEADER. fold RoundTrip.header_line. by rewrite !append_assoc. }
  rewrite Hshape.
  assert (Hstrip : PyStr.strip (RoundTrip.header_line +:+ (nl +:+ nl +:+ body))
                   = PyStr.rstrip (RoundTrip.header_line +:+ (nl +:+ nl +:+ body))).
  { unfold PyStr.strip. by rewrite (lstrip_prefix_header _ (prefix_append _ _)). }
  rewrite Hstrip.
  assert (Hprefix : PyStr.prefix RoundTrip.header_line
                      (PyStr.rstrip (RoundTrip.header_line +:+ (nl +:+ nl +:+ body))) = true).
  { rewrite rstrip_append. destruct (PyStr.rstrip (nl +:+ nl +:+ body)) as [|x r].
    - by vm_compute.
    - apply prefix_append. }
  split; [done|]. unfold PyStr.strip.
  by rewrite (lstrip_prefix_header _ Hprefix), rstrip_idemp.
Qed.

Lemma convert_keeps_the_header_witness :
  PyStr.prefix RoundTrip.header_line
    (IniToToml.TOML_HEADER +:+ "[SERVER_CONFIG]" +:+ nl +:+ "PORT = 8000") = true
  ∧ PyStr.strip (IniToToml.TOML_HEADER +:+ "[SERVER_CONFIG]" +:+ nl +:+ "PORT = 8000")
    = IniToToml.TOML_HEADER +:+ "[SERVER_CONFIG]" +:+ nl +:+ "PORT = 8000".
Proof.
  apply (convert_keeps_the_header IniToToml.literal_eval_sample IniToToml.json_loads_sample
           [("SERVER_CONFIG", Ok [("PORT", "8000")])]).
  vm_refl.
Defined.
